(** * Trading-Engine: the execution engine, the risk sizer and the
      backtesting loop, embedded from the Python sources

    Conventions of the embedding.

    - A Python [float] is a [pyfloat]: a finite value carried as an exact
      rational, or one of the three special values [inf], [-inf], [nan].
      Finite arithmetic is exact (the rounding of a computed value and
      overflow are not modelled), except in the two price checks of
      [risk_manager], which decide on a computed threshold: there every
      operation is rounded to binary64 by [round64].  The special values
      follow IEEE 754 as Python exposes it.
    - A division by zero raises [ZeroDivisionError] when both operands are
      builtin floats ([fdiv]).  When an operand is a [numpy.float64], as
      the prices and volatilities read from a data frame are, the division
      is numpy's and returns [inf] or [nan] instead ([npdiv]); the model
      has no negative zero, so a zero divisor counts as [+0.0].
    - [None] passed where a number is expected is an [option]; using it in
      arithmetic or in an ordering comparison raises [TypeError].
    - A Python exception is a constructor of [exn]; a method that can raise
      returns a [result].  Methods of [ExecutionHandler] mutate [self] and
      the [Order] objects they are given, also on the way to an exception,
      so they run in a state monad whose state survives a raise.
    - [update_portfolio_risk] needs a square root; that method alone is
      embedded over the real numbers. *)

From Stdlib Require Import ZArith QArith Qabs Qround Qpower Reals Psatz.
From Stdlib Require Import String List Bool.
From stdpp Require Import gmap strings.

(** ** Python exceptions and results *)

Inductive exn : Set :=
  | TypeError
  | KeyError
  | ZeroDivisionError
  | AttributeError
  | ExchangeError.

Inductive result (A : Type) : Type :=
  | Ok (a : A)
  | Raise (e : exn).

Arguments Ok {A} a.
Arguments Raise {A} e.

(** [result] is a monad; the sources' straight-line code is written with
    stdpp's [x ← c; k]. *)
#[global] Instance result_ret : MRet result := fun A a => Ok a.

#[global] Instance result_bind : MBind result := fun A B k r =>
  match r with
  | Ok a => k a
  | Raise e => Raise e
  end.

(** ** Python floats *)

Module PyFloat.

Inductive pyfloat : Set :=
  | Fin (q : Q)
  | PInf
  | NInf
  | NaN.

Definition Qlt_bool (a b : Q) : bool := negb (Qle_bool b a).

(** Sign of a finite value, as needed by [inf * x] and [inf / x]. *)
Definition Qsgn (q : Q) : Z := Z.sgn (Qnum q).

Definition is_zero (x : pyfloat) : bool :=
  match x with
  | Fin q => Qeq_bool q 0
  | _ => false
  end.

Definition inf_of_sign (s : Z) : pyfloat :=
  match s with
  | Z0 => NaN
  | Zpos _ => PInf
  | Zneg _ => NInf
  end.

Definition fsign (x : pyfloat) : Z :=
  match x with
  | Fin q => Qsgn q
  | PInf => 1
  | NInf => (-1)
  | NaN => 0
  end.

Definition fneg (x : pyfloat) : pyfloat :=
  match x with
  | Fin q => Fin (- q)
  | PInf => NInf
  | NInf => PInf
  | NaN => NaN
  end.

Definition fabs (x : pyfloat) : pyfloat :=
  match x with
  | Fin q => Fin (Qabs q)
  | PInf | NInf => PInf
  | NaN => NaN
  end.

Definition fadd (x y : pyfloat) : pyfloat :=
  match x, y with
  | NaN, _ | _, NaN => NaN
  | Fin a, Fin b => Fin (a + b)
  | PInf, NInf | NInf, PInf => NaN
  | PInf, _ | _, PInf => PInf
  | NInf, _ | _, NInf => NInf
  end.

Definition fsub (x y : pyfloat) : pyfloat :=
  match x, y with
  | NaN, _ | _, NaN => NaN
  | Fin a, Fin b => Fin (a - b)
  | PInf, PInf | NInf, NInf => NaN
  | PInf, _ | _, NInf => PInf
  | NInf, _ | _, PInf => NInf
  end.

Definition fmul (x y : pyfloat) : pyfloat :=
  match x, y with
  | NaN, _ | _, NaN => NaN
  | Fin a, Fin b => Fin (a * b)
  | _, _ => inf_of_sign (fsign x * fsign y)
  end.

(** [x / y] on Python floats: a zero divisor raises whatever [x] is. *)
Definition fdiv (x y : pyfloat) : result pyfloat :=
  if is_zero y then Raise ZeroDivisionError
  else Ok (match x, y with
           | NaN, _ | _, NaN => NaN
           | Fin a, Fin b => Fin (a / b)
           | Fin _, _ => Fin 0
           | _, Fin b => inf_of_sign (fsign x * Qsgn b)
           | _, _ => NaN
           end).

(** Comparisons: every comparison with [nan] is false. *)
Definition flt (x y : pyfloat) : bool :=
  match x, y with
  | NaN, _ | _, NaN => false
  | Fin a, Fin b => Qlt_bool a b
  | NInf, NInf | PInf, _ | _, NInf => false
  | NInf, _ | _, PInf => true
  end.

Definition fle (x y : pyfloat) : bool :=
  match x, y with
  | NaN, _ | _, NaN => false
  | Fin a, Fin b => Qle_bool a b
  | NInf, _ | _, PInf => true
  | PInf, _ | _, NInf => false
  end.

Definition fgt (x y : pyfloat) : bool := flt y x.
Definition fge (x y : pyfloat) : bool := fle y x.

Definition feqb (x y : pyfloat) : bool :=
  match x, y with
  | Fin a, Fin b => Qeq_bool a b
  | PInf, PInf | NInf, NInf => true
  | _, _ => false
  end.

(** The builtins [min(a, b)] and [max(a, b)]: the first argument is kept
    unless the second is strictly smaller (larger), so a [nan] in first
    place is returned. *)
Definition pymin (a b : pyfloat) : pyfloat := if flt b a then b else a.
Definition pymax (a b : pyfloat) : pyfloat := if fgt b a then b else a.

(** A Python [int] used in float arithmetic. *)
Definition of_int (z : Z) : pyfloat := Fin (inject_Z z).

(** A possibly missing number used as an operand. *)
Definition num (x : option pyfloat) : result pyfloat :=
  match x with
  | Some v => Ok v
  | None => Raise TypeError
  end.

(** Numeric equality of two floats, up to the representation of the
    rational: the relation the theorems use for computed values. *)
Definition feq (x y : pyfloat) : Prop :=
  match x, y with
  | Fin a, Fin b => (a == b)%Q
  | PInf, PInf | NInf, NInf | NaN, NaN => True
  | _, _ => False
  end.

Definition is_finite (x : pyfloat) : bool :=
  match x with
  | Fin _ => true
  | _ => false
  end.

(** [x / y] when an operand is a [numpy.float64]: as Python's division,
    but a zero divisor gives [inf] with the sign of [x], or [nan] for a
    zero or [nan] dividend, and no exception. *)
Definition npdiv (x y : pyfloat) : pyfloat :=
  match fdiv x y with
  | Ok z => z
  | Raise _ => inf_of_sign (fsign x)
  end.

(** *** Rounding to binary64

    [floor (log2 q)] for a positive rational. *)
Definition Qlog2 (q : Q) : Z :=
  let e := (Z.log2 (Qnum q) - Z.log2 (Zpos (Qden q)))%Z in
  if Qle_bool (2 ^ e)%Q q then e else (e - 1)%Z.

(** The nearest integer, a tie going to the even one. *)
Definition round_half_even (a : Q) : Z :=
  let f := Qfloor a in
  match ((a - inject_Z f) ?= (1 # 2))%Q with
  | Lt => f
  | Gt => (f + 1)%Z
  | Eq => if Z.even f then f else (f + 1)%Z
  end.

(** The exponent of the unit in the last place of the binary64 values
    around a positive rational: 53 significant bits, and never below
    [-1074]. *)
Definition ulp_exponent (a : Q) : Z := Z.max (Qlog2 a - 52) (-1074).

(** The multiple of that unit nearest to a positive rational. *)
Definition nearest (a : Q) : Q :=
  (inject_Z (round_half_even (a / 2 ^ ulp_exponent a))
   * 2 ^ ulp_exponent a)%Q.

(** The binary64 value nearest to a positive rational; [inf] from
    [2 ^ 1024] on. *)
Definition round64_pos (a : Q) : pyfloat :=
  if Qle_bool (2 ^ 1024)%Q (nearest a) then PInf else Fin (nearest a).

(** The value a binary64 operation returns for the exact result [x]:
    round to nearest, ties to even. *)
Definition round64 (x : pyfloat) : pyfloat :=
  match x with
  | Fin q =>
      match Qnum q with
      | Z0 => Fin 0
      | Zpos _ => round64_pos q
      | Zneg _ => fneg (round64_pos (- q))
      end
  | _ => x
  end.

End PyFloat.

Import PyFloat.

Declare Scope pyfloat_scope.
Delimit Scope pyfloat_scope with fl.
Infix "+" := fadd : pyfloat_scope.
Infix "-" := fsub : pyfloat_scope.
Infix "*" := fmul : pyfloat_scope.
Notation "- x" := (fneg x) : pyfloat_scope.
Infix "<?" := flt : pyfloat_scope.
Infix "<=?" := fle : pyfloat_scope.
Infix ">?" := fgt : pyfloat_scope.
Infix ">=?" := fge : pyfloat_scope.
Infix "=?" := feqb : pyfloat_scope.
Infix "=~" := feq (at level 70, no associativity).


(** ** src/risk_management/risk_manager.py *)

Module risk_manager.

Record RiskManager : Set := {
  max_position_size : pyfloat;
  stop_loss : pyfloat;
  take_profit : pyfloat
}.

(** The constructor's defaults. *)
Definition default : RiskManager :=
  {| max_position_size := Fin 0.1;
     stop_loss := Fin 0.02;
     take_profit := Fin 0.05 |}.

(** The body of [calculate_position_size].  [div] is the division its
    operands select: [fdiv] when portfolio value, price and volatility are
    builtin floats, [npdiv] when price and volatility are
    [numpy.float64]. *)
Definition calculate_position_size_with
    (div : pyfloat -> pyfloat -> result pyfloat) (self : RiskManager)
    (portfolio_value : pyfloat) (current_price volatility : option pyfloat)
    : result pyfloat :=
  let max_position_value := (portfolio_value * max_position_size self)%fl in
  v ← num volatility;
  p ← num current_price;
  risk_adjusted_size ← div max_position_value (v * p)%fl;
  cap ← div max_position_value p;
  Ok (pymin risk_adjusted_size cap).

(** [calculate_position_size] called with builtin floats. *)
Definition calculate_position_size : RiskManager -> pyfloat ->
    option pyfloat -> option pyfloat -> result pyfloat :=
  calculate_position_size_with fdiv.

(** [calculate_position_size] called with a price and a volatility that
    are [numpy.float64], as [Backtester.run] calls it. *)
Definition calculate_position_size_float64 : RiskManager -> pyfloat ->
    option pyfloat -> option pyfloat -> result pyfloat :=
  calculate_position_size_with (fun x y => Ok (npdiv x y)).

(** The two checks compare the current price with a threshold computed in
    binary64: the sum or difference is rounded, and so is the product. *)
Definition check_stop_loss (self : RiskManager)
    (entry_price current_price : pyfloat) (position : Z) : bool :=
  if (position >? 0)%Z then
    (current_price
     <? round64 (entry_price * round64 (Fin 1 - stop_loss self)))%fl
  else if (position <? 0)%Z then
    (current_price
     >? round64 (entry_price * round64 (Fin 1 + stop_loss self)))%fl
  else false.

Definition check_take_profit (self : RiskManager)
    (entry_price current_price : pyfloat) (position : Z) : bool :=
  if (position >? 0)%Z then
    (current_price
     >? round64 (entry_price * round64 (Fin 1 + take_profit self)))%fl
  else if (position <? 0)%Z then
    (current_price
     <? round64 (entry_price * round64 (Fin 1 - take_profit self)))%fl
  else false.

End risk_manager.

(** ** src/execution/executor.py *)

Module executor.

(** An entry of [Executor.positions]. *)
Record Position : Set := {
  signal : Z;
  price : pyfloat;
  size : pyfloat
}.

(** The [trade] dictionary built by [execute_trade]. *)
Record Trade : Set := {
  t_timestamp : Z;
  t_symbol : string;
  t_action : string;
  t_price : pyfloat;
  t_size : pyfloat;
  t_commission : pyfloat;
  t_pnl : pyfloat
}.

Record Executor : Type := {
  commission : pyfloat;
  positions : gmap string Position;
  trades : list Trade
}.

(** [Executor(commission)], with the default [0.001]. *)
Definition new (commission : pyfloat) : Executor :=
  {| commission := commission; positions := ∅; trades := [] |}.

Definition _calculate_pnl (self : Executor) (symbol : string)
    (entry_price exit_price size : pyfloat) (signal : Z) : pyfloat :=
  (let gross_pnl := (exit_price - entry_price) * size * of_int signal in
   let commission := (entry_price + exit_price) * size * commission self in
   gross_pnl - commission)%fl.

Definition execute_trade (self : Executor) (symbol : string) (sig : Z)
    (price size : pyfloat) (timestamp : Z) : Executor * Trade :=
  let mk pnl :=
    {| t_timestamp := timestamp;
       t_symbol := symbol;
       t_action := if (sig >? 0)%Z then "buy" else "sell";
       t_price := price;
       t_size := size;
       t_commission := (price * size * commission self)%fl;
       t_pnl := pnl |} in
  let '(positions', trade) :=
    match positions self !! symbol with
    | Some pos =>
        if negb (sig =? signal pos)%Z then
          (delete symbol (positions self),
           mk (_calculate_pnl self symbol (executor.price pos) price
                 (executor.size pos) (signal pos)))
        else
          (<[symbol := {| signal := signal pos;
                          price := price;
                          size := (executor.size pos + size)%fl |}]>
             (positions self),
           mk (Fin 0))
    | None =>
        (<[symbol := {| signal := sig; price := price; size := size |}]>
           (positions self),
         mk (Fin 0))
    end in
  ({| commission := commission self;
      positions := positions';
      trades := trades self ++ [trade] |}, trade).

Definition get_trade_history (self : Executor) : list Trade := trades self.

End executor.

(** ** src/backtesting/backtester.py *)

Module backtester.

(** One iteration's inputs: the key and value of [signals.items()], the
    ['Close'] entry of [data] at that key and the 20-row rolling standard
    deviation of ['Close'] there.  [DataFetcher] and [Strategy] produce
    them and are outside the engine.  [close] and [volatility] are read
    from a data frame and are [numpy.float64]. *)
Record Bar : Set := {
  timestamp : Z;
  signal : Z;
  close : pyfloat;
  volatility : pyfloat
}.

Record Backtester : Type := {
  initial_capital : pyfloat;
  executor : executor.Executor
}.

(** [Backtester(initial_capital, commission)]. *)
Definition new (initial_capital commission : pyfloat) : Backtester :=
  {| initial_capital := initial_capital;
     executor := executor.new commission |}.

(** The variables the loop of [run] carries from one bar to the next.
    [portfolio_value] is the builtin float [initial_capital] until the
    first trade; the commission or PnL then added to it is a product of
    prices, so from there on it is a [numpy.float64]
    ([portfolio_value_float64]). *)
Record Loop : Type := {
  portfolio_value : pyfloat;
  portfolio_value_float64 : bool;
  position : Z;
  entry_price : pyfloat;
  exec : executor.Executor
}.

(** The body of [for timestamp, signal in signals.items()]. *)
Definition step (risk : risk_manager.RiskManager) (symbol : string)
    (st : Loop) (bar : Bar) : result Loop :=
  let current_price := close bar in
  if ((position st =? 0)%Z && negb (signal bar =? 0)%Z)%bool then
    size ← risk_manager.calculate_position_size_float64 risk
              (portfolio_value st) (Some current_price)
              (Some (volatility bar));
    let '(ex, trade) :=
      executor.execute_trade (exec st) symbol (signal bar) current_price
        size (timestamp bar) in
    Ok {| portfolio_value :=
            (portfolio_value st - executor.t_commission trade)%fl;
          portfolio_value_float64 := true;
          position := signal bar;
          entry_price := current_price;
          exec := ex |}
  else if negb (position st =? 0)%Z then
    if (risk_manager.check_stop_loss risk (entry_price st) current_price
          (position st)
        || risk_manager.check_take_profit risk (entry_price st)
             current_price (position st)
        || (signal bar =? - position st)%Z)%bool then
      pos ← match executor.positions (exec st) !! symbol with
            | Some pos => Ok pos
            | None => Raise KeyError
            end;
      let size := executor.size pos in
      let '(ex, trade) :=
        executor.execute_trade (exec st) symbol (- position st)
          current_price size (timestamp bar) in
      Ok {| portfolio_value :=
              (portfolio_value st + executor.t_pnl trade)%fl;
            portfolio_value_float64 := true;
            position := 0;
            entry_price := Fin 0;
            exec := ex |}
    else Ok st
  else Ok st.

Fixpoint loop (risk : risk_manager.RiskManager) (symbol : string)
    (st : Loop) (bars : list Bar) : result Loop :=
  match bars with
  | [] => Ok st
  | bar :: rest => st' ← step risk symbol st bar; loop risk symbol st' rest
  end.

(** The dictionary returned by [run]. *)
Record Report : Type := {
  r_initial_capital : pyfloat;
  final_portfolio_value : pyfloat;
  total_return : pyfloat;
  total_trades : nat;
  profitable_trades : nat;
  win_rate : pyfloat;
  total_pnl : pyfloat;
  trade_history : list executor.Trade
}.

(** [trade_history['pnl'].sum()]: pandas skips [nan] entries. *)
Definition sum_pnl (ts : list executor.Trade) : pyfloat :=
  fold_left (fun acc t =>
               match executor.t_pnl t with
               | NaN => acc
               | v => (acc + v)%fl
               end) ts (Fin 0).

Definition count_profitable (ts : list executor.Trade) : nat :=
  length (filter (fun t => (executor.t_pnl t >? Fin 0)%fl = true) ts).

(** [run]; [initial_capital] is a builtin float, so the division of
    [total_return] is Python's as long as [portfolio_value] is one too,
    and numpy's after a trade. *)
Definition run (self : Backtester) (symbol : string)
    (risk : risk_manager.RiskManager) (bars : list Bar) : result Report :=
  let init :=
    {| portfolio_value := initial_capital self;
       portfolio_value_float64 := false;
       position := 0;
       entry_price := Fin 0;
       exec := executor self |} in
  st ← loop risk symbol init bars;
  let history := executor.get_trade_history (exec st) in
  let n := length history in
  let profitable := count_profitable history in
  ret ← (if portfolio_value_float64 st
         then Ok (npdiv (portfolio_value st - initial_capital self)%fl
                    (initial_capital self))
         else fdiv (portfolio_value st - initial_capital self)%fl
                (initial_capital self));
  Ok {| r_initial_capital := initial_capital self;
        final_portfolio_value := portfolio_value st;
        total_return := ret;
        total_trades := n;
        profitable_trades := profitable;
        win_rate := if (0 <? n)%nat
                    then Fin (Z.of_nat profitable # Pos.of_nat n)
                    else Fin 0;
        total_pnl := sum_pnl history;
        trade_history := history |}.

End backtester.

(** ** src/risk_management/advanced_risk.py *)

Module advanced_risk.

Record RiskManager : Set := {
  max_position_size : pyfloat;
  stop_loss : pyfloat;
  take_profit : pyfloat;
  max_drawdown : pyfloat;
  var_confidence : pyfloat
}.

(** The constructor's defaults. *)
Definition default : RiskManager :=
  {| max_position_size := Fin 0.1;
     stop_loss := Fin 0.02;
     take_profit := Fin 0.05;
     max_drawdown := Fin 0.25;
     var_confidence := Fin 0.95 |}.

Definition calculate_position_size (self : RiskManager)
    (portfolio_value : pyfloat) (current_price volatility : option pyfloat)
    (correlation : option pyfloat) : result pyfloat :=
  let max_position_value := (portfolio_value * max_position_size self)%fl in
  v ← num volatility;
  vol_adjustment ← fdiv (Fin 1) (Fin 1 + v)%fl;
  let correlation_adjustment :=
    match correlation with
    | Some c => (Fin 1 - fabs c)%fl
    | None => Fin 1
    end in
  let adjusted_position_value :=
    (max_position_value * vol_adjustment * correlation_adjustment)%fl in
  p ← num current_price;
  a ← fdiv adjusted_position_value p;
  b ← fdiv max_position_value p;
  Ok (pymin a b).

(** [max(atr_stop, initial_stop, trailing_stop)]; [multiplier] defaults
    to [2.0] in the source. *)
Definition calculate_trailing_stop (self : RiskManager)
    (entry_price current_price high_price atr multiplier : pyfloat)
    : pyfloat :=
  let atr_stop := (current_price - atr * multiplier)%fl in
  let initial_stop := (entry_price * (Fin 1 - stop_loss self))%fl in
  let trailing_stop := (high_price * (Fin 1 - stop_loss self))%fl in
  pymax (pymax atr_stop initial_stop) trailing_stop.

(** The correlation multiplier as a rational, for a finite correlation. *)
Definition correlation_factor (corr : option pyfloat) : Q :=
  match corr with
  | Some (Fin c) => (1 - Qabs c)%Q
  | _ => 1%Q
  end.

(** *** [update_portfolio_risk], over the reals

    A returns [DataFrame] is the list of its columns (one per asset), each
    the list of that asset's returns by period; [positions.values()] is the
    list of weights in the same order.  [pandas] and [numpy] supply the
    mean, the sample covariance (divisor [n - 1]), the dot product and the
    square root; the shapes are taken to agree, as [np.dot] demands. *)

Section PortfolioRisk.

Local Open Scope R_scope.

Definition Rsum (l : list R) : R := fold_right Rplus 0 l.

Definition mean (col : list R) : R := Rsum col / INR (length col).

Definition cov2 (x y : list R) : R :=
  Rsum (zip_with (fun a b => (a - mean x) * (b - mean y)) x y)
  / (INR (length x) - 1).

(** [returns.cov()]. *)
Definition cov (returns : list (list R)) : list (list R) :=
  map (fun x => map (fun y => cov2 x y) returns) returns.

(** [np.dot] of two vectors, and of a matrix and a vector. *)
Definition dot (u v : list R) : R := Rsum (zip_with Rmult u v).

Definition matvec (m : list (list R)) (v : list R) : list R :=
  map (fun row => dot row v) m.

(** [x > t] for a real [x] and a threshold held as a float. *)
Definition exceeds (x : R) (t : pyfloat) : bool :=
  match t with
  | Fin q => if Rlt_dec (Q2R q) x then true else false
  | NInf => true
  | PInf | NaN => false
  end.

(** What [PortfolioOptimizer.optimize_portfolio] returns. *)
Record OptimizationResult : Type := {
  weights : list R;
  objective : R;
  success : bool
}.

(** The dictionary returned by [update_portfolio_risk]; the key
    ['optimal_weights'] is present only when rebalancing. *)
Record PortfolioRisk : Type := {
  rebalance_needed : bool;
  optimal_weights : option (list R);
  current_risk : R;
  sharpe_ratio : R
}.

(** [self.portfolio_optimizer.optimize_portfolio], which runs scipy's
    SLSQP solver. *)
Variable optimize_portfolio : list (list R) -> OptimizationResult.

Definition update_portfolio_risk (self : RiskManager)
    (positions : list R) (returns : list (list R)) : PortfolioRisk :=
  let portfolio_return := Rsum (zip_with Rmult (map mean returns) positions) in
  let portfolio_vol := sqrt (dot positions (matvec (cov returns) positions)) in
  if exceeds portfolio_vol (max_drawdown self) then
    let optimization_result := optimize_portfolio returns in
    {| rebalance_needed := true;
       optimal_weights := Some (weights optimization_result);
       current_risk := portfolio_vol;
       sharpe_ratio := (portfolio_return - 0.02) / portfolio_vol |}
  else
    {| rebalance_needed := false;
       optimal_weights := None;
       current_risk := portfolio_vol;
       sharpe_ratio := (portfolio_return - 0.02) / portfolio_vol |}.

(** The volatility the optimizer's objectives use:
    [np.sqrt(np.dot(weights.T, np.dot(returns.cov() * 252, weights)))]. *)
Definition annualized_volatility (w : list R) (returns : list (list R)) : R :=
  sqrt (dot w (matvec (map (map (fun c => c * 252)) (cov returns)) w)).

End PortfolioRisk.

End advanced_risk.

(** ** src/execution/advanced_executor.py *)

Module advanced_executor.

Inductive OrderType : Set :=
  | MARKET
  | LIMIT
  | STOP_LOSS
  | TAKE_PROFIT
  | TRAILING_STOP.

Inductive OrderSide : Set :=
  | BUY
  | SELL.

(** The values [Order.status] takes: ["pending"], ["filled"],
    ["cancelled"], ["failed"]. *)
Inductive OrderStatus : Set :=
  | pending
  | filled
  | cancelled
  | failed.

#[global] Instance OrderType_eq_dec : EqDecision OrderType.
Proof. solve_decision. Defined.

#[global] Instance OrderSide_eq_dec : EqDecision OrderSide.
Proof. solve_decision. Defined.

#[global] Instance OrderStatus_eq_dec : EqDecision OrderStatus.
Proof. solve_decision. Defined.

Record Order : Set := {
  symbol : string;
  order_type : OrderType;
  side : OrderSide;
  quantity : pyfloat;
  price : option pyfloat;
  stop_price : option pyfloat;
  trailing_percent : option pyfloat;
  status : OrderStatus;
  filled_quantity : pyfloat;
  filled_price : pyfloat;
  timestamp : Z
}.

(** [Order.__init__]; [now] is the reading of [datetime.now()]. *)
Definition Order_init (symbol : string) (order_type : OrderType)
    (side : OrderSide) (quantity : pyfloat)
    (price stop_price trailing_percent : option pyfloat) (now : Z) : Order :=
  {| symbol := symbol;
     order_type := order_type;
     side := side;
     quantity := quantity;
     price := price;
     stop_price := stop_price;
     trailing_percent := trailing_percent;
     status := pending;
     filled_quantity := Fin 0;
     filled_price := Fin 0;
     timestamp := now |}.

(** The three assignments a fill makes, and the assignment of a status. *)
Definition fill (o : Order) (fp : pyfloat) : Order :=
  {| symbol := symbol o;
     order_type := order_type o;
     side := side o;
     quantity := quantity o;
     price := price o;
     stop_price := stop_price o;
     trailing_percent := trailing_percent o;
     status := filled;
     filled_quantity := quantity o;
     filled_price := fp;
     timestamp := timestamp o |}.

Definition with_status (o : Order) (st : OrderStatus) : Order :=
  {| symbol := symbol o;
     order_type := order_type o;
     side := side o;
     quantity := quantity o;
     price := price o;
     stop_price := stop_price o;
     trailing_percent := trailing_percent o;
     status := st;
     filled_quantity := filled_quantity o;
     filled_price := filled_price o;
     timestamp := timestamp o |}.

(** An entry of [ExecutionHandler.positions]. *)
Record Position : Set := {
  p_quantity : pyfloat;
  average_price : pyfloat;
  realized_pnl : pyfloat
}.

(** The dictionary both [positions.get] calls fall back to. *)
Definition no_position : Position :=
  {| p_quantity := Fin 0; average_price := Fin 0; realized_pnl := Fin 0 |}.

(** The [trade] dictionary of [_record_trade]. *)
Record Trade : Set := {
  t_timestamp : Z;
  t_symbol : string;
  t_order_type : OrderType;
  t_side : OrderSide;
  t_quantity : pyfloat;
  t_price : pyfloat;
  t_commission : pyfloat
}.

(** An [Order] object is named by its place in the store of objects;
    [self.orders] and the callers hold such references, so that a change
    of status made through one of them is seen through all. *)
Definition ref : Set := nat.

Record ExecutionHandler : Type := {
  commission : pyfloat;
  slippage : pyfloat;
  positions : gmap string Position;
  orders : list ref;
  trades : list Trade
}.

Record Store : Type := {
  objects : list Order;
  handler : ExecutionHandler
}.

(** [ExecutionHandler(commission, slippage)] in an empty store. *)
Definition new (commission slippage : pyfloat) : Store :=
  {| objects := [];
     handler := {| commission := commission;
                   slippage := slippage;
                   positions := ∅;
                   orders := [];
                   trades := [] |} |}.

Definition set_positions (ps : gmap string Position) (s : Store) : Store :=
  {| objects := objects s;
     handler := {| commission := commission (handler s);
                   slippage := slippage (handler s);
                   positions := ps;
                   orders := orders (handler s);
                   trades := trades (handler s) |} |}.

Definition set_orders (os : list ref) (s : Store) : Store :=
  {| objects := objects s;
     handler := {| commission := commission (handler s);
                   slippage := slippage (handler s);
                   positions := positions (handler s);
                   orders := os;
                   trades := trades (handler s) |} |}.

Definition set_trades (ts : list Trade) (s : Store) : Store :=
  {| objects := objects s;
     handler := {| commission := commission (handler s);
                   slippage := slippage (handler s);
                   positions := positions (handler s);
                   orders := orders (handler s);
                   trades := ts |} |}.

Definition set_objects (os : list Order) (s : Store) : Store :=
  {| objects := os; handler := handler s |}.

(** Methods: the store is threaded through, and is kept when a method
    raises. *)
Definition M (A : Type) : Type := Store -> Store * result A.

#[global] Instance M_ret : MRet M := fun A a s => (s, Ok a).

#[global] Instance M_bind : MBind M := fun A B k m s =>
  match m s with
  | (s', Ok a) => k a s'
  | (s', Raise e) => (s', Raise e)
  end.

Definition raise {A} (e : exn) : M A := fun s => (s, Raise e).

Definition lift {A} (r : result A) : M A := fun s => (s, r).

Definition gets {A} (f : Store -> A) : M A := fun s => (s, Ok (f s)).

Definition modify (f : Store -> Store) : M unit := fun s => (f s, Ok tt).

(** [try: m except Exception: h; raise]. *)
Definition on_exception {A} (m : M A) (h : Store -> Store) : M A := fun s =>
  match m s with
  | (s', Raise e) => (h s', Raise e)
  | r => r
  end.

(** Creating an object, reading it and assigning to its attributes.  A
    reference outside the store names no object; every reference the
    methods hand out comes from [alloc]. *)
Definition alloc (o : Order) : M ref := fun s =>
  (set_objects (objects s ++ [o]) s, Ok (length (objects s))).

Definition deref (r : ref) : M Order := fun s =>
  match objects s !! r with
  | Some o => (s, Ok o)
  | None => (s, Raise AttributeError)
  end.

Definition assign (r : ref) (o : Order) : M unit :=
  modify (fun s => set_objects (<[r := o]> (objects s)) s).

Section Methods.

(** [config.get('trading.mode') == 'live'], and the exchange reached in
    that mode: what [exchange.create_order] answers for an order, the
    ['price'] of the response or the exception it raised. *)
Variable live : bool.
Variable exchange_create_order : Order -> result pyfloat.

Definition _update_positions (r : ref) : M unit :=
  order ← deref r;
  if negb (bool_decide (status order = filled)) then mret tt
  else
    ps ← gets (fun s => positions (handler s));
    let position := default no_position (ps !! symbol order) in
    position' ←
      match side order with
      | BUY =>
          let total_cost :=
            (p_quantity position * average_price position
             + filled_quantity order * filled_price order)%fl in
          let new_quantity :=
            (p_quantity position + filled_quantity order)%fl in
          avg ← lift (if (new_quantity >? Fin 0)%fl
                      then fdiv total_cost new_quantity
                      else Ok (Fin 0));
          mret {| p_quantity := new_quantity;
                  average_price := avg;
                  realized_pnl := realized_pnl position |}
      | SELL =>
          let pnl :=
            ((filled_price order - average_price position)
             * filled_quantity order)%fl in
          mret {| p_quantity :=
                    (p_quantity position - filled_quantity order)%fl;
                  average_price := average_price position;
                  realized_pnl := (realized_pnl position + pnl)%fl |}
      end;
    if (p_quantity position' =? Fin 0)%fl then
      match ps !! symbol order with
      | Some _ => modify (set_positions (delete (symbol order) ps))
      | None => raise KeyError
      end
    else modify (set_positions (<[symbol order := position']> ps)).

Definition _record_trade (r : ref) : M unit :=
  order ← deref r;
  if negb (bool_decide (status order = filled)) then mret tt
  else
    c ← gets (fun s => commission (handler s));
    let trade :=
      {| t_timestamp := timestamp order;
         t_symbol := symbol order;
         t_order_type := order_type order;
         t_side := side order;
         t_quantity := filled_quantity order;
         t_price := filled_price order;
         t_commission :=
           (filled_quantity order * filled_price order * c)%fl |} in
    modify (fun s => set_trades (trades (handler s) ++ [trade]) s).

Definition _execute_simulated_order (r : ref) : M unit :=
  order ← deref r;
  sl ← gets (fun s => slippage (handler s));
  let slippage_factor :=
    (Fin 1
     + sl * of_int (if bool_decide (side order = BUY) then 1 else -1))%fl in
  match order_type order with
  | MARKET =>
      p ← lift (num (price order));
      assign r (fill order (p * slippage_factor)%fl)
  | LIMIT =>
      p ← lift (num (price order));
      sp ← lift (num (stop_price order));
      if match side order with
         | BUY => (p >=? sp)%fl
         | SELL => (p <=? sp)%fl
         end
      then assign r (fill order p)
      else assign r (with_status order pending)
  | _ => mret tt
  end;;
  _update_positions r;;
  _record_trade r.

Definition _execute_live_order (r : ref) : M unit :=
  on_exception
    (order ← deref r;
     response_price ← lift (exchange_create_order order);
     assign r (fill order response_price);;
     _update_positions r;;
     _record_trade r)
    (fun s =>
       match objects s !! r with
       | Some o => set_objects (<[r := with_status o failed]> (objects s)) s
       | None => s
       end).

Definition create_order (symbol : string) (order_type : OrderType)
    (side : OrderSide) (quantity : pyfloat)
    (price stop_price trailing_percent : option pyfloat) (now : Z) : M ref :=
  order ← alloc (Order_init symbol order_type side quantity price stop_price
                   trailing_percent now);
  (if live then _execute_live_order order
   else _execute_simulated_order order);;
  modify (fun s => set_orders (orders (handler s) ++ [order]) s);;
  mret order.

Definition get_position (symbol : string) : M Position :=
  gets (fun s => default no_position (positions (handler s) !! symbol)).

(** [if symbol:] is false for [None] and for the empty string. *)
Definition get_open_orders (symbol : option string) : M (list ref) :=
  gets (fun s =>
    let is_pending (r : ref) : bool :=
      match objects s !! r with
      | Some o => bool_decide (status o = pending)
      | None => false
      end in
    let open_orders := List.filter is_pending (orders (handler s)) in
    match symbol with
    | Some sym =>
        if bool_decide (sym = "") then open_orders
        else List.filter
               (fun r => match objects s !! r with
                         | Some o =>
                             bool_decide (advanced_executor.symbol o = sym)
                         | None => false
                         end) open_orders
    | None => open_orders
    end).

(** In live mode the call reads [order.id], an attribute [Order] does not
    have: the [AttributeError] is caught and the method returns [False]. *)
Definition cancel_order (r : ref) : M bool :=
  order ← deref r;
  if negb (bool_decide (status order = pending)) then mret false
  else if live then mret false
  else assign r (with_status order cancelled);; mret true.

Definition get_trade_history : M (list Trade) :=
  gets (fun s => trades (handler s)).

Definition calculate_portfolio_value (current_prices : gmap string pyfloat)
    : M pyfloat :=
  gets (fun s =>
    map_fold (fun symbol position portfolio_value =>
                match current_prices !! symbol with
                | Some cp => (portfolio_value + p_quantity position * cp)%fl
                | None => portfolio_value
                end) (Fin 0) (positions (handler s))).

(** A call of one of the public methods, and the run of a sequence of
    calls; a call that raises leaves the store as it was at the raise. *)
Inductive Call : Type :=
  | CreateOrder (symbol : string) (order_type : OrderType) (side : OrderSide)
      (quantity : pyfloat) (price stop_price trailing_percent : option pyfloat)
      (now : Z)
  | CancelOrder (r : ref)
  | GetPosition (symbol : string)
  | GetOpenOrders (symbol : option string)
  | GetTradeHistory
  | CalculatePortfolioValue (current_prices : gmap string pyfloat).

Definition call (c : Call) (s : Store) : Store :=
  match c with
  | CreateOrder sym ty sd q p sp tp now =>
      (create_order sym ty sd q p sp tp now s).1
  | CancelOrder r => (cancel_order r s).1
  | GetPosition sym => (get_position sym s).1
  | GetOpenOrders sym => (get_open_orders sym s).1
  | GetTradeHistory => (get_trade_history s).1
  | CalculatePortfolioValue cp => (calculate_portfolio_value cp s).1
  end.

Definition run (cs : list Call) (s : Store) : Store :=
  fold_left (fun s c => call c s) cs s.

End Methods.

(** *** Properties of the store used below *)

(** The invariant of the position table: no stored quantity compares equal
    to zero. *)
Definition no_zero_position (s : Store) : Prop :=
  map_Forall (fun _ p => (p_quantity p =? Fin 0)%fl = false)
    (positions (handler s)).

(** A method keeps a property of the store, whether it returns or raises. *)
Definition keeps {A} (P : Store -> Prop) (m : M A) : Prop :=
  forall s, P s -> P (m s).1.

(** A property that looks at the position table only. *)
Definition on_positions (P : Store -> Prop) : Prop :=
  forall s s', positions (handler s) = positions (handler s') -> P s -> P s'.

(** The local [slippage_factor] of [_execute_simulated_order]. *)
Definition slippage_factor (s : Store) (o : Order) : pyfloat :=
  (Fin 1 + slippage (handler s)
           * of_int (if bool_decide (side o = BUY) then 1 else -1))%fl.

End advanced_executor.

(** ** Predicates on the state of the backtesting loop *)

Module backtester_state.

(** The loop's [position] flag agrees with the executor's table for the
    symbol: flat and no entry, or an entry opened with that signal. *)
Definition consistent (symbol : string) (st : backtester.Loop) : Prop :=
  if (backtester.position st =? 0)%Z
  then executor.positions (backtester.exec st) !! symbol = None
  else exists pos,
         executor.positions (backtester.exec st) !! symbol = Some pos
         /\ executor.signal pos = backtester.position st.

End backtester_state.

(** ** The execution handler: specifications used below *)

Module advanced_executor_spec.

Import advanced_executor.

(** The value of a division that is known not to raise. *)
Definition quotient (x y : pyfloat) : pyfloat :=
  match fdiv x y with
  | Ok z => z
  | Raise _ => Fin 0
  end.

(** The entry [_update_positions] computes for a filled order from the
    entry it found (or from the fallback entry). *)
Definition updated_position (o : Order) (position : Position) : Position :=
  match side o with
  | BUY =>
      let total_cost :=
        (p_quantity position * average_price position
         + filled_quantity o * filled_price o)%fl in
      let new_quantity := (p_quantity position + filled_quantity o)%fl in
      {| p_quantity := new_quantity;
         average_price := if (new_quantity >? Fin 0)%fl
                          then quotient total_cost new_quantity
                          else Fin 0;
         realized_pnl := realized_pnl position |}
  | SELL =>
      {| p_quantity := (p_quantity position - filled_quantity o)%fl;
         average_price := average_price position;
         realized_pnl :=
           (realized_pnl position
            + (filled_price o - average_price position)
              * filled_quantity o)%fl |}
  end.

(** The ledger entry [_record_trade] writes for a filled order. *)
Definition trade_of (o : Order) (commission : pyfloat) : Trade :=
  {| t_timestamp := timestamp o;
     t_symbol := symbol o;
     t_order_type := order_type o;
     t_side := side o;
     t_quantity := filled_quantity o;
     t_price := filled_price o;
     t_commission := (filled_quantity o * filled_price o * commission)%fl |}.

(** The ledger charges the handler's commission rate on every entry. *)
Definition ledger_charges (c : pyfloat) (s : Store) : Prop :=
  commission (handler s) = c
  /\ Forall (fun t => t_commission t = (t_quantity t * t_price t * c)%fl)
       (trades (handler s)).

(** A later store of the same handler: rates as before, ledger, order list
    and objects only extended. *)
Definition extends (s s' : Store) : Prop :=
  commission (handler s') = commission (handler s)
  /\ slippage (handler s') = slippage (handler s)
  /\ trades (handler s) `prefix_of` trades (handler s')
  /\ orders (handler s) `prefix_of` orders (handler s')
  /\ (length (objects s) <= length (objects s'))%nat.

End advanced_executor_spec.

(** ** src/utils/error_handling.py *)

Module error_handling.

(** [time.sleep(d)] for a float.  CPython turns the delay into a signed
    64-bit count of nanoseconds, rounding away from zero: [nan] raises
    [ValueError], a count that does not fit (so also [inf] and [-inf])
    raises [OverflowError], and a negative count raises [ValueError]. *)
Inductive sleep_error : Set :=
  | SleepValueError
  | SleepOverflowError.

Definition nanoseconds (q : Q) : Z :=
  if Qlt_bool q 0 then (- Qceiling (- q * 1000000000))%Z
  else Qceiling (q * 1000000000).

Definition sleep (d : pyfloat) : option sleep_error :=
  match d with
  | Fin q =>
      let ns := nanoseconds q in
      if ((ns <? - 2 ^ 63) || (2 ^ 63 - 1 <? ns))%Z%bool
      then Some SleepOverflowError
      else if (ns <? 0)%Z then Some SleepValueError
      else None
  | PInf | NInf => Some SleepOverflowError
  | NaN => Some SleepValueError
  end.

Section Retry.

(** The decorated function returns an [A] or raises an [X]; its calls may
    differ, so it is given by the outcome of its call number [i].
    [catches] says whether an exception is an instance of one of the
    classes in [exceptions]. *)
Context {A X : Type}.
Variable max_retries : Z.
Variable delay backoff_factor : pyfloat.
Variable catches : X -> bool.
Variable func : nat -> X + A.

(** How a call of the wrapper ends: with a value ([None] when the loop
    runs out without a [return]), with an exception of [func], or with the
    exception of [time.sleep]. *)
Inductive ending : Type :=
  | Returned (v : option A)
  | Raised (x : X)
  | SleepRaised (e : sleep_error).

(** What a call of the wrapper did: how often it called [func], the
    arguments of its calls of [time.sleep], in order, and how it ended. *)
Record Run : Type := {
  calls : nat;
  slept : list pyfloat;
  outcome : ending
}.

(** The [for attempt in range(max_retries)] loop from iteration
    [attempt] on, with [remaining] iterations left. *)
Fixpoint attempts (remaining attempt : nat) (current_delay : pyfloat) : Run :=
  match remaining with
  | O => {| calls := 0; slept := []; outcome := Returned None |}
  | S remaining' =>
      match func attempt with
      | inr a => {| calls := 1; slept := []; outcome := Returned (Some a) |}
      | inl x =>
          if catches x then
            if (Z.of_nat attempt =? max_retries - 1)%Z then
              {| calls := 1; slept := []; outcome := Raised x |}
            else
              match sleep current_delay with
              | Some e =>
                  {| calls := 1; slept := []; outcome := SleepRaised e |}
              | None =>
                  let rest :=
                    attempts remaining' (S attempt)
                      (current_delay * backoff_factor)%fl in
                  {| calls := S (calls rest);
                     slept := current_delay :: slept rest;
                     outcome := outcome rest |}
              end
          else {| calls := 1; slept := []; outcome := Raised x |}
      end
  end.

(** [retry(max_retries, delay, backoff_factor, exceptions)(func)(...)]. *)
Definition wrapper : Run := attempts (Z.to_nat max_retries) 0 delay.

(** The delays of [k] successive sleeps. *)
Fixpoint backoff_delays (k : nat) (current_delay : pyfloat) : list pyfloat :=
  match k with
  | O => []
  | S k' =>
      current_delay :: backoff_delays k' (current_delay * backoff_factor)%fl
  end.

End Retry.

End error_handling.

(** ** src/utils/config.py *)

From Stdlib Require Import Ascii.

Module config.

(** What [yaml.safe_load] produces: [None], scalars, lists and
    dictionaries with string keys.  A dictionary is the list of its items
    in insertion order, without repeated keys.  The nested dictionaries of
    a configuration are taken not to share objects, so that an assignment
    inside one is the replacement of that subtree. *)
#[warnings="-register-all"]
Inductive value : Type :=
  | VNone
  | VBool (b : bool)
  | VInt (z : Z)
  | VFloat (f : pyfloat)
  | VStr (s : string)
  | VList (l : list value)
  | VDict (d : list (string * value)).

Definition is_none (v : value) : bool :=
  match v with
  | VNone => true
  | _ => false
  end.

(** [d.get(k)]: the value of the key, [None] when it is missing. *)
Fixpoint dict_get (k : string) (d : list (string * value)) : value :=
  match d with
  | [] => VNone
  | (k', v) :: rest => if String.eqb k k' then v else dict_get k rest
  end.

(** [k in d]. *)
Fixpoint dict_has (k : string) (d : list (string * value)) : bool :=
  match d with
  | [] => false
  | (k', _) :: rest => String.eqb k k' || dict_has k rest
  end.

(** [d[k] = v]: the value is replaced in place, a new key goes last. *)
Fixpoint dict_set (k : string) (v : value) (d : list (string * value))
    : list (string * value) :=
  match d with
  | [] => [(k, v)]
  | (k', v') :: rest =>
      if String.eqb k k' then (k', v) :: rest
      else (k', v') :: dict_set k v rest
  end.

(** [key.split('.')]: never empty; an empty field between, before or after
    dots is an empty string. *)
Fixpoint split_dot (key : string) : list string :=
  match key with
  | EmptyString => [EmptyString]
  | String c rest =>
      if Ascii.eqb c "."%char then EmptyString :: split_dot rest
      else match split_dot rest with
           | field :: fields => String c field :: fields
           | [] => [String c EmptyString]
           end
  end.

(** The loop of [get] over the keys, then its last line. *)
Fixpoint walk (keys : list string) (v default : value) : value :=
  match keys with
  | [] => if is_none v then default else v
  | k :: keys' =>
      match v with
      | VDict d => walk keys' (dict_get k d) default
      | _ => default
      end
  end.

(** [Config.get(key, default)] on [self.config]. *)
Definition get (config : value) (key : string) (default : value) : value :=
  walk (split_dot key) config default.

(** [Config.set] below the dictionary reached so far: [setdefault] along
    all keys but the last, then the assignment.  [setdefault] on a value
    that is no dictionary raises [AttributeError], the assignment
    [TypeError]; the empty list of keys does not arise from [split]. *)
Fixpoint assign_path (keys : list string) (v : value) (config : value)
    : result value :=
  match keys with
  | [] => Raise TypeError
  | [k] =>
      match config with
      | VDict d => Ok (VDict (dict_set k v d))
      | _ => Raise TypeError
      end
  | k :: keys' =>
      match config with
      | VDict d =>
          let child := if dict_has k d then dict_get k d else VDict [] in
          child' ← assign_path keys' v child;
          Ok (VDict (dict_set k child' d))
      | _ => Raise AttributeError
      end
  end.

(** [Config.set(key, value)]: the new [self.config], which is also what
    is dumped to the file; writing the file is taken to succeed.  When an
    exception is raised no dictionary has been changed: [setdefault]
    inserts only where the key is missing, and nothing below a dictionary
    it has just inserted can raise. *)
Definition set (config : value) (key : string) (v : value) : result value :=
  assign_path (split_dot key) v config.

(** [_create_default_config]. *)
Definition default_config : value :=
  VDict
    [("data",
      VDict [("default_source", VStr "yahoo");
             ("cache_dir", VStr "data/cache");
             ("history_start", VStr "2010-01-01")]);
     ("backtesting",
      VDict [("initial_capital", VInt 100000);
             ("commission", VFloat (Fin 0.001));
             ("slippage", VFloat (Fin 0.001))]);
     ("risk_management",
      VDict [("max_position_size", VFloat (Fin 0.1));
             ("stop_loss", VFloat (Fin 0.02));
             ("take_profit", VFloat (Fin 0.05));
             ("max_drawdown", VFloat (Fin 0.25))]);
     ("logging",
      VDict [("level", VStr "INFO");
             ("file_path", VStr "logs/trading_engine.log")])].

End config.


(** ** src/strategies/strategy.py *)

Module strategy.

(** The columns of [data] that [MovingAverageCrossover] reads, row by
    row. *)
Record Row : Set := {
  SMA_20 : pyfloat;
  SMA_50 : pyfloat
}.

(** [MovingAverageCrossover.generate_signals]: the series of zeros on the
    index of [data], then the two masked assignments in their order. *)
Definition generate_signals (data : list Row) : list Z :=
  let signals := map (fun _ => 0%Z) data in
  let signals :=
    zip_with (fun row s => if (SMA_20 row >? SMA_50 row)%fl then 1%Z else s)
      data signals in
  zip_with (fun row s => if (SMA_20 row <? SMA_50 row)%fl then (-1)%Z else s)
    data signals.

End strategy.

(** ** src/strategies/advanced_strategy.py *)

Module advanced_strategy.

(** [EnsembleStrategy.__init__] for [n] strategies: the weights given, or
    [[1 / n] * n]. *)
Definition EnsembleStrategy_weights (n : nat) (weights : option (list pyfloat))
    : result (list pyfloat) :=
  match weights with
  | Some ws => Ok ws
  | None =>
      w ← fdiv (of_int 1) (of_int (Z.of_nat n));
      Ok (replicate n w)
  end.

(** The lambda applied to the combined series. *)
Definition normalize (x : pyfloat) : Z :=
  if (x >? Fin 0.5)%fl then 1%Z
  else if (x <? Fin (-0.5))%fl then (-1)%Z
  else 0%Z.

(** [EnsembleStrategy.generate_signals] on a frame of [rows] rows.
    [outputs] are the series returned by the strategies, in their order:
    integer series on the index of [data], as every [generate_signals] of
    the repository returns. *)
Definition generate_signals (weights : list pyfloat) (outputs : list (list Z))
    (rows : nat) : list Z :=
  let combined_signals :=
    fold_left
      (fun combined sw =>
         zip_with fadd combined (map (fun x => (of_int x * sw.2)%fl) sw.1))
      (zip outputs weights) (replicate rows (Fin 0)) in
  map normalize combined_signals.

End advanced_strategy.

(** * Properties

    ** Facts on rationals and on finite floats *)

Section QFacts.
Local Open Scope Q_scope.

Lemma Qlt_bool_iff (a b : Q) : Qlt_bool a b = true <-> a < b.
Proof.
  unfold Qlt_bool. rewrite negb_true_iff.
  split.
  - intros H. apply Qnot_le_lt. intros L.
    apply Qle_bool_iff in L. congruence.
  - intros H. destruct (Qle_bool b a) eqn:E; [|reflexivity].
    apply Qle_bool_iff in E. exfalso. apply (Qlt_not_le _ _ H E).
Qed.

Lemma Qlt_bool_false (a b : Q) : Qlt_bool a b = false <-> b <= a.
Proof.
  unfold Qlt_bool. rewrite negb_false_iff. apply Qle_bool_iff.
Qed.

Lemma Qeq_bool_false_iff (a b : Q) : Qeq_bool a b = false <-> ~ a == b.
Proof.
  split.
  - apply Qeq_bool_neq.
  - intros H. destruct (Qeq_bool a b) eqn:E; [|reflexivity].
    apply Qeq_bool_iff in E. contradiction.
Qed.

Lemma is_zero_Fin_pos (q : Q) : 0 < q -> is_zero (Fin q) = false.
Proof.
  intros H. apply Qeq_bool_false_iff. intros E. rewrite E in H.
  apply (Qlt_irrefl 0 H).
Qed.

Lemma fdiv_Fin (a b : Q) : ~ b == 0 -> fdiv (Fin a) (Fin b) = Ok (Fin (a / b)).
Proof.
  intros H. unfold fdiv. simpl.
  apply Qeq_bool_false_iff in H. rewrite H. reflexivity.
Qed.

Lemma pymin_Fin (a b : Q) :
  exists q,
    pymin (Fin a) (Fin b) = Fin q
    /\ q <= a /\ q <= b /\ (q == a \/ q == b).
Proof.
  unfold pymin, flt. destruct (Qlt_bool b a) eqn:E.
  - apply Qlt_bool_iff in E. exists b. repeat split; lra.
  - apply Qlt_bool_false in E. exists a. repeat split; lra.
Qed.

Lemma Qinv_le_contravar (a b : Q) : 0 < a -> a <= b -> / b <= / a.
Proof.
  intros Ha Hab.
  apply Qle_shift_inv_r; [lra|].
  assert (0 < / a) by (apply Qinv_lt_0_compat; exact Ha).
  assert (/ a * a == 1) by (field; lra).
  nra.
Qed.

End QFacts.

(** ** Rounding to binary64 *)

Section Rounding.
Local Open Scope Q_scope.

Lemma round_half_even_bounds (a : Q) :
  (Qfloor a <= round_half_even a <= Qfloor a + 1)%Z.
Proof.
  unfold round_half_even.
  destruct (a - inject_Z (Qfloor a) ?= 1 # 2); [destruct (Z.even _)| |]; lia.
Qed.

Lemma round_half_even_Z (k : Z) : round_half_even (inject_Z k) = k.
Proof.
  unfold round_half_even. rewrite Qfloor_Z.
  assert (E : (inject_Z k - inject_Z k ?= 1 # 2) = Lt).
  { apply Qlt_alt. ring_simplify (inject_Z k - inject_Z k). reflexivity. }
  rewrite E. reflexivity.
Qed.

Lemma round_half_even_mono (a b : Q) :
  a <= b -> (round_half_even a <= round_half_even b)%Z.
Proof.
  intros Hab.
  pose proof (Qfloor_resp_le a b Hab) as Hf.
  pose proof (round_half_even_bounds a) as Ha.
  pose proof (round_half_even_bounds b) as Hb.
  destruct (Z.eq_dec (Qfloor a) (Qfloor b)) as [E|N]; [|lia].
  unfold round_half_even in *. rewrite <- E in *.
  destruct (Qcompare_spec (a - inject_Z (Qfloor a)) (1 # 2)) as [Ea|La|Ga];
    destruct (Qcompare_spec (b - inject_Z (Qfloor a)) (1 # 2)) as [Eb|Lb|Gb];
    try destruct (Z.even (Qfloor a)); try lia; exfalso; lra.
Qed.

Lemma pow2_pos (e : Z) : 0 < 2 ^ e.
Proof. apply Qpower_0_lt. reflexivity. Qed.

Lemma pow2_plus (a b : Z) : 2 ^ (a + b) == 2 ^ a * 2 ^ b.
Proof. apply Qpower_plus. discriminate. Qed.

Lemma pow2_minus (a b : Z) : 2 ^ (a - b) == 2 ^ a / 2 ^ b.
Proof. apply Qpower_minus. discriminate. Qed.

Lemma pow2_le (a b : Z) : (a <= b)%Z -> 2 ^ a <= 2 ^ b.
Proof. intros H. apply Qpower_le_compat_l; [exact H | discriminate]. Qed.

Lemma pow2_lt_inv (a b : Z) : 2 ^ a < 2 ^ b -> (a < b)%Z.
Proof. intros H. apply (Qpower_lt_compat_l_inv 2); [exact H | reflexivity]. Qed.

Lemma pow2_Z (n : Z) : (0 <= n)%Z -> inject_Z (2 ^ n) == 2 ^ n.
Proof. intros H. apply (Zpower_Qpower 2 n H). Qed.

(** [Qlog2] is the floor of the binary logarithm. *)
Lemma Qlog2_spec (q : Q) :
  0 < q -> 2 ^ Qlog2 q <= q /\ q < 2 ^ (Qlog2 q + 1).
Proof.
  intros Hq. destruct q as [n d]. unfold Qlog2. cbn [Qnum Qden].
  assert (Hn : (0 < n)%Z).
  { unfold Qlt in Hq. cbn in Hq. lia. }
  pose proof (Z.log2_spec n Hn) as [Hn1 Hn2].
  pose proof (Z.log2_spec (Zpos d) (Pos2Z.is_pos d)) as [Hd1 Hd2].
  pose proof (Z.log2_nonneg n) as Hln.
  pose proof (Z.log2_nonneg (Zpos d)) as Hld.
  set (ln := Z.log2 n) in *. set (ld := Z.log2 (Zpos d)) in *.
  assert (Qn1 : 2 ^ ln <= inject_Z n).
  { rewrite <- pow2_Z by lia. rewrite <- Zle_Qle. exact Hn1. }
  assert (Qn2 : inject_Z n < 2 ^ (ln + 1)).
  { rewrite <- pow2_Z by lia. rewrite <- Zlt_Qlt. exact Hn2. }
  assert (Qd1 : 2 ^ ld <= inject_Z (Zpos d)).
  { rewrite <- pow2_Z by lia. rewrite <- Zle_Qle. exact Hd1. }
  assert (Qd2 : inject_Z (Zpos d) < 2 ^ (ld + 1)).
  { rewrite <- pow2_Z by lia. rewrite <- Zlt_Qlt. exact Hd2. }
  assert (Eq : n # d == inject_Z n / inject_Z (Zpos d)) by apply Qmake_Qdiv.
  assert (Hdpos : 0 < inject_Z (Zpos d)) by reflexivity.
  assert (Hinv : 0 < / inject_Z (Zpos d)) by (apply Qinv_lt_0_compat; exact Hdpos).
  assert (Hup : n # d < 2 ^ (ln - ld + 1)).
  { rewrite Eq. apply Qlt_shift_div_r; [exact Hdpos|].
    replace (ln - ld + 1)%Z with ((ln + 1) - ld)%Z by lia.
    rewrite pow2_minus.
    pose proof (pow2_pos ld) as P1. pose proof (pow2_pos (ln + 1)) as P2.
    assert (I1 : 0 < / 2 ^ ld) by (apply Qinv_lt_0_compat; exact P1).
    assert (I2 : / 2 ^ ld * 2 ^ ld == 1) by (field; lra).
    assert (I3 : 0 <= 2 ^ (ln + 1) * / 2 ^ ld * (inject_Z (Zpos d) - 2 ^ ld)).
    { apply Qmult_le_0_compat; [apply Qmult_le_0_compat|]; lra. }
    unfold Qdiv. nra. }
  assert (Hlow : 2 ^ (ln - ld - 1) < n # d).
  { rewrite Eq. apply Qlt_shift_div_l; [exact Hdpos|].
    replace (ln - ld - 1)%Z with (ln - (ld + 1))%Z by lia.
    rewrite pow2_minus.
    pose proof (pow2_pos (ld + 1)) as P1. pose proof (pow2_pos ln) as P2.
    assert (I1 : 0 < / 2 ^ (ld + 1)) by (apply Qinv_lt_0_compat; exact P1).
    assert (I2 : / 2 ^ (ld + 1) * 2 ^ (ld + 1) == 1) by (field; lra).
    assert (I3 : 0 < 2 ^ ln * / 2 ^ (ld + 1)
                     * (2 ^ (ld + 1) - inject_Z (Zpos d))).
    { apply Qmult_lt_0_compat; [apply Qmult_lt_0_compat|]; lra. }
    unfold Qdiv. nra. }
  destruct (Qle_bool (2 ^ (ln - ld)) (n # d)) eqn:T.
  - apply Qle_bool_iff in T. split; [exact T | exact Hup].
  - assert (T' : n # d < 2 ^ (ln - ld)).
    { apply Qnot_le_lt. intros L. apply Qle_bool_iff in L. congruence. }
    replace (ln - ld - 1 + 1)%Z with (ln - ld)%Z by lia.
    split; [apply Qlt_le_weak; exact Hlow | exact T'].
Qed.

Lemma Qlog2_mono (x y : Q) : 0 < x -> x <= y -> (Qlog2 x <= Qlog2 y)%Z.
Proof.
  intros Hx Hxy.
  destruct (Qlog2_spec x Hx) as [Lx _].
  destruct (Qlog2_spec y) as [_ Uy]; [lra|].
  assert (H : 2 ^ Qlog2 x < 2 ^ (Qlog2 y + 1)) by lra.
  apply pow2_lt_inv in H. lia.
Qed.

Lemma Qdiv_pow2_le (x y : Q) (u : Z) : x <= y -> x / 2 ^ u <= y / 2 ^ u.
Proof.
  intros H. unfold Qdiv.
  assert (0 < / 2 ^ u) by (apply Qinv_lt_0_compat, pow2_pos).
  nra.
Qed.

Lemma Qdiv_pow2_shift (x : Q) (u k : Z) :
  (2 ^ (u + k) <= x -> 2 ^ k <= x / 2 ^ u)
  /\ (x <= 2 ^ (u + k) -> x / 2 ^ u <= 2 ^ k).
Proof.
  pose proof (pow2_pos u) as P.
  rewrite pow2_plus.
  split; intros H.
  - apply Qle_shift_div_l; [exact P | lra].
  - apply Qle_shift_div_r; [exact P | lra].
Qed.

Lemma nearest_nonneg (a : Q) : 0 < a -> 0 <= nearest a.
Proof.
  intros Ha. unfold nearest.
  apply Qmult_le_0_compat; [|apply Qlt_le_weak, pow2_pos].
  change 0 with (inject_Z 0). rewrite <- Zle_Qle.
  rewrite <- (round_half_even_Z 0). apply round_half_even_mono.
  change (0 <= a / 2 ^ ulp_exponent a).
  apply Qle_shift_div_l; [apply pow2_pos|]. lra.
Qed.

(** Rounding to the nearest binary64 value is monotone. *)
Lemma nearest_mono (x y : Q) : 0 < x -> x <= y -> nearest x <= nearest y.
Proof.
  intros Hx Hxy.
  assert (Hy : 0 < y) by lra.
  pose proof (Qlog2_mono x y Hx Hxy) as He.
  destruct (Qlog2_spec x Hx) as [Lx Ux].
  destruct (Qlog2_spec y Hy) as [Ly Uy].
  unfold nearest, ulp_exponent.
  set (ex := Qlog2 x) in *. set (ey := Qlog2 y) in *.
  destruct (Z.eq_dec (Z.max (ex - 52) (-1074)) (Z.max (ey - 52) (-1074)))
    as [E|N].
  - rewrite <- E. set (u := Z.max (ex - 52) (-1074)).
    apply Qmult_le_compat_r; [|apply Qlt_le_weak, pow2_pos].
    rewrite <- Zle_Qle. apply round_half_even_mono.
    apply Qdiv_pow2_le, Hxy.
  - set (ux := Z.max (ex - 52) (-1074)) in *.
    set (uy := Z.max (ey - 52) (-1074)) in *.
    assert (Hu : (ux + 1 <= uy)%Z) by lia.
    assert (Huy : uy = (ey - 52)%Z) by lia.
    assert (Hux : (ex - 52 <= ux)%Z) by lia.
    assert (Kx : (round_half_even (x / 2 ^ ux) <= 2 ^ 53)%Z).
    { rewrite <- (round_half_even_Z (2 ^ 53)).
      apply round_half_even_mono. rewrite (pow2_Z 53) by lia.
      apply (Qdiv_pow2_shift x ux 53).
      apply Qle_trans with (2 ^ (ex + 1)); [lra|].
      apply pow2_le. lia. }
    assert (Ky : (2 ^ 52 <= round_half_even (y / 2 ^ uy))%Z).
    { rewrite <- (round_half_even_Z (2 ^ 52)) at 1.
      apply round_half_even_mono.
      apply Qle_trans with (2 ^ 52);
        [rewrite (pow2_Z 52) by lia; apply Qle_refl|].
      apply (Qdiv_pow2_shift y uy 52).
      replace (uy + 52)%Z with ey by lia. exact Ly. }
    apply Qle_trans with (2 ^ (ux + 53)).
    + rewrite pow2_plus, (Qmult_comm (2 ^ ux)).
      apply Qmult_le_compat_r; [|apply Qlt_le_weak, pow2_pos].
      rewrite <- (pow2_Z 53) by lia. rewrite <- Zle_Qle. exact Kx.
    + apply Qle_trans with (2 ^ (uy + 52)); [apply pow2_le; lia|].
      rewrite pow2_plus, (Qmult_comm (2 ^ uy)).
      apply Qmult_le_compat_r; [|apply Qlt_le_weak, pow2_pos].
      rewrite <- (pow2_Z 52) by lia. rewrite <- Zle_Qle. exact Ky.
Qed.

Lemma round64_pos_shape (a : Q) :
  0 < a ->
  round64_pos a = PInf
  \/ exists r, round64_pos a = Fin r /\ 0 <= r /\ r == nearest a.
Proof.
  intros Ha. unfold round64_pos.
  destruct (Qle_bool (2 ^ 1024) (nearest a)); [left; reflexivity|].
  right. exists (nearest a).
  split; [reflexivity|]. split; [apply nearest_nonneg, Ha | reflexivity].
Qed.

Lemma round64_pos_mono (x y : Q) :
  0 < x -> x <= y -> fle (round64_pos x) (round64_pos y) = true.
Proof.
  intros Hx Hxy. pose proof (nearest_mono x y Hx Hxy) as H.
  unfold round64_pos.
  destruct (Qle_bool (2 ^ 1024) (nearest x)) eqn:Ex;
    destruct (Qle_bool (2 ^ 1024) (nearest y)) eqn:Ey; cbn [fle];
    try reflexivity.
  - apply Qle_bool_iff in Ex.
    assert (L : 2 ^ 1024 <= nearest y) by (eapply Qle_trans; eassumption).
    apply Qle_bool_iff in L. congruence.
  - apply Qle_bool_iff. exact H.
Qed.

Lemma Qnum_sign (q : Q) :
  match Qnum q with
  | Z0 => q == 0
  | Zpos _ => 0 < q
  | Zneg _ => 0 < - q
  end.
Proof.
  destruct q as [[|p|p] d]; cbn [Qnum]; unfold Qeq, Qlt; cbn; lia.
Qed.

Lemma fle_fneg (x y : pyfloat) : fle x y = true -> fle (fneg y) (fneg x) = true.
Proof.
  destruct x as [a| | |], y as [b| | |]; cbn [fle fneg]; try (intros; congruence).
  intros H. apply Qle_bool_iff in H. apply Qle_bool_iff. lra.
Qed.

(** [round64] is monotone on finite values. *)
Theorem round64_mono (x y : Q) :
  x <= y -> fle (round64 (Fin x)) (round64 (Fin y)) = true.
Proof.
  intros Hxy. cbn [round64].
  pose proof (Qnum_sign x) as Sx. pose proof (Qnum_sign y) as Sy.
  destruct (Qnum x) as [|px|px]; destruct (Qnum y) as [|py|py];
    try (exfalso; lra).
  - reflexivity.
  - destruct (round64_pos_shape y Sy) as [->|(r & -> & Hr & _)];
      [reflexivity|]. apply Qle_bool_iff. exact Hr.
  - apply round64_pos_mono; assumption.
  - destruct (round64_pos_shape (- x) Sx) as [->|(r & -> & Hr & _)];
      [reflexivity|]. apply Qle_bool_iff. cbn. lra.
  - destruct (round64_pos_shape (- x) Sx) as [->|(r & -> & Hr & _)];
      destruct (round64_pos_shape y Sy) as [->|(r' & -> & Hr' & _)];
      try reflexivity.
    apply Qle_bool_iff. lra.
  - apply fle_fneg, round64_pos_mono; [exact Sy | lra].
Qed.

Lemma round_half_even_error (a : Q) :
  Qabs (inject_Z (round_half_even a) - a) <= 1 # 2.
Proof.
  pose proof (Qfloor_le a) as L. pose proof (Qlt_floor a) as U.
  rewrite inject_Z_plus in U. change (inject_Z 1) with 1 in U.
  apply Qabs_Qle_condition. unfold round_half_even.
  destruct (Qcompare_spec (a - inject_Z (Qfloor a)) (1 # 2)) as [E|E|E];
    [destruct (Z.even (Qfloor a))| |];
    rewrite ?inject_Z_plus; change (inject_Z 1) with 1; split; lra.
Qed.

(** Rounding moves a positive rational by at most half a unit in the last
    place. *)
Lemma nearest_error (a : Q) :
  0 < a -> Qabs (nearest a - a) <= 2 ^ ulp_exponent a * (1 # 2).
Proof.
  intros Ha. unfold nearest. set (u := ulp_exponent a).
  pose proof (pow2_pos u) as P.
  pose proof (round_half_even_error (a / 2 ^ u)) as H.
  set (m := inject_Z (round_half_even (a / 2 ^ u))) in *.
  apply Qabs_Qle_condition in H. destruct H as [H1 H2].
  assert (E : a / 2 ^ u * 2 ^ u == a) by (field; lra).
  apply Qabs_Qle_condition. split; nra.
Qed.

(** In the range of the normal binary64 values the relative error of
    rounding is at most [2 ^ -53], and there is no overflow. *)
Lemma round64_relative (a : Q) :
  2 ^ (-1022) <= a -> a <= 2 ^ 1023 ->
  exists r,
    round64 (Fin a) = Fin r /\ Qabs (r - a) <= a * 2 ^ (-53).
Proof.
  intros Hlo Hhi.
  assert (Ha : 0 < a).
  { apply Qlt_le_trans with (2 ^ (-1022)); [apply pow2_pos | exact Hlo]. }
  destruct (Qlog2_spec a Ha) as [L U].
  assert (He : (-1022 <= Qlog2 a)%Z).
  { assert (H : 2 ^ (-1022) < 2 ^ (Qlog2 a + 1)) by lra.
    apply pow2_lt_inv in H. lia. }
  pose proof (nearest_error a Ha) as Herr.
  assert (Hu : ulp_exponent a = (Qlog2 a - 52)%Z)
    by (unfold ulp_exponent; lia).
  rewrite Hu in Herr.
  assert (Hrel : Qabs (nearest a - a) <= a * 2 ^ (-53)).
  { apply Qle_trans with (2 ^ (Qlog2 a - 52) * (1 # 2)); [exact Herr|].
    replace (Qlog2 a - 52)%Z with (Qlog2 a + -52)%Z by lia.
    rewrite pow2_plus.
    assert (E : 2 ^ (-52) * (1 # 2) == 2 ^ (-53)) by reflexivity.
    pose proof (pow2_pos (-53)) as P.
    nra. }
  exists (nearest a). split; [|exact Hrel].
  cbn [round64]. pose proof (Qnum_sign a) as S.
  destruct (Qnum a); [exfalso; lra | | exfalso; lra].
  unfold round64_pos.
  assert (N : Qle_bool (2 ^ 1024) (nearest a) = false).
  { destruct (Qle_bool (2 ^ 1024) (nearest a)) eqn:T; [|reflexivity].
    apply Qle_bool_iff in T. exfalso.
    apply Qabs_Qle_condition in Hrel. destruct Hrel as [_ R].
    assert (B : a * 2 ^ (-53) <= 2 ^ 1023 * 2 ^ (-53)).
    { apply Qmult_le_compat_r; [exact Hhi | apply Qlt_le_weak, pow2_pos]. }
    assert (C : 2 ^ 1023 + 2 ^ 1023 * 2 ^ (-53) < 2 ^ 1024) by reflexivity.
    lra. }
  rewrite N. reflexivity.
Qed.

(** The threshold [entry * x] of a price check, computed in binary64 for
    a factor [x] between 1/2 and 3/2 and an entry price between
    [2 ^ -1000] and [2 ^ 1000], is finite and within the relative distance
    [2 ^ -51] of the exact product. *)
Lemma threshold_band (entry x : Q) :
  2 ^ (-1000) <= entry -> entry <= 2 ^ 1000 ->
  1 # 2 <= x -> x <= 3 # 2 ->
  exists t,
    round64 (Fin entry * round64 (Fin x))%fl = Fin t
    /\ Qabs (t - entry * x) <= entry * x * 2 ^ (-51).
Proof.
  intros He1 He2 Hx1 Hx2.
  assert (P53 : 0 < 2 ^ (-53)) by apply pow2_pos.
  assert (S53 : 2 ^ (-53) <= 1) by (apply Qlt_le_weak; reflexivity).
  assert (E51 : 2 ^ (-51) == 4 * 2 ^ (-53)) by reflexivity.
  assert (Pe : 0 < entry).
  { apply Qlt_le_trans with (2 ^ (-1000)); [apply pow2_pos | exact He1]. }
  destruct (round64_relative x) as (ra & Era & Ha).
  { apply Qle_trans with (1 # 2); [apply Qlt_le_weak; reflexivity|exact Hx1]. }
  { apply Qle_trans with (3 # 2); [exact Hx2|apply Qlt_le_weak; reflexivity]. }
  apply Qabs_Qle_condition in Ha. destruct Ha as [Ha1 Ha2].
  set (eps := 2 ^ (-53)) in *.
  assert (Hxe : 0 <= x * eps) by nra.
  assert (Hxe' : x * eps <= x) by nra.
  assert (Ra1 : 1 # 4 <= ra) by nra.
  assert (Ra2 : ra <= 3) by nra.
  destruct (round64_relative (entry * ra)) as (t & Et & Ht).
  { apply Qle_trans with (2 ^ (-1000) * (1 # 4));
      [apply Qlt_le_weak; reflexivity|].
    apply Qle_trans with (entry * (1 # 4)).
    - apply Qmult_le_compat_r; [exact He1 | discriminate].
    - apply Qmult_le_l; [exact Pe | exact Ra1]. }
  { apply Qle_trans with (2 ^ 1000 * 3);
      [|apply Qlt_le_weak; reflexivity].
    apply Qle_trans with (entry * 3).
    - apply Qmult_le_l; [exact Pe | exact Ra2].
    - apply Qmult_le_compat_r; [exact He2 | discriminate]. }
  fold eps in Ht.
  apply Qabs_Qle_condition in Ht. destruct Ht as [Ht1 Ht2].
  exists t. rewrite Era. cbn [fmul]. split; [exact Et|].
  assert (A1 : entry * (ra - x) <= entry * (x * eps)).
  { apply Qmult_le_l; [exact Pe | lra]. }
  assert (A2 : - (entry * (x * eps)) <= entry * (ra - x)).
  { setoid_replace (- (entry * (x * eps)))
      with (entry * - (x * eps)) using relation Qeq by ring.
    apply Qmult_le_l; [exact Pe | lra]. }
  assert (A3 : 0 <= entry * (x * eps)).
  { apply Qmult_le_0_compat; lra. }
  assert (A4 : entry * ra * eps <= 2 * (entry * (x * eps))).
  { assert (B : entry * ra <= 2 * (entry * x)).
    { setoid_replace (2 * (entry * x))
      with (entry * (2 * x)) using relation Qeq by ring.
      apply Qmult_le_l; [exact Pe | lra]. }
    setoid_replace (2 * (entry * (x * eps)))
      with (2 * (entry * x) * eps) using relation Qeq by ring.
    apply Qmult_le_compat_r; [exact B | lra]. }
  assert (A5 : 0 <= entry * ra * eps).
  { apply Qmult_le_0_compat; [apply Qmult_le_0_compat|]; lra. }
  apply Qabs_Qle_condition. rewrite E51.
  setoid_replace (entry * x * (4 * eps))
      with (4 * (entry * (x * eps))) using relation Qeq by ring.
  setoid_replace (t - entry * x)
      with ((t - entry * ra) + entry * (ra - x)) using relation Qeq by ring.
  split; lra.
Qed.

End Rounding.

(** ** The simple risk manager: stop-loss *)

(** C7: for a long position the stop-loss check is true exactly when the
    current price is strictly below entry * (1 - stop_loss), for a short
    position exactly when it is strictly above entry * (1 + stop_loss),
    whatever the entry price; the threshold is the product as the code
    computes it, in binary64.  For a fraction up to 1/2 and an entry price
    between [2 ^ -1000] and [2 ^ 1000] that threshold is within the
    relative distance [2 ^ -51] of the exact product, so outside this band
    the check decides as in exact arithmetic.  With the fraction 0.02 and
    entry 100 (the literals taken as the binary64 values nearest to them)
    the threshold is 98: the price 97.99 triggers, 98.01 and 98 itself do
    not. *)
Theorem C7_check_stop_loss_boundary :
  forall (self : risk_manager.RiskManager) (sl entry current : Q)
         (position : Z),
    risk_manager.stop_loss self = Fin sl ->
    let long_threshold := round64 (Fin entry * round64 (Fin 1 - Fin sl))%fl in
    let short_threshold :=
      round64 (Fin entry * round64 (Fin 1 + Fin sl))%fl in
    let two_percent :=
      {| risk_manager.max_position_size := round64 (Fin 0.1);
         risk_manager.stop_loss := round64 (Fin 0.02);
         risk_manager.take_profit := round64 (Fin 0.05) |} in
    ((position > 0)%Z ->
       (risk_manager.check_stop_loss self (Fin entry) (Fin current) position
          = true
        <-> (Fin current <? long_threshold)%fl = true)
       /\ forall t, long_threshold = Fin t ->
            (risk_manager.check_stop_loss self (Fin entry) (Fin current)
               position = true
             <-> (current < t)%Q))
    /\ ((position < 0)%Z ->
          (risk_manager.check_stop_loss self (Fin entry) (Fin current)
             position = true
           <-> (Fin current >? short_threshold)%fl = true)
          /\ forall t, short_threshold = Fin t ->
               (risk_manager.check_stop_loss self (Fin entry) (Fin current)
                  position = true
                <-> (t < current)%Q))
    /\ ((0 <= sl <= 1 # 2)%Q ->
        (2 ^ (-1000) <= entry <= 2 ^ 1000)%Q ->
        ((position > 0)%Z ->
           ((current < entry * (1 - sl) * (1 - 2 ^ (-51)))%Q ->
            risk_manager.check_stop_loss self (Fin entry) (Fin current)
              position = true)
           /\ (risk_manager.check_stop_loss self (Fin entry) (Fin current)
                 position = true ->
               (current < entry * (1 - sl) * (1 + 2 ^ (-51)))%Q))
        /\ ((position < 0)%Z ->
              ((entry * (1 + sl) * (1 + 2 ^ (-51)) < current)%Q ->
               risk_manager.check_stop_loss self (Fin entry) (Fin current)
                 position = true)
              /\ (risk_manager.check_stop_loss self (Fin entry)
                    (Fin current) position = true ->
                  (entry * (1 + sl) * (1 - 2 ^ (-51)) < current)%Q)))
    /\ round64 (Fin 100 * round64 (Fin 1 - round64 (Fin 0.02)))%fl =~ Fin 98
    /\ risk_manager.check_stop_loss two_percent
         (Fin 100) (round64 (Fin 97.99)) 1 = true
    /\ risk_manager.check_stop_loss two_percent
         (Fin 100) (round64 (Fin 98.01)) 1 = false
    /\ risk_manager.check_stop_loss two_percent (Fin 100) (Fin 98) 1 = false.
Proof.
  intros self sl entry current position Hsl long_threshold short_threshold
    two_percent.
  assert (Hlong : (position > 0)%Z ->
            risk_manager.check_stop_loss self (Fin entry) (Fin current)
              position = (Fin current <? long_threshold)%fl).
  { intros Hpos. apply Z.gtb_gt in Hpos.
    unfold risk_manager.check_stop_loss. rewrite Hsl, Hpos. reflexivity. }
  assert (Hshort : (position < 0)%Z ->
            risk_manager.check_stop_loss self (Fin entry) (Fin current)
              position = (Fin current >? short_threshold)%fl).
  { intros Hneg. unfold risk_manager.check_stop_loss. rewrite Hsl.
    destruct (position >? 0)%Z eqn:G; [apply Z.gtb_gt in G; lia|].
    apply Z.ltb_lt in Hneg. rewrite Hneg. reflexivity. }
  split; [|split; [|split; [|vm_compute; repeat split]]].
  - intros Hpos. rewrite (Hlong Hpos). split; [reflexivity|].
    intros t ->. apply Qlt_bool_iff.
  - intros Hneg. rewrite (Hshort Hneg). split; [reflexivity|].
    intros t ->. apply Qlt_bool_iff.
  - intros [Hs1 Hs2] [He1 He2].
    assert (P51 : (0 < 2 ^ (-51))%Q) by reflexivity.
    assert (Pe : (0 < entry)%Q).
    { apply Qlt_le_trans with (2 ^ (-1000))%Q; [reflexivity | exact He1]. }
    split.
    + intros Hpos. rewrite (Hlong Hpos).
      destruct (threshold_band entry (1 - sl) He1 He2) as (t & Et & Hb);
        [lra | lra |].
      subst long_threshold. cbn [fsub]. rewrite Et.
      apply Qabs_Qle_condition in Hb. destruct Hb as [Hb1 Hb2].
      split; intros H.
      * apply Qlt_bool_iff. lra.
      * apply Qlt_bool_iff in H. lra.
    + intros Hneg. rewrite (Hshort Hneg).
      destruct (threshold_band entry (1 + sl) He1 He2) as (t & Et & Hb);
        [lra | lra |].
      subst short_threshold. cbn [fadd]. rewrite Et.
      apply Qabs_Qle_condition in Hb. destruct Hb as [Hb1 Hb2].
      unfold fgt, flt.
      split; intros H.
      * apply Qlt_bool_iff. lra.
      * apply Qlt_bool_iff in H. lra.
Qed.

Lemma C7_check_stop_loss_witness :
  risk_manager.check_stop_loss risk_manager.default (Fin 100) (Fin 97) 1
    = true
  /\ risk_manager.check_stop_loss risk_manager.default (Fin 100) (Fin 103) (-1)
       = true.
Proof.
  destruct (C7_check_stop_loss_boundary risk_manager.default 0.02 100 97 1
              eq_refl) as [Hlong _].
  destruct (C7_check_stop_loss_boundary risk_manager.default 0.02 100 103 (-1)
              eq_refl) as [_ [Hshort _]].
  split.
  - apply Hlong; [lia | vm_compute; reflexivity].
  - apply Hshort; [lia | vm_compute; reflexivity].
Defined.

(** The comparison is with the rounded product: for the binary64 values of
    50.06, 0.02 and 49.0588 the price is below the exact product of entry
    and 1 - stop_loss, yet the check is false, because that product rounds
    to the price itself. *)
Lemma check_stop_loss_threshold_is_rounded :
  match round64 (Fin 50.06), round64 (Fin 0.02), round64 (Fin 49.0588) with
  | Fin entry, Fin sl, Fin current =>
      (current < entry * (1 - sl))%Q
      /\ risk_manager.check_stop_loss
           {| risk_manager.max_position_size := Fin 0.1;
              risk_manager.stop_loss := Fin sl;
              risk_manager.take_profit := Fin 0.05 |}
           (Fin entry) (Fin current) 1 = false
  | _, _, _ => False
  end.
Proof.
  vm_compute. split; [reflexivity|reflexivity].
Qed.

(** ** Position sizing *)

Section Sizing.
Local Open Scope Q_scope.

Lemma correlation_factor_range (corr : option pyfloat) :
  corr = None \/ (exists c, corr = Some (Fin c) /\ -1 <= c <= 1) ->
  0 <= advanced_risk.correlation_factor corr <= 1.
Proof.
  intros [-> | [c [-> Hc]]]; simpl; [lra|].
  assert (0 <= Qabs c) by apply Qabs_nonneg.
  assert (Qabs c <= 1) by (apply Qabs_Qle_condition; lra).
  lra.
Qed.

(** The advanced sizing on finite inputs, in closed form. *)
Lemma advanced_size_finite (self : advanced_risk.RiskManager)
    (corr : option pyfloat) (cap price m v : Q) :
  advanced_risk.max_position_size self = Fin m ->
  0 < price -> 0 <= v ->
  corr = None \/ (exists c, corr = Some (Fin c) /\ -1 <= c <= 1) ->
  advanced_risk.calculate_position_size self (Fin cap) (Some (Fin price))
    (Some (Fin v)) corr
  = Ok (pymin
          (Fin (cap * m * (1 / (1 + v))
                * advanced_risk.correlation_factor corr / price))
          (Fin (cap * m / price))).
Proof.
  intros Hm Hp Hv Hc.
  unfold advanced_risk.calculate_position_size.
  rewrite Hm. simpl.
  rewrite (fdiv_Fin 1 (1 + v)) by lra. simpl.
  destruct Hc as [-> | [c [-> Hc]]]; simpl;
    rewrite !fdiv_Fin by lra; reflexivity.
Qed.

(** The simple sizing on finite inputs with a positive volatility. *)
Lemma simple_size_finite (self : risk_manager.RiskManager)
    (cap price m v : Q) :
  risk_manager.max_position_size self = Fin m ->
  0 < price -> 0 < v ->
  risk_manager.calculate_position_size self (Fin cap) (Some (Fin price))
    (Some (Fin v))
  = Ok (pymin (Fin (cap * m / (v * price))) (Fin (cap * m / price))).
Proof.
  intros Hm Hp Hv.
  unfold risk_manager.calculate_position_size,
    risk_manager.calculate_position_size_with.
  rewrite Hm. simpl.
  assert (0 < v * price) by nra.
  rewrite !fdiv_Fin by lra. reflexivity.
Qed.

(** [min] with a fixed cap is monotone in its first argument. *)
Lemma pymin_cap_mono (a1 a2 b : Q) :
  0 <= a2 -> a2 <= a1 -> 0 <= b ->
  exists q1 q2,
    pymin (Fin a1) (Fin b) = Fin q1 /\ pymin (Fin a2) (Fin b) = Fin q2 /\
    0 <= q1 /\ 0 <= q2 /\ q2 <= q1 /\ q1 <= b.
Proof.
  intros H2 H21 Hb.
  destruct (pymin_Fin a1 b) as [q1 [E1 [L1a [L1b D1]]]].
  destruct (pymin_Fin a2 b) as [q2 [E2 [L2a [L2b D2]]]].
  exists q1, q2. repeat split; try assumption.
  - destruct D1 as [D|D]; rewrite D; lra.
  - destruct D2 as [D|D]; rewrite D; lra.
  - destruct D1 as [D|D]; rewrite D; lra.
Qed.

Lemma Qdiv_nonneg (a b : Q) : 0 <= a -> 0 < b -> 0 <= a / b.
Proof.
  intros Ha Hb. apply Qle_shift_div_l; [exact Hb | lra].
Qed.

Lemma Qdiv_le_mono (a b c : Q) : a <= b -> 0 < c -> a / c <= b / c.
Proof.
  intros Hab Hc. unfold Qdiv.
  assert (0 < / c) by (apply Qinv_lt_0_compat; exact Hc).
  nra.
Qed.

(** For capital >= 0, price > 0 and a fraction max_position_size >= 0,
    the sizing of [advanced_risk] (correlation absent or in [-1, 1])
    returns, for every volatility >= 0, a quantity that is non-negative,
    at most capital * max_position_size / price, and non-increasing in the
    volatility; the sizing of [risk_manager] does so for every
    volatility > 0. *)
Lemma position_size_bounded_monotone :
  forall (cap price m v1 v2 : Q),
    0 <= cap -> 0 < price -> 0 <= m -> v1 <= v2 ->
    (forall (self : advanced_risk.RiskManager) (corr : option pyfloat),
       advanced_risk.max_position_size self = Fin m ->
       corr = None \/ (exists c, corr = Some (Fin c) /\ -1 <= c <= 1) ->
       0 <= v1 ->
       exists q1 q2,
         advanced_risk.calculate_position_size self (Fin cap)
           (Some (Fin price)) (Some (Fin v1)) corr = Ok (Fin q1)
         /\ advanced_risk.calculate_position_size self (Fin cap)
              (Some (Fin price)) (Some (Fin v2)) corr = Ok (Fin q2)
         /\ 0 <= q1 /\ 0 <= q2 /\ q2 <= q1 /\ q1 <= cap * m / price)
    /\ (forall (self : risk_manager.RiskManager),
          risk_manager.max_position_size self = Fin m ->
          0 < v1 ->
          exists q1 q2,
            risk_manager.calculate_position_size self (Fin cap)
              (Some (Fin price)) (Some (Fin v1)) = Ok (Fin q1)
            /\ risk_manager.calculate_position_size self (Fin cap)
                 (Some (Fin price)) (Some (Fin v2)) = Ok (Fin q2)
            /\ 0 <= q1 /\ 0 <= q2 /\ q2 <= q1 /\ q1 <= cap * m / price).
Proof.
  intros cap price m v1 v2 Hcap Hp Hm H12.
  assert (Hcm : 0 <= cap * m) by nra.
  assert (Hb : 0 <= cap * m / price) by (apply Qdiv_nonneg; assumption).
  split.
  - intros self corr Em Hc Hv1.
    rewrite (advanced_size_finite self corr cap price m v1) by assumption.
    rewrite (advanced_size_finite self corr cap price m v2)
      by (try assumption; lra).
    pose proof (correlation_factor_range corr Hc) as Hca.
    set (ca := advanced_risk.correlation_factor corr) in *.
    assert (Hi : / (1 + v2) <= / (1 + v1))
      by (apply Qinv_le_contravar; lra).
    assert (Hi2 : 0 <= / (1 + v2)) by (apply Qinv_le_0_compat; lra).
    assert (Hk : 0 <= cap * m * ca) by nra.
    destruct (pymin_cap_mono
                (cap * m * (1 / (1 + v1)) * ca / price)
                (cap * m * (1 / (1 + v2)) * ca / price)
                (cap * m / price)) as [q1 [q2 H]].
    + apply Qdiv_nonneg; [|exact Hp]. unfold Qdiv. nra.
    + apply Qdiv_le_mono; [|exact Hp]. unfold Qdiv. nra.
    + exact Hb.
    + destruct H as [E1 [E2 H]]. rewrite E1, E2.
      exists q1, q2. split; [reflexivity | split; [reflexivity | exact H]].
  - intros self Em Hv1.
    rewrite (simple_size_finite self cap price m v1) by assumption.
    rewrite (simple_size_finite self cap price m v2)
      by (try assumption; lra).
    assert (H1 : 0 < v1 * price) by nra.
    assert (H2 : v1 * price <= v2 * price) by nra.
    assert (Hi : / (v2 * price) <= / (v1 * price))
      by (apply Qinv_le_contravar; assumption).
    assert (Hi2 : 0 <= / (v2 * price)) by (apply Qinv_le_0_compat; lra).
    destruct (pymin_cap_mono
                (cap * m / (v1 * price)) (cap * m / (v2 * price))
                (cap * m / price)) as [q1 [q2 H]].
    + unfold Qdiv. nra.
    + unfold Qdiv. nra.
    + exact Hb.
    + destruct H as [E1 [E2 H]]. rewrite E1, E2.
      exists q1, q2. split; [reflexivity | split; [reflexivity | exact H]].
Qed.

(** C5: at volatility 0 the sizing of [risk_manager], called with builtin
    floats, returns no quantity: the unguarded division by
    volatility * price raises [ZeroDivisionError], whatever the capital
    and the finite price.  At the same input the sizing of [advanced_risk]
    returns the cap capital * max_position_size / price, and so does the
    sizing of [risk_manager] itself when price and volatility are
    [numpy.float64]. *)
Theorem C5_zero_volatility_raises :
  (forall (self : risk_manager.RiskManager) (portfolio_value : pyfloat)
          (price : Q),
     risk_manager.calculate_position_size self portfolio_value
       (Some (Fin price)) (Some (Fin 0)) = Raise ZeroDivisionError)
  /\ risk_manager.calculate_position_size risk_manager.default
       (Fin 100000) (Some (Fin 100)) (Some (Fin 0))
     = Raise ZeroDivisionError
  /\ (exists q,
        advanced_risk.calculate_position_size advanced_risk.default
          (Fin 100000) (Some (Fin 100)) (Some (Fin 0)) None = Ok (Fin q)
        /\ q == 100000 * 0.1 / 100)
  /\ (exists q,
        risk_manager.calculate_position_size_float64 risk_manager.default
          (Fin 100000) (Some (Fin 100)) (Some (Fin 0)) = Ok (Fin q)
        /\ q == 100000 * 0.1 / 100).
Proof.
  split; [|split; [|split]].
  - intros self pv price.
    unfold risk_manager.calculate_position_size,
      risk_manager.calculate_position_size_with, mbind, result_bind.
    cbn [num fmul]. unfold fdiv.
    assert (E : is_zero (Fin (0 * price)) = true).
    { apply Qeq_bool_iff. ring. }
    rewrite E. reflexivity.
  - vm_compute. reflexivity.
  - eexists. split; [vm_compute; reflexivity|]. vm_compute. reflexivity.
  - eexists. split; [vm_compute; reflexivity|]. vm_compute. reflexivity.
Qed.

Lemma Qsgn_pos (q : Q) : 0 < q -> Qsgn q = 1%Z.
Proof.
  unfold Qsgn, Qlt. simpl. intros H. apply Z.sgn_pos. lia.
Qed.

Lemma fmul_NaN_r (x : pyfloat) : (x * NaN)%fl = NaN.
Proof. destruct x; reflexivity. Qed.

Lemma fdiv_NaN_r (x : pyfloat) : fdiv x NaN = Ok NaN.
Proof. destruct x; reflexivity. Qed.

Lemma fdiv_NaN_l (y : pyfloat) : is_zero y = false -> fdiv NaN y = Ok NaN.
Proof. intros H. unfold fdiv. rewrite H. reflexivity. Qed.

Lemma pymin_NaN_l (y : pyfloat) : pymin NaN y = NaN.
Proof. destruct y; reflexivity. Qed.

Lemma fdiv_nonzero (x y : pyfloat) :
  is_zero y = false -> exists z, fdiv x y = Ok z.
Proof. intros H. unfold fdiv. rewrite H. eexists. reflexivity. Qed.

(** C6 (amended): the sizing has no [InvalidInput] condition and checks
    none of its inputs.  A missing volatility or price makes the call
    raise [TypeError] (in [advanced_risk], with the volatility present and
    only the price missing, [ZeroDivisionError] can come first); a [nan]
    volatility with a non-zero price, or a [nan] price, is not rejected:
    the call returns [nan]; an infinite volatility with finite capital >= 0,
    fraction >= 0 and price > 0 is not rejected either: the call returns
    0. *)
Theorem C6_sizing_checks_no_input :
  (forall (self : risk_manager.RiskManager) pv p v,
     v = None \/ p = None ->
     risk_manager.calculate_position_size self pv p v = Raise TypeError)
  /\ (forall (self : advanced_risk.RiskManager) pv p c,
        advanced_risk.calculate_position_size self pv p None c
          = Raise TypeError)
  /\ (forall (self : advanced_risk.RiskManager) pv v c,
        advanced_risk.calculate_position_size self pv None (Some v) c
          = Raise TypeError
        \/ advanced_risk.calculate_position_size self pv None (Some v) c
             = Raise ZeroDivisionError)
  /\ (forall (self : risk_manager.RiskManager) pv p,
        is_zero p = false ->
        risk_manager.calculate_position_size self pv (Some p) (Some NaN)
          = Ok NaN)
  /\ (forall (self : advanced_risk.RiskManager) pv p c,
        is_zero p = false ->
        advanced_risk.calculate_position_size self pv (Some p) (Some NaN) c
          = Ok NaN)
  /\ (forall (self : risk_manager.RiskManager) pv v,
        risk_manager.calculate_position_size self pv (Some NaN) (Some v)
          = Ok NaN)
  /\ (forall (self : advanced_risk.RiskManager) pv v c,
        is_zero (Fin 1 + v)%fl = false ->
        advanced_risk.calculate_position_size self pv (Some NaN) (Some v) c
          = Ok NaN)
  /\ (forall (self : risk_manager.RiskManager) (cap m price : Q),
        risk_manager.max_position_size self = Fin m ->
        0 <= cap -> 0 <= m -> 0 < price ->
        risk_manager.calculate_position_size self (Fin cap)
          (Some (Fin price)) (Some PInf) = Ok (Fin 0))
  /\ (forall (self : advanced_risk.RiskManager) (cap m price : Q),
        advanced_risk.max_position_size self = Fin m ->
        0 <= cap -> 0 <= m -> 0 < price ->
        exists q, q == 0 /\
          advanced_risk.calculate_position_size self (Fin cap)
            (Some (Fin price)) (Some PInf) None = Ok (Fin q)).
Proof.
  repeat apply conj.
  - intros self pv p v [-> | ->]; [reflexivity|].
    destruct v; reflexivity.
  - reflexivity.
  - intros self pv v c.
    unfold advanced_risk.calculate_position_size, mbind, result_bind.
    cbn -[fadd fdiv].
    destruct (fdiv (Fin 1) (Fin 1 + v)%fl) as [va|e] eqn:E.
    + left; reflexivity.
    + right. unfold fdiv in E.
      destruct (is_zero (Fin 1 + v)%fl); [|discriminate E].
      injection E as <-. reflexivity.
  - intros self pv p Hp.
    unfold risk_manager.calculate_position_size,
      risk_manager.calculate_position_size_with, mbind, result_bind.
    cbn -[fdiv pymin].
    rewrite fdiv_NaN_r.
    destruct (fdiv_nonzero (pv * risk_manager.max_position_size self)%fl p Hp)
      as [z ->]. rewrite pymin_NaN_l. reflexivity.
  - intros self pv p c Hp.
    unfold advanced_risk.calculate_position_size, mbind, result_bind.
    cbn -[fdiv pymin fmul].
    rewrite fdiv_NaN_r, fmul_NaN_r. cbn -[fdiv pymin].
    rewrite (fdiv_NaN_l p Hp).
    destruct (fdiv_nonzero (pv * advanced_risk.max_position_size self)%fl p Hp)
      as [z ->]. rewrite pymin_NaN_l. reflexivity.
  - intros self pv v.
    unfold risk_manager.calculate_position_size,
      risk_manager.calculate_position_size_with, mbind, result_bind.
    cbn -[fdiv pymin fmul].
    rewrite fmul_NaN_r, !fdiv_NaN_r. reflexivity.
  - intros self pv v c Hv.
    unfold advanced_risk.calculate_position_size, mbind, result_bind.
    cbn -[fadd fdiv pymin].
    destruct (fdiv_nonzero (Fin 1) (Fin 1 + v)%fl Hv) as [z ->].
    rewrite !fdiv_NaN_r. reflexivity.
  - intros self cap m price Em Hcap Hm Hp.
    unfold risk_manager.calculate_position_size,
      risk_manager.calculate_position_size_with.
    rewrite Em. simpl.
    rewrite (Qsgn_pos price Hp). simpl.
    rewrite fdiv_Fin by lra. simpl.
    unfold pymin, flt.
    assert (E : Qlt_bool (cap * m / price) 0 = false).
    { apply Qlt_bool_false. apply Qdiv_nonneg; [nra | exact Hp]. }
    rewrite E. reflexivity.
  - intros self cap m price Em Hcap Hm Hp.
    unfold advanced_risk.calculate_position_size. rewrite Em. simpl.
    rewrite !fdiv_Fin by lra. simpl.
    unfold pymin, flt.
    assert (Z0 : cap * m * 0 * 1 / price == 0) by (field; lra).
    assert (E : Qlt_bool (cap * m / price) (cap * m * 0 * 1 / price) = false).
    { apply Qlt_bool_false. rewrite Z0. apply Qdiv_nonneg; [nra | exact Hp]. }
    rewrite E. eexists. split; [|reflexivity]. exact Z0.
Qed.

(** The claim as stated fails: a [nan] volatility is sized, not rejected. *)
Lemma C6_counterexample_nan_volatility :
  advanced_risk.calculate_position_size advanced_risk.default
    (Fin 100000) (Some (Fin 100)) (Some NaN) None = Ok NaN
  /\ ~ exists e : exn,
        advanced_risk.calculate_position_size advanced_risk.default
          (Fin 100000) (Some (Fin 100)) (Some NaN) None = Raise e.
Proof.
  split; [reflexivity|]. intros [e H]. vm_compute in H. discriminate H.
Qed.

Lemma C6_sizing_witness :
  risk_manager.calculate_position_size risk_manager.default (Fin 100000)
    None (Some (Fin 0.2)) = Raise TypeError
  /\ risk_manager.calculate_position_size risk_manager.default (Fin 100000)
       (Some (Fin 100)) (Some NaN) = Ok NaN
  /\ advanced_risk.calculate_position_size advanced_risk.default (Fin 100000)
       (Some (Fin 100)) (Some NaN) (Some (Fin 0.3)) = Ok NaN
  /\ advanced_risk.calculate_position_size advanced_risk.default (Fin 100000)
       (Some NaN) (Some (Fin 0.2)) None = Ok NaN
  /\ risk_manager.calculate_position_size risk_manager.default (Fin 100000)
       (Some (Fin 100)) (Some PInf) = Ok (Fin 0)
  /\ exists q, q == 0 /\
       advanced_risk.calculate_position_size advanced_risk.default
         (Fin 100000) (Some (Fin 100)) (Some PInf) None = Ok (Fin q).
Proof.
  destruct C6_sizing_checks_no_input
    as (Hnone & _ & _ & Hnan_s & Hnan_a & _ & Hnanp_a & Hinf_s & Hinf_a).
  repeat apply conj.
  - apply Hnone. right. reflexivity.
  - apply Hnan_s. reflexivity.
  - apply Hnan_a. reflexivity.
  - apply Hnanp_a. reflexivity.
  - apply (Hinf_s risk_manager.default 100000 0.1 100);
      [reflexivity | vm_compute; congruence .. | reflexivity].
  - apply (Hinf_a advanced_risk.default 100000 0.1 100);
      [reflexivity | vm_compute; congruence .. | reflexivity].
Defined.

End Sizing.

(** ** The backtesting loop *)

Section Backtest.

(** [execute_trade] on a symbol without a position opens one and books no
    PnL; with a position of the other signal it closes the whole position
    and books [_calculate_pnl]. *)
Lemma execute_trade_open (self : executor.Executor) (symbol : string)
    (sig : Z) (price size : pyfloat) (ts : Z) :
  executor.positions self !! symbol = None ->
  executor.execute_trade self symbol sig price size ts =
  let trade :=
    {| executor.t_timestamp := ts;
       executor.t_symbol := symbol;
       executor.t_action := if (sig >? 0)%Z then "buy" else "sell";
       executor.t_price := price;
       executor.t_size := size;
       executor.t_commission := (price * size * executor.commission self)%fl;
       executor.t_pnl := Fin 0 |} in
  ({| executor.commission := executor.commission self;
      executor.positions :=
        <[symbol := {| executor.signal := sig;
                       executor.price := price;
                       executor.size := size |}]> (executor.positions self);
      executor.trades := executor.trades self ++ [trade] |}, trade).
Proof.
  intros H. unfold executor.execute_trade. rewrite H. reflexivity.
Qed.

Lemma execute_trade_close (self : executor.Executor) (symbol : string)
    (sig : Z) (price size : pyfloat) (ts : Z) (pos : executor.Position) :
  executor.positions self !! symbol = Some pos ->
  sig <> executor.signal pos ->
  executor.execute_trade self symbol sig price size ts =
  let trade :=
    {| executor.t_timestamp := ts;
       executor.t_symbol := symbol;
       executor.t_action := if (sig >? 0)%Z then "buy" else "sell";
       executor.t_price := price;
       executor.t_size := size;
       executor.t_commission := (price * size * executor.commission self)%fl;
       executor.t_pnl :=
         executor._calculate_pnl self symbol (executor.price pos) price
           (executor.size pos) (executor.signal pos) |} in
  ({| executor.commission := executor.commission self;
      executor.positions := delete symbol (executor.positions self);
      executor.trades := executor.trades self ++ [trade] |}, trade).
Proof.
  intros H Hne. unfold executor.execute_trade. rewrite H.
  apply Z.eqb_neq in Hne. rewrite Hne. reflexivity.
Qed.

(** C2: with initial capital 100000 and commission rate 0.001, an entry bar
    with a long signal at price 100 on which the sizing returns 10, followed
    by a bar at price 110 on which an exit condition holds: the loop
    deducts the entry commission 1.0, the exit trade closes the whole
    position with realized PnL 97.9, and the run ends with capital
    100096.9. *)
Theorem C2_entry_exit_scenario :
  forall (risk : risk_manager.RiskManager) (symbol : string)
         (ts1 ts2 sig2 : Z) (v1 v2 : pyfloat) (q : Q),
    risk_manager.calculate_position_size_float64 risk (Fin 100000)
      (Some (Fin 100)) (Some v1) = Ok (Fin q) ->
    (q == 10)%Q ->
    (risk_manager.check_stop_loss risk (Fin 100) (Fin 110) 1
     || risk_manager.check_take_profit risk (Fin 100) (Fin 110) 1
     || (sig2 =? -1)%Z)%bool = true ->
    let self := backtester.new (Fin 100000) (Fin 0.001) in
    let init :=
      {| backtester.portfolio_value := Fin 100000;
         backtester.portfolio_value_float64 := false;
         backtester.position := 0;
         backtester.entry_price := Fin 0;
         backtester.exec := backtester.executor self |} in
    let entry_bar :=
      {| backtester.timestamp := ts1; backtester.signal := 1;
         backtester.close := Fin 100; backtester.volatility := v1 |} in
    let exit_bar :=
      {| backtester.timestamp := ts2; backtester.signal := sig2;
         backtester.close := Fin 110; backtester.volatility := v2 |} in
    exists st1 st2 entry exit report,
      backtester.step risk symbol init entry_bar = Ok st1
      /\ executor.trades (backtester.exec st1) = [entry]
      /\ executor.t_price entry = Fin 100
      /\ executor.t_size entry =~ Fin 10
      /\ executor.t_commission entry =~ Fin 1
      /\ backtester.portfolio_value st1 =~ Fin (100000 - 1)
      /\ backtester.step risk symbol st1 exit_bar = Ok st2
      /\ executor.trades (backtester.exec st2) = [entry; exit]
      /\ executor.t_price exit = Fin 110
      /\ executor.t_size exit =~ Fin 10
      /\ executor.t_pnl exit =~ Fin 97.9
      /\ executor.positions (backtester.exec st2) !! symbol = None
      /\ backtester.run self symbol risk [entry_bar; exit_bar] = Ok report
      /\ backtester.trade_history report = [entry; exit]
      /\ backtester.final_portfolio_value report =~ Fin 100096.9.
Proof.
  intros risk symbol ts1 ts2 sig2 v1 v2 q Hsize Hq Hexit self init entry_bar
    exit_bar.
  set (entry :=
    {| executor.t_timestamp := ts1;
       executor.t_symbol := symbol;
       executor.t_action := "buy";
       executor.t_price := Fin 100;
       executor.t_size := Fin q;
       executor.t_commission := Fin (100 * q * 0.001);
       executor.t_pnl := Fin 0 |}).
  set (pos := {| executor.signal := 1; executor.price := Fin 100;
                 executor.size := Fin q |}).
  set (st1 :=
    {| backtester.portfolio_value := Fin (100000 - 100 * q * 0.001);
       backtester.portfolio_value_float64 := true;
       backtester.position := 1;
       backtester.entry_price := Fin 100;
       backtester.exec :=
         {| executor.commission := Fin 0.001;
            executor.positions := <[symbol := pos]> ∅;
            executor.trades := [entry] |} |}).
  set (exit :=
    {| executor.t_timestamp := ts2;
       executor.t_symbol := symbol;
       executor.t_action := "sell";
       executor.t_price := Fin 110;
       executor.t_size := Fin q;
       executor.t_commission := Fin (110 * q * 0.001);
       executor.t_pnl :=
         Fin ((110 - 100) * q * inject_Z 1 - (100 + 110) * q * 0.001) |}).
  set (st2 :=
    {| backtester.portfolio_value :=
         Fin (100000 - 100 * q * 0.001
              + ((110 - 100) * q * inject_Z 1 - (100 + 110) * q * 0.001));
       backtester.portfolio_value_float64 := true;
       backtester.position := 0;
       backtester.entry_price := Fin 0;
       backtester.exec :=
         {| executor.commission := Fin 0.001;
            executor.positions := delete symbol (<[symbol := pos]> ∅);
            executor.trades := [entry; exit] |} |}).
  assert (S1 : backtester.step risk symbol init entry_bar = Ok st1).
  { unfold backtester.step.
    change (backtester.position init) with 0%Z.
    change (backtester.signal entry_bar) with 1%Z.
    change (backtester.close entry_bar) with (Fin 100).
    change (backtester.volatility entry_bar) with v1.
    change (backtester.portfolio_value init) with (Fin 100000).
    cbn [Z.eqb andb negb]. rewrite Hsize. unfold mbind, result_bind.
    rewrite execute_trade_open by apply lookup_empty. reflexivity. }
  assert (S2 : backtester.step risk symbol st1 exit_bar = Ok st2).
  { unfold backtester.step.
    change (backtester.position st1) with 1%Z.
    change (backtester.signal exit_bar) with sig2.
    change (backtester.close exit_bar) with (Fin 110).
    change (backtester.entry_price st1) with (Fin 100).
    change (1 =? 0)%Z with false.
    change (- (1))%Z with (-1)%Z.
    cbn [negb andb backtester.exec st1 executor.positions].
    rewrite Hexit. rewrite lookup_insert_eq.
    unfold mbind, result_bind.
    rewrite (execute_trade_close _ symbol (-1) (Fin 110) _ ts2 pos)
      by (try apply lookup_insert_eq; discriminate).
    reflexivity. }
  assert (R : exists report,
             backtester.run self symbol risk [entry_bar; exit_bar] = Ok report
             /\ backtester.trade_history report = [entry; exit]
             /\ backtester.final_portfolio_value report
                = backtester.portfolio_value st2).
  { assert (L : backtester.loop risk symbol init [entry_bar; exit_bar]
                 = Ok st2).
    { cbn [backtester.loop]. rewrite S1. unfold mbind, result_bind.
      rewrite S2. reflexivity. }
    unfold backtester.run.
    set (l := backtester.loop _ _ _ _).
    assert (El : l = Ok st2) by exact L.
    rewrite El. unfold mbind, result_bind.
    change (backtester.portfolio_value_float64 st2) with true.
    cbv iota.
    eexists. split; [reflexivity | split; reflexivity]. }
  destruct R as [report [Hrun [Hhist Hfinal]]].
  exists st1, st2, entry, exit, report.
  assert (Q1 : (100 * q * 0.001 == 1)%Q) by lra.
  assert (Q2 : ((110 - 100) * q * inject_Z 1 - (100 + 110) * q * 0.001
                == 97.9)%Q).
  { change (inject_Z 1) with 1%Q. lra. }
  repeat apply conj;
    try reflexivity; try assumption.
  - change (100000 - 100 * q * 0.001 == 100000 - 1)%Q. lra.
  - apply lookup_delete_eq.
  - rewrite Hfinal.
    change (100000 - 100 * q * 0.001
            + ((110 - 100) * q * inject_Z 1 - (100 + 110) * q * 0.001)
            == 100096.9)%Q.
    lra.
Qed.

Lemma C2_entry_exit_witness :
  exists final : pyfloat,
    option_map backtester.final_portfolio_value
      match backtester.run (backtester.new (Fin 100000) (Fin 0.001)) "SPY"
              risk_manager.default
              [ {| backtester.timestamp := 1; backtester.signal := 1;
                   backtester.close := Fin 100;
                   backtester.volatility := Fin 10 |};
                {| backtester.timestamp := 2; backtester.signal := 0;
                   backtester.close := Fin 110;
                   backtester.volatility := Fin 10 |} ] with
      | Ok r => Some r
      | Raise _ => None
      end = Some final
    /\ final =~ Fin 100096.9.
Proof.
  destruct (C2_entry_exit_scenario risk_manager.default "SPY" 1 2 0
              (Fin 10) (Fin 10) _ eq_refl ltac:(reflexivity) eq_refl)
    as (st1 & st2 & entry & exit & report & H).
  destruct H as (_ & _ & _ & _ & _ & _ & _ & _ & _ & _ & _ & _ & Hrun & _ & Hf).
  exists (backtester.final_portfolio_value report).
  split; [|exact Hf].
  rewrite Hrun. reflexivity.
Defined.

End Backtest.

(** ** The execution handler *)

Module EngineFacts.
Import advanced_executor.

(** Unfolding of the monad of methods. *)
Ltac munfold :=
  unfold mbind, mret, M_bind, M_ret, deref, gets, lift, modify, raise,
    assign, alloc in *.

Section Keeps.
Context (P : Store -> Prop).

Lemma keeps_ret {A} (a : A) : keeps P (mret a).
Proof. intros s H. exact H. Qed.

Lemma keeps_raise {A} (e : exn) : keeps P (raise e : M A).
Proof. intros s H. exact H. Qed.

Lemma keeps_lift {A} (r : result A) : keeps P (lift r).
Proof. intros s H. exact H. Qed.

Lemma keeps_gets {A} (f : Store -> A) : keeps P (gets f).
Proof. intros s H. exact H. Qed.

Lemma keeps_deref (r : ref) : keeps P (deref r).
Proof. intros s H. unfold deref. destruct (objects s !! r); exact H. Qed.

Lemma keeps_modify (f : Store -> Store) :
  (forall s, P s -> P (f s)) -> keeps P (modify f).
Proof. intros Hf s H. apply Hf, H. Qed.

Lemma keeps_bind {A B} (m : M A) (k : A -> M B) :
  keeps P m -> (forall a, keeps P (k a)) -> keeps P (m ≫= k).
Proof.
  intros Hm Hk s H. unfold mbind, M_bind.
  specialize (Hm s H). destruct (m s) as [s' [a|e]]; simpl in *.
  - apply Hk, Hm.
  - exact Hm.
Qed.

Lemma keeps_on_exception {A} (m : M A) (h : Store -> Store) :
  keeps P m -> (forall s, P s -> P (h s)) -> keeps P (on_exception m h).
Proof.
  intros Hm Hh s H. unfold on_exception.
  specialize (Hm s H). destruct (m s) as [s' [a|e]]; simpl in *.
  - exact Hm.
  - apply Hh, Hm.
Qed.

End Keeps.

Lemma no_zero_position_on_positions : on_positions no_zero_position.
Proof.
  intros s s' E H. unfold no_zero_position in *. rewrite <- E. exact H.
Qed.

Section KeepsPositions.
Context (P : Store -> Prop) (HP : on_positions P).

Lemma keeps_assign (r : ref) (o : Order) : keeps P (assign r o).
Proof. apply keeps_modify. intros s. apply HP. reflexivity. Qed.

Lemma keeps_alloc (o : Order) : keeps P (alloc o).
Proof. intros s. apply HP. reflexivity. Qed.

Lemma keeps_record_trade (r : ref) : keeps P (_record_trade r).
Proof.
  unfold _record_trade.
  apply keeps_bind; [apply keeps_deref|]. intros o.
  destruct (negb _); [apply keeps_ret|].
  apply keeps_bind; [apply keeps_gets|]. intros c.
  apply keeps_modify. intros s. apply HP. reflexivity.
Qed.

End KeepsPositions.

Lemma keeps_update_positions (r : ref) :
  keeps no_zero_position (_update_positions r).
Proof.
  unfold _update_positions.
  apply keeps_bind; [apply keeps_deref|]. intros o.
  destruct (negb _); [apply keeps_ret|].
  intros s H. unfold mbind at 1, M_bind at 1, gets at 1.
  set (ps := positions (handler s)).
  assert (Hps : map_Forall (fun _ p => (p_quantity p =? Fin 0)%fl = false) ps)
    by exact H.
  assert (Hfin : forall p' : Position,
    no_zero_position
      ((if (p_quantity p' =? Fin 0)%fl
        then match ps !! symbol o with
             | Some _ => modify (set_positions (delete (symbol o) ps))
             | None => raise KeyError
             end
        else modify (set_positions (<[symbol o := p']> ps))) s).1).
  { intros p'. destruct (p_quantity p' =? Fin 0)%fl eqn:E.
    - destruct (ps !! symbol o); [|exact H].
      apply map_Forall_delete, Hps.
    - apply map_Forall_insert_2; assumption. }
  destruct (side o).
  - munfold.
    destruct (if (_ >? Fin 0)%fl then _ else _) as [avg|e]; [|exact H].
    apply Hfin.
  - munfold. apply Hfin.
Qed.

(** What [_update_positions] and [_record_trade] leave alone. *)
Lemma keeps_update_positions_frame (P : Store -> Prop) (r : ref) :
  (forall s ps, P s -> P (set_positions ps s)) ->
  keeps P (_update_positions r).
Proof.
  intros HP. unfold _update_positions.
  apply keeps_bind; [apply keeps_deref|]. intros o.
  destruct (negb _); [apply keeps_ret|].
  apply keeps_bind; [apply keeps_gets|]. intros ps.
  apply keeps_bind.
  - destruct (side o); [|apply keeps_ret].
    apply keeps_bind; [apply keeps_lift | intros avg; apply keeps_ret].
  - intros p'. destruct (p_quantity p' =? Fin 0)%fl.
    + destruct (ps !! symbol o); [|apply keeps_raise].
      apply keeps_modify. intros s. apply HP.
    + apply keeps_modify. intros s. apply HP.
Qed.

Lemma keeps_record_trade_frame (P : Store -> Prop) (r : ref) :
  (forall s ts, P s -> P (set_trades ts s)) ->
  keeps P (_record_trade r).
Proof.
  intros HP. unfold _record_trade.
  apply keeps_bind; [apply keeps_deref|]. intros o.
  destruct (negb _); [apply keeps_ret|].
  apply keeps_bind; [apply keeps_gets|]. intros c.
  apply keeps_modify. intros s. apply HP.
Qed.

(** An order that is not filled touches neither table. *)
Lemma update_positions_not_filled (r : ref) (s : Store) (o : Order) :
  objects s !! r = Some o -> status o <> filled ->
  _update_positions r s = (s, Ok tt).
Proof.
  intros Ho Hs. unfold _update_positions. munfold. rewrite Ho.
  rewrite bool_decide_eq_false_2 by exact Hs. reflexivity.
Qed.

Lemma record_trade_not_filled (r : ref) (s : Store) (o : Order) :
  objects s !! r = Some o -> status o <> filled ->
  _record_trade r s = (s, Ok tt).
Proof.
  intros Ho Hs. unfold _record_trade. munfold. rewrite Ho.
  rewrite bool_decide_eq_false_2 by exact Hs. reflexivity.
Qed.

(** The guard [new_quantity > 0] protects the division. *)
Lemma positive_not_zero (x : pyfloat) :
  (x >? Fin 0)%fl = true -> is_zero x = false.
Proof.
  destruct x as [a| | |]; simpl; try reflexivity.
  unfold fgt, flt. intros H. apply Qlt_bool_iff in H.
  apply Qeq_bool_false_iff. intros E. rewrite E in H.
  exact (Qlt_irrefl 0 H).
Qed.

(** [_update_positions] returns, or raises [KeyError] from its [del]. *)
Lemma update_positions_result (r : ref) (s : Store) (o : Order) :
  objects s !! r = Some o ->
  (_update_positions r s).2 = Ok tt
  \/ (_update_positions r s).2 = Raise KeyError.
Proof.
  intros Ho. unfold _update_positions. munfold. rewrite Ho.
  destruct (negb _); [left; reflexivity|].
  destruct (side o).
  - destruct (_ >? Fin 0)%fl eqn:G.
    + unfold fdiv. rewrite (positive_not_zero _ G).
      destruct (_ =? Fin 0)%fl; [|left; reflexivity].
      destruct (_ !! symbol o); [left | right]; reflexivity.
    + destruct (_ =? Fin 0)%fl; [|left; reflexivity].
      destruct (_ !! symbol o); [left | right]; reflexivity.
  - destruct (_ =? Fin 0)%fl; [|left; reflexivity].
    destruct (_ !! symbol o); [left | right]; reflexivity.
Qed.

Lemma record_trade_result (r : ref) (s : Store) (o : Order) :
  objects s !! r = Some o -> (_record_trade r s).2 = Ok tt.
Proof.
  intros Ho. unfold _record_trade. munfold. rewrite Ho.
  destruct (negb _); reflexivity.
Qed.

(** The two bookkeeping calls that end an execution: the objects are as
    before, and the only exception is the [KeyError]. *)
Lemma bookkeeping_objects (r : ref) (s : Store) (o : Order) :
  objects s !! r = Some o ->
  let out := (_update_positions r ;; _record_trade r) s in
  objects out.1 = objects s
  /\ (out.2 = Ok tt \/ out.2 = Raise KeyError).
Proof.
  intros Ho. simpl. split.
  - apply (keeps_bind (fun s' => objects s' = objects s)); [| |reflexivity].
    + apply keeps_update_positions_frame. intros s' ps E. exact E.
    + intros _. apply keeps_record_trade_frame. intros s' ts E. exact E.
  - pose proof (keeps_update_positions_frame
                  (fun s' => objects s' = objects s) r
                  ltac:(intros s' ps E; exact E) s eq_refl) as Hobj.
    pose proof (update_positions_result r s o Ho) as Hres.
    unfold mbind, M_bind.
    destruct (_update_positions r s) as [s1 [[]|e]]; simpl in *.
    + left. apply (record_trade_result r s1 o). rewrite Hobj. exact Ho.
    + destruct Hres as [Hres|Hres]; [discriminate Hres|].
      right. exact Hres.
Qed.

(** [_execute_simulated_order] on each kind of order. *)
Lemma execute_simulated_market (r : ref) (s : Store) (o : Order)
    (p : pyfloat) :
  objects s !! r = Some o -> order_type o = MARKET -> price o = Some p ->
  let out := _execute_simulated_order r s in
  objects out.1 = <[r := fill o (p * slippage_factor s o)%fl]> (objects s)
  /\ (out.2 = Ok tt \/ out.2 = Raise KeyError).
Proof.
  intros Ho Hty Hp.
  set (s1 := set_objects
               (<[r := fill o (p * slippage_factor s o)%fl]> (objects s)) s).
  assert (E : _execute_simulated_order r s
              = (_update_positions r ;; _record_trade r) s1).
  { unfold _execute_simulated_order. munfold. rewrite Ho, Hty, Hp.
    reflexivity. }
  simpl. rewrite E.
  apply (bookkeeping_objects r s1 (fill o (p * slippage_factor s o)%fl)).
  apply list_lookup_insert_eq. eapply lookup_lt_Some, Ho.
Qed.

Lemma execute_simulated_limit (r : ref) (s : Store) (o : Order)
    (p sp : pyfloat) :
  objects s !! r = Some o -> order_type o = LIMIT ->
  price o = Some p -> stop_price o = Some sp ->
  let out := _execute_simulated_order r s in
  let marketable :=
    match side o with
    | BUY => (p >=? sp)%fl
    | SELL => (p <=? sp)%fl
    end in
  objects out.1
  = <[r := if marketable then fill o p else with_status o pending]> (objects s)
  /\ (out.2 = Ok tt \/ out.2 = Raise KeyError).
Proof.
  intros Ho Hty Hp Hsp. simpl.
  set (o' := if match side o with
                | BUY => (p >=? sp)%fl
                | SELL => (p <=? sp)%fl
                end
             then fill o p else with_status o pending).
  set (s1 := set_objects (<[r := o']> (objects s)) s).
  assert (E : _execute_simulated_order r s
              = (_update_positions r ;; _record_trade r) s1).
  { unfold _execute_simulated_order. munfold. rewrite Ho, Hty, Hp, Hsp.
    simpl. subst s1 o'.
    destruct (match side o with BUY => _ | SELL => _ end); reflexivity. }
  rewrite E.
  apply (bookkeeping_objects r s1 o').
  apply list_lookup_insert_eq. eapply lookup_lt_Some, Ho.
Qed.

Lemma execute_simulated_other (r : ref) (s : Store) (o : Order) :
  objects s !! r = Some o ->
  order_type o <> MARKET -> order_type o <> LIMIT -> status o <> filled ->
  _execute_simulated_order r s = (s, Ok tt).
Proof.
  intros Ho Hm Hl Hs.
  assert (E : _execute_simulated_order r s
              = (_update_positions r ;; _record_trade r) s).
  { unfold _execute_simulated_order. munfold. rewrite Ho.
    destruct (order_type o); try reflexivity; congruence. }
  rewrite E. unfold mbind, M_bind.
  rewrite (update_positions_not_filled r s o Ho Hs).
  apply (record_trade_not_filled r s o Ho Hs).
Qed.

(** [create_order] in simulated mode: the new object, its execution, and
    its entry in [self.orders] unless the execution raised. *)
Lemma create_order_simulated exch sym ty sd q p sp tp now (s : Store) :
  create_order false exch sym ty sd q p sp tp now s =
  let r := length (objects s) in
  let s0 := set_objects
              (objects s ++ [Order_init sym ty sd q p sp tp now]) s in
  match _execute_simulated_order r s0 with
  | (s1, Ok _) => (set_orders (orders (handler s1) ++ [r]) s1, Ok r)
  | (s1, Raise e) => (s1, Raise e)
  end.
Proof.
  unfold create_order, mbind, M_bind, alloc, modify, mret, M_ret. simpl.
  destruct (_execute_simulated_order _ _) as [s1 [[]|e]]; reflexivity.
Qed.

Lemma lookup_fresh (os : list Order) (o : Order) :
  (os ++ [o]) !! length os = Some o.
Proof. apply list_lookup_middle. reflexivity. Qed.

Section Modes.
Variable live : bool.
Variable exchange_create_order : Order -> result pyfloat.

Lemma keeps_execute_simulated_order (r : ref) :
  keeps no_zero_position (_execute_simulated_order r).
Proof.
  pose proof no_zero_position_on_positions as HP.
  unfold _execute_simulated_order.
  apply keeps_bind; [apply keeps_deref|]. intros o.
  apply keeps_bind; [apply keeps_gets|]. intros sl.
  apply keeps_bind.
  - destruct (order_type o); try apply keeps_ret.
    + apply keeps_bind; [apply keeps_lift|]. intros p.
      apply keeps_assign, HP.
    + apply keeps_bind; [apply keeps_lift|]. intros p.
      apply keeps_bind; [apply keeps_lift|]. intros sp.
      destruct (match side o with BUY => _ | SELL => _ end);
        apply keeps_assign, HP.
  - intros _. apply keeps_bind; [apply keeps_update_positions|].
    intros _. apply keeps_record_trade, HP.
Qed.

Lemma keeps_execute_live_order (r : ref) :
  keeps no_zero_position (_execute_live_order exchange_create_order r).
Proof.
  pose proof no_zero_position_on_positions as HP.
  unfold _execute_live_order.
  apply keeps_on_exception.
  - apply keeps_bind; [apply keeps_deref|]. intros o.
    apply keeps_bind; [apply keeps_lift|]. intros p.
    apply keeps_bind; [apply keeps_assign, HP|]. intros _.
    apply keeps_bind; [apply keeps_update_positions|]. intros _.
    apply keeps_record_trade, HP.
  - intros s. destruct (objects s !! r); [|tauto].
    apply HP. reflexivity.
Qed.

Lemma keeps_create_order sym ty sd q p sp tp now :
  keeps no_zero_position
    (create_order live exchange_create_order sym ty sd q p sp tp now).
Proof.
  pose proof no_zero_position_on_positions as HP.
  unfold create_order.
  apply keeps_bind; [apply keeps_alloc, HP|]. intros r.
  apply keeps_bind.
  - destruct live;
      [apply keeps_execute_live_order | apply keeps_execute_simulated_order].
  - intros _. apply keeps_bind; [|intros _; apply keeps_ret].
    apply keeps_modify. intros s. apply HP. reflexivity.
Qed.

Lemma keeps_cancel_order (r : ref) :
  keeps no_zero_position (cancel_order live r).
Proof.
  pose proof no_zero_position_on_positions as HP.
  unfold cancel_order.
  apply keeps_bind; [apply keeps_deref|]. intros o.
  destruct (negb _); [apply keeps_ret|].
  destruct live; [apply keeps_ret|].
  apply keeps_bind; [apply keeps_assign, HP|]. intros _. apply keeps_ret.
Qed.

Lemma call_keeps_no_zero_position (c : Call) (s : Store) :
  no_zero_position s ->
  no_zero_position (call live exchange_create_order c s).
Proof.
  destruct c; simpl.
  - apply keeps_create_order.
  - apply keeps_cancel_order.
  - tauto.
  - tauto.
  - tauto.
  - tauto.
Qed.

(** C4: starting from a new handler, whose position table is empty, after
    any sequence of public calls (creating and cancelling orders, queries),
    whether they return or raise and in either trading mode, no entry of
    the position table has a quantity equal to zero. *)
Theorem C4_no_zero_quantity_position :
  forall (commission slippage : pyfloat) (cs : list Call)
         (symbol : string) (p : Position),
    positions
      (handler (run live exchange_create_order cs (new commission slippage)))
      !! symbol = Some p ->
    (p_quantity p =? Fin 0)%fl = false.
Proof.
  intros commission slippage cs.
  assert (H : no_zero_position
                (run live exchange_create_order cs (new commission slippage))).
  { unfold run.
    assert (H0 : no_zero_position (new commission slippage))
      by apply map_Forall_empty.
    revert H0. generalize (new commission slippage).
    induction cs as [|c cs IH]; intros s Hs; simpl.
    - exact Hs.
    - apply IH, call_keeps_no_zero_position, Hs. }
  intros symbol p Hp. exact (H symbol p Hp).
Qed.

End Modes.

Lemma C4_no_zero_quantity_witness :
  exists p : Position,
    positions
      (handler
         (run false (fun _ => Raise ExchangeError)
            [CreateOrder "BTC" MARKET BUY (Fin 10) (Some (Fin 100)) None
               None 1;
             CreateOrder "BTC" MARKET SELL (Fin 4) (Some (Fin 110)) None
               None 2]
            (new (Fin 0.001) (Fin 0.001))))
      !! "BTC" = Some p
    /\ (p_quantity p =? Fin 0)%fl = false.
Proof.
  eexists. split.
  - vm_compute. reflexivity.
  - apply (C4_no_zero_quantity_position false (fun _ => Raise ExchangeError)
             (Fin 0.001) (Fin 0.001)
             [CreateOrder "BTC" MARKET BUY (Fin 10) (Some (Fin 100)) None
                None 1;
              CreateOrder "BTC" MARKET SELL (Fin 4) (Some (Fin 110)) None
                None 2]
             "BTC").
    vm_compute. reflexivity.
Defined.

(** C3: in simulated mode a market order is filled in full at the
    requested price times (1 + slippage) for a buy and (1 - slippage) for a
    sell; a limit order is filled in full, at its limit price, exactly when
    it is marketable against the reference (stop) price, and otherwise stays
    pending with filled quantity 0.  This is the state of the order object
    after [create_order], which returns it unless the position update
    raised [KeyError]. *)
Theorem C3_simulated_fill_rule :
  forall (exch : Order -> result pyfloat) (s : Store) (sym : string)
         (sd : OrderSide) (q : pyfloat) (p sl : Q) (tp : option pyfloat)
         (now : Z),
    slippage (handler s) = Fin sl ->
    let r := length (objects s) in
    (forall sp : option pyfloat,
       let out :=
         create_order false exch sym MARKET sd q (Some (Fin p)) sp tp now s in
       exists o,
         objects out.1 !! r = Some o
         /\ status o = filled
         /\ filled_quantity o = q
         /\ filled_price o
            =~ Fin (p * match sd with
                       | BUY => 1 + sl
                       | SELL => 1 - sl
                       end)
         /\ (out.2 = Ok r \/ out.2 = Raise KeyError))
    /\ (forall ref_price : Q,
          let out :=
            create_order false exch sym LIMIT sd q (Some (Fin p))
              (Some (Fin ref_price)) tp now s in
          let marketable :=
            match sd with
            | BUY => (ref_price <= p)%Q
            | SELL => (p <= ref_price)%Q
            end in
          exists o,
            objects out.1 !! r = Some o
            /\ (marketable ->
                  status o = filled /\ filled_quantity o = q
                  /\ filled_price o = Fin p)
            /\ (~ marketable ->
                  status o = pending /\ filled_quantity o = Fin 0)
            /\ (status o = filled <-> marketable)
            /\ (out.2 = Ok r \/ out.2 = Raise KeyError)).
Proof.
  intros exch s sym sd q p sl tp now Hsl r.
  split.
  - intros sp out. subst out. rewrite create_order_simulated.
    fold r. cbv zeta.
    set (o0 := Order_init sym MARKET sd q (Some (Fin p)) sp tp now).
    set (s0 := set_objects (objects s ++ [o0]) s).
    assert (Ho : objects s0 !! r = Some o0) by apply lookup_fresh.
    destruct (execute_simulated_market r s0 o0 (Fin p) Ho eq_refl eq_refl)
      as [Hobj Hres].
    exists (fill o0 (Fin p * slippage_factor s0 o0)%fl).
    assert (Hlook : objects (_execute_simulated_order r s0).1 !! r
                    = Some (fill o0 (Fin p * slippage_factor s0 o0)%fl)).
    { rewrite Hobj. apply list_lookup_insert_eq. eapply lookup_lt_Some, Ho. }
    assert (Hprice : filled_price (fill o0 (Fin p * slippage_factor s0 o0)%fl)
                     =~ Fin (p * match sd with
                                 | BUY => 1 + sl
                                 | SELL => 1 - sl
                                 end)).
    { unfold slippage_factor.
      change (slippage (handler s0)) with (slippage (handler s)).
      rewrite Hsl. destruct sd; simpl; ring. }
    destruct (_execute_simulated_order r s0) as [s1 [[]|e]];
      cbn [fst snd] in *.
    + split; [exact Hlook|]. split; [reflexivity|]. split; [reflexivity|].
      split; [exact Hprice|]. left; reflexivity.
    + split; [exact Hlook|]. split; [reflexivity|]. split; [reflexivity|].
      split; [exact Hprice|].
      destruct Hres as [Hres|Hres]; [discriminate Hres|].
      right. injection Hres as ->. reflexivity.
  - intros ref_price out marketable. subst out.
    rewrite create_order_simulated. fold r. cbv zeta.
    set (o0 := Order_init sym LIMIT sd q (Some (Fin p))
                 (Some (Fin ref_price)) tp now).
    set (s0 := set_objects (objects s ++ [o0]) s).
    assert (Ho : objects s0 !! r = Some o0) by apply lookup_fresh.
    destruct (execute_simulated_limit r s0 o0 (Fin p) (Fin ref_price) Ho
                eq_refl eq_refl eq_refl) as [Hobj Hres].
    cbv zeta in Hobj.
    change (side o0) with sd in Hobj.
    set (b := match sd with
              | BUY => (Fin p >=? Fin ref_price)%fl
              | SELL => (Fin p <=? Fin ref_price)%fl
              end) in Hobj.
    assert (Hb : b = true <-> marketable).
    { subst b marketable. destruct sd; unfold fge, fle; apply Qle_bool_iff. }
    exists (if b then fill o0 (Fin p) else with_status o0 pending).
    assert (Hlook : objects (_execute_simulated_order r s0).1 !! r
                    = Some (if b then fill o0 (Fin p)
                            else with_status o0 pending)).
    { rewrite Hobj. apply list_lookup_insert_eq. eapply lookup_lt_Some, Ho. }
    split; [|split; [|split; [|split]]].
    + destruct (_execute_simulated_order r s0) as [s1 [[]|e]]; exact Hlook.
    + intros Hm. apply Hb in Hm. rewrite Hm. repeat split.
    + intros Hm. destruct b; [exfalso; apply Hm, Hb; reflexivity|].
      split; reflexivity.
    + rewrite <- Hb. destruct b; simpl; split; congruence.
    + destruct (_execute_simulated_order r s0) as [s1 [[]|e]];
        cbn [fst snd] in *.
      * left; reflexivity.
      * destruct Hres as [Hres|Hres]; [discriminate Hres|].
        right. injection Hres as ->. reflexivity.
Qed.

Lemma C3_simulated_fill_witness :
  exists o : Order,
    objects
      (create_order false (fun _ => Raise ExchangeError) "BTC" MARKET BUY
         (Fin 2) (Some (Fin 100)) None None 1 (new (Fin 0.001) (Fin 0.001))).1
      !! 0%nat = Some o
    /\ status o = filled
    /\ filled_quantity o = Fin 2
    /\ filled_price o =~ Fin (100 * (1 + 0.001)).
Proof.
  destruct (C3_simulated_fill_rule (fun _ => Raise ExchangeError)
              (new (Fin 0.001) (Fin 0.001)) "BTC" BUY (Fin 2) 100 0.001 None 1
              eq_refl) as [Hm _].
  destruct (Hm None) as (o & Ho & Hs & Hq & Hp & _).
  exists o. repeat split; assumption.
Defined.




(** C10: in simulated mode [create_order] for a stop-loss, take-profit or
    trailing-stop order returns an order that is pending with filled
    quantity 0 and changes neither the position table nor the trades; so an
    order that [create_order] returns filled is a market or a limit
    order. *)
Theorem C10_stop_orders_stay_pending :
  forall (exch : Order -> result pyfloat) (s : Store) (sym : string)
         (ty : OrderType) (sd : OrderSide) (q : pyfloat)
         (p sp tp : option pyfloat) (now : Z),
    let out := create_order false exch sym ty sd q p sp tp now s in
    (ty = STOP_LOSS \/ ty = TAKE_PROFIT \/ ty = TRAILING_STOP ->
       exists o,
         out.2 = Ok (length (objects s))
         /\ objects out.1 !! length (objects s) = Some o
         /\ status o = pending
         /\ filled_quantity o = Fin 0
         /\ positions (handler out.1) = positions (handler s)
         /\ trades (handler out.1) = trades (handler s))
    /\ (forall r o,
          out.2 = Ok r -> objects out.1 !! r = Some o -> status o = filled ->
          ty = MARKET \/ ty = LIMIT).
Proof.
  intros exch s sym ty sd q p sp tp now out.
  assert (Hstop : ty <> MARKET -> ty <> LIMIT ->
            out = (set_orders (orders (handler s) ++ [length (objects s)])
                     (set_objects
                        (objects s ++ [Order_init sym ty sd q p sp tp now]) s),
                   Ok (length (objects s)))).
  { intros Hm Hl. subst out. rewrite create_order_simulated. cbv zeta.
    rewrite (execute_simulated_other _ _
               (Order_init sym ty sd q p sp tp now));
      [reflexivity | apply lookup_fresh | exact Hm | exact Hl | discriminate]. }
  split.
  - intros Hty.
    rewrite Hstop by (destruct Hty as [-> | [-> | ->]]; discriminate).
    exists (Order_init sym ty sd q p sp tp now).
    repeat split. apply lookup_fresh.
  - intros r o Hr Ho Hs.
    destruct (decide (ty = MARKET)) as [Em|Hm]; [left; exact Em|].
    destruct (decide (ty = LIMIT)) as [El|Hl]; [right; exact El|].
    exfalso. rewrite (Hstop Hm Hl) in Hr, Ho.
    cbn [fst snd] in Hr, Ho. injection Hr as <-.
    change (objects (set_orders _ _))
      with (objects s ++ [Order_init sym ty sd q p sp tp now]) in Ho.
    rewrite lookup_fresh in Ho. injection Ho as <-. discriminate Hs.
Qed.

Lemma C10_stop_orders_witness :
  let out :=
    create_order false (fun _ => Raise ExchangeError) "BTC" STOP_LOSS SELL
      (Fin 1) None (Some (Fin 95)) None 1 (new (Fin 0.001) (Fin 0.001)) in
  exists o,
    out.2 = Ok 0%nat
    /\ objects out.1 !! 0%nat = Some o
    /\ status o = pending
    /\ filled_quantity o = Fin 0
    /\ positions (handler out.1) = ∅
    /\ trades (handler out.1) = [].
Proof.
  intros out.
  destruct (C10_stop_orders_stay_pending (fun _ => Raise ExchangeError)
              (new (Fin 0.001) (Fin 0.001)) "BTC" STOP_LOSS SELL (Fin 1)
              None (Some (Fin 95)) None 1) as [H _].
  apply H. left. reflexivity.
Defined.

(** The update of a filled sell against a stored long position: the
    realized PnL grows by (fill price - average price) * fill quantity, the
    quantity shrinks by the fill, and the entry goes when the quantity
    compares equal to zero. *)
Lemma update_positions_sell (r : ref) (s : Store) (o : Order)
    (pos : Position) :
  objects s !! r = Some o -> status o = filled -> side o = SELL ->
  positions (handler s) !! symbol o = Some pos ->
  let pos' :=
    {| p_quantity := (p_quantity pos - filled_quantity o)%fl;
       average_price := average_price pos;
       realized_pnl :=
         (realized_pnl pos
          + (filled_price o - average_price pos) * filled_quantity o)%fl |} in
  _update_positions r s
  = (set_positions
       (if (p_quantity pos' =? Fin 0)%fl
        then delete (symbol o) (positions (handler s))
        else <[symbol o := pos']> (positions (handler s))) s,
     Ok tt).
Proof.
  intros Ho Hs Hsd Hpos. unfold _update_positions. munfold.
  rewrite Ho. rewrite bool_decide_eq_true_2 by exact Hs. cbn [negb].
  rewrite Hsd, Hpos.
  destruct (_ =? Fin 0)%fl; reflexivity.
Qed.

(** The update of a filled buy never changes the realized PnL of the
    entry it leaves, whatever the sign of the stored quantity. *)
Lemma update_positions_buy_books_no_pnl (r : ref) (s : Store) (o : Order)
    (pos pos' : Position) :
  objects s !! r = Some o -> status o = filled -> side o = BUY ->
  positions (handler s) !! symbol o = Some pos ->
  positions (handler (_update_positions r s).1) !! symbol o = Some pos' ->
  realized_pnl pos' = realized_pnl pos
  /\ p_quantity pos' = (p_quantity pos + filled_quantity o)%fl.
Proof.
  intros Ho Hs Hsd Hpos. unfold _update_positions. munfold.
  rewrite Ho. rewrite bool_decide_eq_true_2 by exact Hs. cbn [negb].
  rewrite Hsd, Hpos. change (default no_position (Some pos)) with pos.
  assert (Hdiv : exists avg,
            (if (p_quantity pos + filled_quantity o >? Fin 0)%fl
             then fdiv (p_quantity pos * average_price pos
                        + filled_quantity o * filled_price o)%fl
                       (p_quantity pos + filled_quantity o)%fl
             else Ok (Fin 0)) = Ok avg).
  { destruct (_ >? Fin 0)%fl eqn:G; [|eexists; reflexivity].
    apply fdiv_nonzero, positive_not_zero, G. }
  destruct Hdiv as [avg ->]. cbn [p_quantity].
  destruct (_ =? Fin 0)%fl; cbn [fst handler positions set_positions].
  - rewrite lookup_delete_eq. discriminate.
  - rewrite lookup_insert_eq. intros [= <-]. split; reflexivity.
Qed.

(** C1, at the input where the code departs from it: a short position of
    10 opened by a sell at 100 (average price 0 in the table), then a buy
    of 4 filled at 90.  The fill is in the opposite direction of the
    position; the quantity goes to -6, but the realized PnL of the entry
    stays 1000, where the rule of the claim adds
    (90 - 0) * 4 * (-1) = -360. *)
Theorem C1_short_cover_books_no_pnl :
  let exch := fun _ : Order => Raise ExchangeError in
  let s1 :=
    (create_order false exch "BTC" MARKET SELL (Fin 10) (Some (Fin 100))
       None None 1 (new (Fin 0.001) (Fin 0))).1 in
  let out :=
    create_order false exch "BTC" MARKET BUY (Fin 4) (Some (Fin 90))
      None None 2 s1 in
  (exists pos,
     positions (handler s1) !! "BTC" = Some pos
     /\ p_quantity pos =~ Fin (-10)
     /\ average_price pos =~ Fin 0
     /\ realized_pnl pos =~ Fin 1000)
  /\ out.2 = Ok 1%nat
  /\ (exists o,
        objects out.1 !! 1%nat = Some o
        /\ status o = filled
        /\ filled_quantity o =~ Fin 4
        /\ filled_price o =~ Fin 90)
  /\ (exists pos',
        positions (handler out.1) !! "BTC" = Some pos'
        /\ p_quantity pos' =~ Fin (-10 + 4)
        /\ realized_pnl pos' =~ Fin 1000
        /\ ~ realized_pnl pos' =~ Fin (1000 + (90 - 0) * 4 * -1)).
Proof.
  intros exch s1 out.
  split; [|split; [|split]].
  - eexists. split; [vm_compute; reflexivity|].
    repeat split.
  - vm_compute. reflexivity.
  - eexists. split; [vm_compute; reflexivity|].
    repeat split.
  - eexists. split; [vm_compute; reflexivity|].
    split; [reflexivity|]. split; [reflexivity|].
    intros H. vm_compute in H. discriminate H.
Qed.

End EngineFacts.

(** ** Portfolio risk *)

Section PortfolioRiskFacts.
Import advanced_risk.
Local Open Scope R_scope.

Variable optimize_portfolio : list (list R) -> OptimizationResult.

(** The risk the method reports is the volatility per period: the
    covariance matrix enters without the factor 252. *)
Lemma update_portfolio_risk_current_risk (self : RiskManager)
    (w : list R) (returns : list (list R)) :
  current_risk (update_portfolio_risk optimize_portfolio self w returns)
  = sqrt (dot w (matvec (cov returns) w))
  /\ rebalance_needed (update_portfolio_risk optimize_portfolio self w returns)
     = exceeds (sqrt (dot w (matvec (cov returns) w))) (max_drawdown self).
Proof.
  unfold update_portfolio_risk.
  destruct (exceeds _ _) eqn:E; split; reflexivity.
Qed.

Lemma one_asset_variance :
  dot [1] (matvec (cov [[-0.1; 0; 0.1]]) [1]) = 0.1 * 0.1.
Proof.
  unfold matvec, cov, cov2, mean. simpl. unfold dot, Rsum. simpl.
  unfold Q2R. simpl. field.
Qed.

(** C9, at an input where the code departs from it: one asset held at
    weight 1 with period returns -0.1, 0, 0.1 (sample variance 0.01).  The
    method reports the risk 0.1 and asks for no rebalancing, with no
    weights; the annualized volatility of the claim is sqrt(2.52), above
    the threshold 0.25. *)
Theorem C9_portfolio_risk_not_annualized :
  let res :=
    update_portfolio_risk optimize_portfolio default [1] [[-0.1; 0; 0.1]] in
  current_risk res = 0.1
  /\ rebalance_needed res = false
  /\ optimal_weights res = None
  /\ annualized_volatility [1] [[-0.1; 0; 0.1]] > 0.25
  /\ current_risk res <> annualized_volatility [1] [[-0.1; 0; 0.1]].
Proof.
  intros res.
  assert (Hvol : sqrt (dot [1] (matvec (cov [[-0.1; 0; 0.1]]) [1])) = 0.1).
  { rewrite one_asset_variance. apply sqrt_square. lra. }
  assert (Hres : res = {| rebalance_needed := false;
                          optimal_weights := None;
                          current_risk := 0.1;
                          sharpe_ratio :=
                            (Rsum (zip_with Rmult (map mean [[-0.1; 0; 0.1]])
                                     [1]) - 0.02) / 0.1 |}).
  { subst res. unfold update_portfolio_risk. rewrite Hvol.
    unfold exceeds, default, max_drawdown.
    destruct (Rlt_dec (Q2R 0.25) 0.1) as [L|L]; [|reflexivity].
    exfalso. unfold Q2R in L. simpl in L. lra. }
  assert (Hann : annualized_volatility [1] [[-0.1; 0; 0.1]] > 0.25).
  { unfold annualized_volatility.
    replace (dot [1] (matvec (map (map (fun c => c * 252))
                                (cov [[-0.1; 0; 0.1]])) [1]))
      with 2.52
      by (unfold matvec, cov, cov2, mean; simpl; unfold dot, Rsum; simpl;
          unfold Q2R; simpl; field).
    replace 0.25 with (sqrt (0.25 * 0.25)) by (apply sqrt_square; lra).
    apply sqrt_lt_1_alt. lra. }
  rewrite Hres. simpl.
  repeat split; try reflexivity; try exact Hann. lra.
Qed.

End PortfolioRiskFacts.

(** * Further properties

    ** The simple risk manager: exits *)

Section RiskExtras.
Local Open Scope Q_scope.

Lemma round64_Fin_shape (q : Q) :
  round64 (Fin q) = PInf \/ round64 (Fin q) = NInf
  \/ exists r, round64 (Fin q) = Fin r.
Proof.
  cbn [round64]. pose proof (Qnum_sign q) as S.
  destruct (Qnum q).
  - right. right. eexists. reflexivity.
  - destruct (round64_pos_shape q S) as [->|(r & -> & _)];
      [left; reflexivity | right; right; eexists; reflexivity].
  - destruct (round64_pos_shape (- q) S) as [->|(r & -> & _)];
      [right; left; reflexivity | right; right; eexists; reflexivity].
Qed.

Lemma flt_fle_flt (c lo hi : pyfloat) :
  fle lo hi = true -> (flt c lo && flt hi c)%bool = false.
Proof.
  destruct c as [x| | |], lo as [a| | |], hi as [b| | |];
    cbn [fle flt andb]; try reflexivity; try discriminate;
    try (intros _; apply andb_false_r).
  intros H. apply Qle_bool_iff in H.
  destruct (Qlt_bool x a) eqn:E; [|reflexivity].
  apply Qlt_bool_iff in E. cbn [andb]. apply Qlt_bool_false. lra.
Qed.

Lemma fmul_nonneg_inf (entry : Q) :
  0 <= entry ->
  ((Fin entry * PInf)%fl = PInf \/ (Fin entry * PInf)%fl = NaN)
  /\ ((Fin entry * NInf)%fl = NInf \/ (Fin entry * NInf)%fl = NaN).
Proof.
  intros H. destruct entry as [n d]. unfold Qle in H. cbn in H.
  cbn [fmul fsign]. unfold Qsgn. cbn [Qnum].
  destruct n as [|p|p]; cbn; [tauto | tauto | lia].
Qed.

(** The thresholds [entry * lo] and [entry * hi], computed in binary64,
    are ordered as [lo] and [hi] are: no price is below the first and
    above the second. *)
Lemma thresholds_ordered (entry lo hi : Q) (c : pyfloat) :
  0 <= entry -> lo <= hi ->
  (flt c (round64 (Fin entry * round64 (Fin lo))%fl)
   && flt (round64 (Fin entry * round64 (Fin hi))%fl) c)%bool = false.
Proof.
  intros He Hlh.
  pose proof (round64_mono lo hi Hlh) as Hm.
  destruct (fmul_nonneg_inf entry He) as [Hp Hn].
  destruct (round64_Fin_shape lo) as [Ea|[Ea|[a Ea]]];
    destruct (round64_Fin_shape hi) as [Eb|[Eb|[b Eb]]];
    rewrite Ea, Eb in *; try (cbn [fle] in Hm; discriminate Hm);
    try (destruct Hp as [Hp|Hp], Hn as [Hn|Hn]; rewrite ?Hp, ?Hn;
         cbn [round64]; destruct c; cbn [flt andb];
         solve [reflexivity | apply andb_false_r]).
  cbn [fle] in Hm. apply Qle_bool_iff in Hm. cbn [fmul].
  apply flt_fle_flt, round64_mono. nra.
Qed.

(** With a non-negative entry price and non-negative fractions the
    stop-loss and the take-profit checks never hold together, whatever the
    position: the exit tests of the backtesting loop are exclusive. *)
Theorem stop_loss_take_profit_exclusive :
  forall (self : risk_manager.RiskManager) (sl tp entry current : Q)
         (position : Z),
    risk_manager.stop_loss self = Fin sl ->
    risk_manager.take_profit self = Fin tp ->
    0 <= entry -> 0 <= sl -> 0 <= tp ->
    (risk_manager.check_stop_loss self (Fin entry) (Fin current) position
     && risk_manager.check_take_profit self (Fin entry) (Fin current) position)%bool
    = false.
Proof.
  intros self sl tp entry current position Hsl Htp He Hs Ht.
  unfold risk_manager.check_stop_loss, risk_manager.check_take_profit.
  rewrite Hsl, Htp. cbn [fsub fadd]. unfold fgt.
  destruct (position >? 0)%Z.
  - apply thresholds_ordered; [exact He | lra].
  - destruct (position <? 0)%Z; [|reflexivity].
    rewrite andb_comm. apply thresholds_ordered; [exact He | lra].
Qed.

Lemma stop_loss_take_profit_exclusive_witness :
  (risk_manager.check_stop_loss risk_manager.default (Fin 100) (Fin 97) 1
   && risk_manager.check_take_profit risk_manager.default (Fin 100) (Fin 97) 1)%bool
  = false.
Proof.
  apply (stop_loss_take_profit_exclusive risk_manager.default 0.02 0.05
           100 97 1); try reflexivity; vm_compute; congruence.
Defined.

End RiskExtras.

(** ** Sizing and trailing stop in closed form *)

Section SizingExtras.
Local Open Scope Q_scope.

Lemma pymax_Fin (a b : Q) :
  exists q,
    pymax (Fin a) (Fin b) = Fin q
    /\ a <= q /\ b <= q /\ (q == a \/ q == b).
Proof.
  unfold pymax, fgt, flt. destruct (Qlt_bool a b) eqn:E.
  - apply Qlt_bool_iff in E. exists b. repeat split; lra.
  - apply Qlt_bool_false in E. exists a. repeat split; lra.
Qed.

(** In [advanced_risk] the cap of the final [min] never binds: for capital
    >= 0, fraction >= 0, price > 0, volatility >= 0 and a correlation that
    is absent or in [-1, 1], the size is
    capital * fraction * (1 - |correlation|) / ((1 + volatility) * price),
    with the factor 1 for an absent correlation; a correlation of 1 or -1
    gives the size 0. *)
Theorem advanced_size_closed_form :
  forall (self : advanced_risk.RiskManager) (cap price m v : Q),
    advanced_risk.max_position_size self = Fin m ->
    0 <= cap -> 0 <= m -> 0 < price -> 0 <= v ->
    (exists q,
       advanced_risk.calculate_position_size self (Fin cap)
         (Some (Fin price)) (Some (Fin v)) None = Ok (Fin q)
       /\ q == cap * m / ((1 + v) * price))
    /\ (forall c, -1 <= c <= 1 ->
          exists q,
            advanced_risk.calculate_position_size self (Fin cap)
              (Some (Fin price)) (Some (Fin v)) (Some (Fin c)) = Ok (Fin q)
            /\ q == cap * m * (1 - Qabs c) / ((1 + v) * price)
            /\ (Qabs c == 1 -> q == 0)).
Proof.
  intros self cap price m v Em Hcap Hm Hp Hv.
  assert (Hgen : forall corr,
            corr = None \/ (exists c, corr = Some (Fin c) /\ -1 <= c <= 1) ->
            exists q,
              advanced_risk.calculate_position_size self (Fin cap)
                (Some (Fin price)) (Some (Fin v)) corr = Ok (Fin q)
              /\ q == cap * m * advanced_risk.correlation_factor corr
                      / ((1 + v) * price)).
  { intros corr Hc.
    rewrite (advanced_size_finite self corr cap price m v) by assumption.
    pose proof (correlation_factor_range corr Hc) as Hca.
    set (ca := advanced_risk.correlation_factor corr) in *.
    assert (Hi : 0 < / (1 + v)) by (apply Qinv_lt_0_compat; lra).
    assert (Hi1 : / (1 + v) <= 1).
    { apply Qle_shift_inv_r; lra. }
    assert (Hip : 0 < / price) by (apply Qinv_lt_0_compat; lra).
    assert (Hcm : 0 <= cap * m) by nra.
    assert (Hle : cap * m * (1 / (1 + v)) * ca / price <= cap * m / price).
    { apply Qdiv_le_mono; [|exact Hp]. unfold Qdiv.
      assert (0 <= cap * m * ca) by nra.
      assert (cap * m * ca <= cap * m) by nra.
      nra. }
    exists (cap * m * (1 / (1 + v)) * ca / price). split.
    - unfold pymin, flt.
      assert (E : Qlt_bool (cap * m / price)
                    (cap * m * (1 / (1 + v)) * ca / price) = false)
        by (apply Qlt_bool_false; exact Hle).
      rewrite E. reflexivity.
    - field. lra. }
  split.
  - destruct (Hgen None (or_introl eq_refl)) as [q [E Hq]].
    exists q. split; [exact E|]. rewrite Hq. simpl. field. lra.
  - intros c Hc.
    destruct (Hgen (Some (Fin c))) as [q [E Hq]];
      [right; exists c; split; [reflexivity | exact Hc]|].
    exists q. split; [exact E|]. split; [exact Hq|].
    intros H1. rewrite Hq. simpl. rewrite H1. field. lra.
Qed.

Lemma advanced_size_closed_form_witness :
  (exists q,
     advanced_risk.calculate_position_size advanced_risk.default
       (Fin 100000) (Some (Fin 100)) (Some (Fin 0.25)) None = Ok (Fin q)
     /\ q == 100000 * 0.1 / ((1 + 0.25) * 100))
  /\ exists q,
       advanced_risk.calculate_position_size advanced_risk.default
         (Fin 100000) (Some (Fin 100)) (Some (Fin 0.25)) (Some (Fin (-1)))
       = Ok (Fin q)
       /\ q == 0.
Proof.
  destruct (advanced_size_closed_form advanced_risk.default 100000 100 0.1
              0.25 eq_refl) as [Hn Hc]; try (vm_compute; congruence).
  split; [exact Hn|].
  destruct (Hc (-1)) as (q & E & _ & Hz);
    [split; vm_compute; congruence|].
  exists q. split; [exact E | apply Hz; reflexivity].
Defined.

(** The sizing of [risk_manager] has two regimes: for a volatility in
    (0, 1] the cap binds and the size is capital * fraction / price; for a
    volatility >= 1 the size is capital * fraction / (volatility * price). *)
Theorem simple_size_regimes :
  forall (self : risk_manager.RiskManager) (cap price m v : Q),
    risk_manager.max_position_size self = Fin m ->
    0 <= cap -> 0 <= m -> 0 < price -> 0 < v ->
    exists q,
      risk_manager.calculate_position_size self (Fin cap)
        (Some (Fin price)) (Some (Fin v)) = Ok (Fin q)
      /\ (v <= 1 -> q == cap * m / price)
      /\ (1 <= v -> q == cap * m / (v * price)).
Proof.
  intros self cap price m v Em Hcap Hm Hp Hv.
  rewrite (simple_size_finite self cap price m v) by assumption.
  assert (Hcm : 0 <= cap * m) by nra.
  assert (Hvp : 0 < v * price) by nra.
  assert (Hip : 0 < / price) by (apply Qinv_lt_0_compat; lra).
  assert (Hiv : 0 < / v) by (apply Qinv_lt_0_compat; lra).
  assert (Hsplit : cap * m / (v * price) == cap * m / price * / v)
    by (field; lra).
  assert (Hb : 0 <= cap * m / price) by (apply Qdiv_nonneg; assumption).
  destruct (pymin_Fin (cap * m / (v * price)) (cap * m / price))
    as [q [E [La [Lb D]]]].
  exists q. split; [rewrite E; reflexivity|]. split.
  - intros Hv1.
    assert (1 <= / v) by (apply Qle_shift_inv_l; lra).
    rewrite Hsplit in La, D.
    destruct D as [D|D]; [|exact D].
    assert (cap * m / price <= cap * m / price * / v) by nra.
    lra.
  - intros Hv1.
    assert (/ v <= 1) by (apply Qle_shift_inv_r; lra).
    rewrite Hsplit in *.
    destruct D as [D|D]; [exact D|].
    assert (cap * m / price * / v <= cap * m / price) by nra.
    lra.
Qed.

Lemma simple_size_regimes_witness :
  (exists q,
     risk_manager.calculate_position_size risk_manager.default (Fin 100000)
       (Some (Fin 100)) (Some (Fin 0.5)) = Ok (Fin q)
     /\ q == 100000 * 0.1 / 100)
  /\ exists q,
       risk_manager.calculate_position_size risk_manager.default (Fin 100000)
         (Some (Fin 100)) (Some (Fin 4)) = Ok (Fin q)
       /\ q == 100000 * 0.1 / (4 * 100).
Proof.
  split.
  - destruct (simple_size_regimes risk_manager.default 100000 100 0.1 0.5
                eq_refl) as (q & E & Hlow & _); try (vm_compute; congruence).
    exists q. split; [exact E | apply Hlow; vm_compute; congruence].
  - destruct (simple_size_regimes risk_manager.default 100000 100 0.1 4
                eq_refl) as (q & E & _ & Hhigh); try (vm_compute; congruence).
    exists q. split; [exact E | apply Hhigh; vm_compute; congruence].
Defined.

(** On finite inputs the trailing stop is the largest of its three floors:
    current - atr * multiplier, entry * (1 - stop_loss) and
    high * (1 - stop_loss). *)
Theorem trailing_stop_is_largest_floor :
  forall (self : advanced_risk.RiskManager)
         (sl entry current high atr multiplier : Q),
    advanced_risk.stop_loss self = Fin sl ->
    exists stop,
      advanced_risk.calculate_trailing_stop self (Fin entry) (Fin current)
        (Fin high) (Fin atr) (Fin multiplier) = Fin stop
      /\ current - atr * multiplier <= stop
      /\ entry * (1 - sl) <= stop
      /\ high * (1 - sl) <= stop
      /\ (stop == current - atr * multiplier
          \/ stop == entry * (1 - sl)
          \/ stop == high * (1 - sl)).
Proof.
  intros self sl entry current high atr multiplier Hsl.
  unfold advanced_risk.calculate_trailing_stop. rewrite Hsl.
  cbn [fsub fmul].
  destruct (pymax_Fin (current - atr * multiplier) (entry * (1 - sl)))
    as [q1 [E1 [A1 [B1 D1]]]].
  rewrite E1.
  destruct (pymax_Fin q1 (high * (1 - sl))) as [q2 [E2 [A2 [B2 D2]]]].
  rewrite E2. exists q2.
  split; [reflexivity|]. split; [lra|]. split; [lra|]. split; [lra|].
  destruct D2 as [D2|D2]; [|right; right; exact D2].
  destruct D1 as [D1|D1]; [left | right; left]; rewrite D2; exact D1.
Qed.

Lemma trailing_stop_witness :
  exists stop,
    advanced_risk.calculate_trailing_stop advanced_risk.default (Fin 100)
      (Fin 108) (Fin 110) (Fin 1.5) (Fin 2) = Fin stop
    /\ 110 * (1 - 0.02) <= stop.
Proof.
  destruct (trailing_stop_is_largest_floor advanced_risk.default 0.02 100 108
              110 1.5 2 eq_refl) as (stop & E & _ & _ & H & _).
  exists stop. split; [exact E | exact H].
Defined.

End SizingExtras.

(** ** The simple executor and the backtesting loop *)

Section BacktestExtras.

(** Opening a position on a free symbol and then trading any other signal
    on it is a round trip: the table of positions is as before, the ledger
    has the two trades, the first with PnL 0 and the second with the PnL of
    the whole stored position, whatever size the second trade names. *)
Theorem executor_open_close_round_trip :
  forall (self : executor.Executor) (symbol : string) (sig sig' : Z)
         (price1 price2 size size' : pyfloat) (ts1 ts2 : Z),
    executor.positions self !! symbol = None ->
    sig' <> sig ->
    let opened := executor.execute_trade self symbol sig price1 size ts1 in
    let closed :=
      executor.execute_trade opened.1 symbol sig' price2 size' ts2 in
    executor.positions closed.1 = executor.positions self
    /\ executor.trades closed.1
       = executor.trades self ++ [opened.2; closed.2]
    /\ executor.t_pnl opened.2 = Fin 0
    /\ executor.t_pnl closed.2
       = executor._calculate_pnl self symbol price1 price2 size sig
    /\ executor.t_commission closed.2
       = (price2 * size' * executor.commission self)%fl.
Proof.
  intros self symbol sig sig' price1 price2 size size' ts1 ts2 Hfree Hne
    opened closed.
  subst closed opened.
  rewrite (execute_trade_open self symbol sig price1 size ts1 Hfree).
  cbv zeta. cbn [fst snd].
  rewrite (execute_trade_close _ symbol sig' price2 size' ts2
             {| executor.signal := sig; executor.price := price1;
                executor.size := size |});
    [| apply lookup_insert_eq | exact Hne].
  cbv zeta. cbn [fst snd executor.positions executor.trades executor.t_pnl
                 executor.t_commission executor.commission executor.price
                 executor.size executor.signal].
  repeat split.
  - rewrite delete_insert_eq. apply delete_id. exact Hfree.
  - rewrite <- app_assoc. reflexivity.
Qed.

Lemma executor_open_close_witness :
  let opened :=
    executor.execute_trade (executor.new (Fin 0.001)) "SPY" 1 (Fin 100)
      (Fin 10) 1 in
  let closed := executor.execute_trade opened.1 "SPY" (-1) (Fin 110) (Fin 3) 2 in
  executor.positions closed.1 = ∅
  /\ executor.t_pnl closed.2
     = executor._calculate_pnl (executor.new (Fin 0.001)) "SPY" (Fin 100)
         (Fin 110) (Fin 10) 1.
Proof.
  destruct (executor_open_close_round_trip (executor.new (Fin 0.001)) "SPY"
              1 (-1) (Fin 100) (Fin 110) (Fin 10) (Fin 3) 1 2)
    as (Hp & _ & _ & Hpnl & _).
  - apply lookup_empty.
  - lia.
  - split; [exact Hp | exact Hpnl].
Defined.

(** Trading the stored signal again on an open position adds the size but
    replaces the entry price by the latest price: the trade that closes the
    position books its PnL on the whole size against that latest price,
    and the price at which the position was opened plays no part. *)
Theorem executor_add_overwrites_entry_price :
  forall (self : executor.Executor) (symbol : string)
         (pos : executor.Position) (sig' : Z)
         (price2 price3 size2 size3 : pyfloat) (ts2 ts3 : Z),
    executor.positions self !! symbol = Some pos ->
    sig' <> executor.signal pos ->
    let added :=
      executor.execute_trade self symbol (executor.signal pos) price2 size2
        ts2 in
    let closed :=
      executor.execute_trade added.1 symbol sig' price3 size3 ts3 in
    executor.positions added.1 !! symbol
    = Some {| executor.signal := executor.signal pos;
              executor.price := price2;
              executor.size := (executor.size pos + size2)%fl |}
    /\ executor.t_pnl added.2 = Fin 0
    /\ executor.t_pnl closed.2
       = executor._calculate_pnl self symbol price2 price3
           (executor.size pos + size2)%fl (executor.signal pos)
    /\ executor.positions closed.1 = delete symbol (executor.positions self)
    /\ executor.trades closed.1
       = executor.trades self ++ [added.2; closed.2].
Proof.
  intros self symbol pos sig' price2 price3 size2 size3 ts2 ts3 Hpos Hne
    added closed.
  assert (Hadd : added
                 = (let trade :=
                      {| executor.t_timestamp := ts2;
                         executor.t_symbol := symbol;
                         executor.t_action :=
                           if (executor.signal pos >? 0)%Z then "buy"
                           else "sell";
                         executor.t_price := price2;
                         executor.t_size := size2;
                         executor.t_commission :=
                           (price2 * size2 * executor.commission self)%fl;
                         executor.t_pnl := Fin 0 |} in
                    ({| executor.commission := executor.commission self;
                        executor.positions :=
                          <[symbol := {| executor.signal := executor.signal pos;
                                         executor.price := price2;
                                         executor.size :=
                                           (executor.size pos + size2)%fl |}]>
                            (executor.positions self);
                        executor.trades := executor.trades self ++ [trade] |},
                     trade))).
  { subst added. unfold executor.execute_trade. rewrite Hpos.
    rewrite Z.eqb_refl. reflexivity. }
  subst closed. rewrite Hadd. cbv zeta. cbn [fst snd].
  rewrite (execute_trade_close _ symbol sig' price3 size3 ts3
             {| executor.signal := executor.signal pos;
                executor.price := price2;
                executor.size := (executor.size pos + size2)%fl |});
    [| apply lookup_insert_eq | exact Hne].
  cbv zeta. cbn [fst snd executor.positions executor.trades executor.t_pnl
                 executor.commission executor.price executor.size
                 executor.signal].
  split; [apply lookup_insert_eq|]. split; [reflexivity|].
  split; [reflexivity|]. split.
  - apply delete_insert_eq.
  - rewrite <- app_assoc. reflexivity.
Qed.

Lemma executor_add_overwrites_witness :
  let opened :=
    executor.execute_trade (executor.new (Fin 0)) "SPY" 1 (Fin 100) (Fin 10)
      1 in
  let added := executor.execute_trade opened.1 "SPY" 1 (Fin 150) (Fin 10) 2 in
  let closed := executor.execute_trade added.1 "SPY" (-1) (Fin 150) (Fin 20) 3 in
  executor.t_pnl closed.2
  = executor._calculate_pnl opened.1 "SPY" (Fin 150) (Fin 150)
      (Fin 10 + Fin 10)%fl 1.
Proof.
  intros opened added closed.
  destruct (executor_add_overwrites_entry_price opened.1 "SPY"
              {| executor.signal := 1; executor.price := Fin 100;
                 executor.size := Fin 10 |}
              (-1) (Fin 150) (Fin 150) (Fin 10) (Fin 20) 2 3)
    as (_ & _ & Hpnl & _).
  - vm_compute. reflexivity.
  - cbn. lia.
  - exact Hpnl.
Defined.

(** With a price and a volatility that are [numpy.float64] the sizing
    always returns: its divisions do not raise. *)
Lemma float64_size_returns (self : risk_manager.RiskManager)
    (pv price v : pyfloat) :
  exists size,
    risk_manager.calculate_position_size_float64 self pv (Some price)
      (Some v) = Ok size.
Proof. eexists. reflexivity. Qed.

(** One iteration never raises; it keeps the flag and the table in
    agreement, adds at most one trade, and either makes a trade, after
    which the portfolio value is a [numpy.float64], or changes nothing. *)
Lemma step_consistent (risk : risk_manager.RiskManager) (symbol : string)
    (st : backtester.Loop) (bar : backtester.Bar) :
  backtester_state.consistent symbol st ->
  exists st',
    backtester.step risk symbol st bar = Ok st'
    /\ backtester_state.consistent symbol st'
    /\ (exists ts,
          executor.trades (backtester.exec st')
          = executor.trades (backtester.exec st) ++ ts
          /\ (length ts <= 1)%nat)
    /\ (backtester.portfolio_value_float64 st' = true \/ st' = st).
Proof.
  intros Hc. unfold backtester.step.
  unfold backtester_state.consistent in Hc.
  destruct (backtester.position st =? 0)%Z eqn:Hflat.
  - cbn [andb negb].
    destruct (negb (backtester.signal bar =? 0)%Z) eqn:Hsig.
    + destruct (float64_size_returns risk (backtester.portfolio_value st)
                  (backtester.close bar) (backtester.volatility bar))
        as [size Hsize].
      rewrite Hsize. unfold mbind, result_bind.
      rewrite execute_trade_open by exact Hc. cbv zeta.
      eexists. split; [reflexivity|]. split; [|split].
      * unfold backtester_state.consistent.
        cbn [backtester.position backtester.exec executor.positions].
        apply negb_true_iff in Hsig. rewrite Hsig.
        eexists. split; [apply lookup_insert_eq | reflexivity].
      * eexists. split; [reflexivity | simpl; lia].
      * left. reflexivity.
    + exists st. split; [reflexivity|]. split; [|split].
      * unfold backtester_state.consistent. rewrite Hflat. exact Hc.
      * exists []. split; [rewrite app_nil_r; reflexivity | simpl; lia].
      * right. reflexivity.
  - cbn [andb negb].
    destruct Hc as [pos [Hpos Hsg]].
    destruct (_ || _ || _)%bool.
    + rewrite Hpos. unfold mbind, result_bind.
      rewrite (execute_trade_close _ symbol _ _ _ _ pos Hpos)
        by (rewrite Hsg; apply Z.eqb_neq in Hflat; lia).
      cbv zeta. eexists. split; [reflexivity|]. split; [|split].
      * unfold backtester_state.consistent.
        cbn [backtester.position backtester.exec executor.positions].
        apply lookup_delete_eq.
      * eexists. split; [reflexivity | simpl; lia].
      * left. reflexivity.
    + exists st. split; [reflexivity|]. split; [|split].
      * unfold backtester_state.consistent. rewrite Hflat.
        exists pos. split; assumption.
      * exists []. split; [rewrite app_nil_r; reflexivity | simpl; lia].
      * right. reflexivity.
Qed.

Lemma loop_consistent (risk : risk_manager.RiskManager) (symbol : string)
    (bars : list backtester.Bar) :
  forall st,
    backtester_state.consistent symbol st ->
    exists st',
      backtester.loop risk symbol st bars = Ok st'
      /\ backtester_state.consistent symbol st'
      /\ (exists ts,
            executor.trades (backtester.exec st')
            = executor.trades (backtester.exec st) ++ ts
            /\ (length ts <= length bars)%nat)
      /\ (backtester.portfolio_value_float64 st' = true \/ st' = st).
Proof.
  induction bars as [|bar bars IH]; intros st Hc; cbn [backtester.loop].
  - exists st. split; [reflexivity|]. split; [exact Hc|]. split.
    + exists []. split; [rewrite app_nil_r; reflexivity | simpl; lia].
    + right. reflexivity.
  - destruct (step_consistent risk symbol st bar Hc)
      as (st1 & E1 & Hc1 & (ts1 & T1 & L1) & F1).
    rewrite E1. unfold mbind, result_bind.
    destruct (IH st1 Hc1) as (st2 & E2 & Hc2 & (ts2 & T2 & L2) & F2).
    exists st2. split; [exact E2|]. split; [exact Hc2|]. split.
    + exists (ts1 ++ ts2). split.
      * rewrite T2, T1, app_assoc. reflexivity.
      * rewrite length_app. simpl. lia.
    + destruct F2 as [F2 | ->]; [left; exact F2 | exact F1].
Qed.

(** A run of a new backtester never raises inside its loop: not on a
    missing position at an exit, and not in the sizing, whose divisions
    are numpy's.  It makes at most one trade per bar.  It raises only
    [ZeroDivisionError], from the total return, and only when the initial
    capital is zero and no trade was made; after a trade the total return
    is a numpy division and the run returns its report. *)
Theorem backtest_run_outcome :
  forall (initial_capital commission : pyfloat) (symbol : string)
         (risk : risk_manager.RiskManager) (bars : list backtester.Bar),
    let self := backtester.new initial_capital commission in
    let init :=
      {| backtester.portfolio_value := initial_capital;
         backtester.portfolio_value_float64 := false;
         backtester.position := 0;
         backtester.entry_price := Fin 0;
         backtester.exec := backtester.executor self |} in
    exists st,
      backtester.loop risk symbol init bars = Ok st
      /\ (length (executor.trades (backtester.exec st)) <= length bars)%nat
      /\ match backtester.run self symbol risk bars with
         | Ok report =>
             backtester.trade_history report
             = executor.trades (backtester.exec st)
             /\ backtester.total_trades report
                = length (backtester.trade_history report)
             /\ (backtester.profitable_trades report
                 <= backtester.total_trades report)%nat
         | Raise e =>
             e = ZeroDivisionError
             /\ is_zero initial_capital = true
             /\ executor.trades (backtester.exec st) = []
         end
      /\ (is_zero initial_capital = false
          \/ executor.trades (backtester.exec st) <> [] ->
          exists report,
            backtester.run self symbol risk bars = Ok report).
Proof.
  intros ic c symbol risk bars self init.
  assert (Hc : backtester_state.consistent symbol init) by apply lookup_empty.
  destruct (loop_consistent risk symbol bars init Hc)
    as (st & E & _ & (ts & T & L) & F).
  change (executor.trades (backtester.exec init)) with (@nil executor.Trade)
    in T.
  rewrite app_nil_l in T.
  exists st. split; [exact E|]. split; [rewrite T; exact L|].
  unfold backtester.run. cbv zeta.
  change (backtester.loop risk symbol _ bars)
    with (backtester.loop risk symbol init bars).
  rewrite E. unfold mbind, result_bind.
  change (backtester.initial_capital self) with ic.
  destruct (backtester.portfolio_value_float64 st) eqn:Hf.
  - split.
    + cbn [backtester.trade_history backtester.total_trades
           backtester.profitable_trades].
      unfold executor.get_trade_history.
      split; [reflexivity|]. split; [reflexivity|].
      unfold backtester.count_profitable. apply length_filter.
    + intros _. eexists. reflexivity.
  - destruct F as [F | ->]; [congruence|].
    change (executor.trades (backtester.exec init)) with (@nil executor.Trade).
    unfold fdiv. destruct (is_zero ic).
    + split; [repeat split|].
      intros [H|H]; [discriminate H | contradiction].
    + split.
      * cbn [backtester.trade_history backtester.total_trades
             backtester.profitable_trades].
        unfold executor.get_trade_history.
        split; [reflexivity|]. split; [reflexivity|].
        unfold backtester.count_profitable. apply length_filter.
      * intros _. eexists. reflexivity.
Qed.

(** A long signal on a bar whose rolling volatility is 0: the division by
    volatility * price gives [inf], the cap decides the size, and the run
    returns its report. *)
Lemma backtest_run_outcome_witness :
  exists report,
    backtester.run (backtester.new (Fin 100000) (Fin 0.001)) "SPY"
      risk_manager.default
      [{| backtester.timestamp := 1; backtester.signal := 1;
          backtester.close := Fin 100; backtester.volatility := Fin 0 |}]
    = Ok report.
Proof.
  destruct (backtest_run_outcome (Fin 100000) (Fin 0.001) "SPY"
              risk_manager.default
              [{| backtester.timestamp := 1; backtester.signal := 1;
                  backtester.close := Fin 100;
                  backtester.volatility := Fin 0 |}])
    as (st & _ & _ & _ & H).
  apply H. left. reflexivity.
Defined.

End BacktestExtras.

(** ** The execution handler: atomicity, ledger, statuses *)

Module EngineExtras.
Import advanced_executor advanced_executor_spec EngineFacts.

(** *** The two bookkeeping methods as equations *)

Lemma guarded_average (tc nq : pyfloat) :
  (if (nq >? Fin 0)%fl then fdiv tc nq else Ok (Fin 0))
  = Ok (if (nq >? Fin 0)%fl then quotient tc nq else Fin 0).
Proof.
  destruct (nq >? Fin 0)%fl eqn:G; [|reflexivity].
  unfold quotient, fdiv. rewrite (positive_not_zero _ G). reflexivity.
Qed.

Lemma update_positions_filled (r : ref) (s : Store) (o : Order) :
  objects s !! r = Some o -> status o = filled ->
  let ps := positions (handler s) in
  let position' := updated_position o (default no_position (ps !! symbol o)) in
  _update_positions r s
  = if (p_quantity position' =? Fin 0)%fl
    then match ps !! symbol o with
         | Some _ => (set_positions (delete (symbol o) ps) s, Ok tt)
         | None => (s, Raise KeyError)
         end
    else (set_positions (<[symbol o := position']> ps) s, Ok tt).
Proof.
  intros Ho Hs. cbv zeta. unfold _update_positions. munfold.
  rewrite Ho. rewrite bool_decide_eq_true_2 by exact Hs. cbn [negb].
  unfold updated_position.
  destruct (side o).
  - rewrite guarded_average. cbv zeta.
    destruct (_ =? Fin 0)%fl; [|reflexivity].
    destruct (_ !! symbol o); reflexivity.
  - destruct (_ =? Fin 0)%fl; [|reflexivity].
    destruct (_ !! symbol o); reflexivity.
Qed.

Lemma record_trade_filled (r : ref) (s : Store) (o : Order) :
  objects s !! r = Some o -> status o = filled ->
  _record_trade r s
  = (set_trades
       (trades (handler s) ++ [trade_of o (commission (handler s))]) s,
     Ok tt).
Proof.
  intros Ho Hs. unfold _record_trade. munfold. rewrite Ho.
  rewrite bool_decide_eq_true_2 by exact Hs. reflexivity.
Qed.

Lemma insert_fresh (os : list Order) (o o' : Order) :
  <[length os := o']> (os ++ [o]) = os ++ [o'].
Proof.
  rewrite insert_app_r_alt by lia. rewrite Nat.sub_diag. reflexivity.
Qed.

(** *** A market order in simulated mode, as one equation *)

Lemma create_market_simulated (exch : Order -> result pyfloat)
    (sym : string) (sd : OrderSide) (q p : pyfloat)
    (sp tp : option pyfloat) (now : Z) (s : Store) :
  let r := length (objects s) in
  let o0 := Order_init sym MARKET sd q (Some p) sp tp now in
  let o := fill o0 (p * slippage_factor s o0)%fl in
  let ps := positions (handler s) in
  let position' := updated_position o (default no_position (ps !! sym)) in
  let done ps' :=
    {| objects := objects s ++ [o];
       handler :=
         {| commission := commission (handler s);
            slippage := slippage (handler s);
            positions := ps';
            orders := orders (handler s) ++ [r];
            trades := trades (handler s)
                      ++ [trade_of o (commission (handler s))] |} |} in
  create_order false exch sym MARKET sd q (Some p) sp tp now s
  = if (p_quantity position' =? Fin 0)%fl
    then match ps !! sym with
         | Some _ => (done (delete sym ps), Ok r)
         | None => (set_objects (objects s ++ [o]) s, Raise KeyError)
         end
    else (done (<[sym := position']> ps), Ok r).
Proof.
  cbv zeta. rewrite create_order_simulated. cbv zeta.
  set (o0 := Order_init sym MARKET sd q (Some p) sp tp now).
  set (o := fill o0 (p * slippage_factor s o0)%fl).
  set (s0 := set_objects (objects s ++ [o0]) s).
  set (s1 := set_objects (objects s ++ [o]) s).
  assert (E : _execute_simulated_order (length (objects s)) s0
              = (_update_positions (length (objects s)) ;;
                 _record_trade (length (objects s))) s1).
  { unfold _execute_simulated_order. munfold.
    change (objects s0) with (objects s ++ [o0]).
    rewrite lookup_fresh.
    change (order_type o0) with MARKET. change (price o0) with (Some p).
    cbn [num]. unfold modify.
    change (objects s0) with (objects s ++ [o0]).
    rewrite insert_fresh. reflexivity. }
  rewrite E. unfold mbind, M_bind.
  assert (Ho : objects s1 !! length (objects s) = Some o)
    by apply lookup_fresh.
  rewrite (update_positions_filled _ s1 o Ho eq_refl). cbv zeta.
  change (positions (handler s1)) with (positions (handler s)).
  change (symbol o) with sym.
  destruct (_ =? Fin 0)%fl.
  - destruct (positions (handler s) !! sym); [|reflexivity].
    rewrite (record_trade_filled _ _ o); [reflexivity | exact Ho | reflexivity].
  - rewrite (record_trade_filled _ _ o); [reflexivity | exact Ho | reflexivity].
Qed.

(** Every filled market sell against a stored entry books
    (fill price - average price) * quantity on it and lowers its quantity
    by the fill; the entry is removed when the quantity compares equal to
    zero, and the average price is never changed by a sell.  The fill price
    is price * (1 - slippage). *)
Theorem market_sell_books_pnl :
  forall (exch : Order -> result pyfloat) (s : Store) (sym : string)
         (q p : pyfloat) (sp tp : option pyfloat) (now : Z) (pos : Position),
    positions (handler s) !! sym = Some pos ->
    let out := create_order false exch sym MARKET SELL q (Some p) sp tp now s in
    let fp := (p * (Fin 1 + slippage (handler s) * of_int (-1)))%fl in
    let pos' :=
      {| p_quantity := (p_quantity pos - q)%fl;
         average_price := average_price pos;
         realized_pnl :=
           (realized_pnl pos + (fp - average_price pos) * q)%fl |} in
    out.2 = Ok (length (objects s))
    /\ positions (handler out.1)
       = (if (p_quantity pos - q =? Fin 0)%fl
          then delete sym (positions (handler s))
          else <[sym := pos']> (positions (handler s))).
Proof.
  intros exch s sym q p sp tp now pos Hpos out fp pos'. subst out.
  rewrite create_market_simulated. cbv zeta. rewrite Hpos.
  change (default no_position (Some pos)) with pos.
  unfold updated_position. cbn [side fill Order_init p_quantity
                                 filled_quantity filled_price].
  destruct (_ =? Fin 0)%fl; split; reflexivity.
Qed.

Lemma market_sell_books_pnl_witness :
  let exch := fun _ : Order => Raise ExchangeError in
  let s1 :=
    (create_order false exch "BTC" MARKET BUY (Fin 10) (Some (Fin 100))
       None None 1 (new (Fin 0.001) (Fin 0))).1 in
  exists pos,
    positions
      (handler
         (create_order false exch "BTC" MARKET SELL (Fin 4) (Some (Fin 110))
            None None 2 s1).1) !! "BTC" = Some pos
    /\ realized_pnl pos =~ Fin ((110 - 100) * 4).
Proof.
  intros exch s1.
  assert (H1 : exists pos, positions (handler s1) !! "BTC" = Some pos).
  { eexists. vm_compute. reflexivity. }
  destruct H1 as [pos Hpos].
  destruct (market_sell_books_pnl exch s1 "BTC" (Fin 4) (Fin 110) None None 2
              pos Hpos) as [_ Hps].
  rewrite Hps. clear Hps.
  assert (pos = {| p_quantity := Fin (0 + 10);
                   average_price := Fin ((0 * 0 + 10 * (100 * (1 + 0 * 1)))
                                         / (0 + 10));
                   realized_pnl := Fin 0 |}) as ->.
  { vm_compute in Hpos. injection Hpos as <-. vm_compute. reflexivity. }
  eexists. split; [vm_compute; reflexivity | vm_compute; reflexivity].
Defined.

(** A filled market buy that adds to a long entry (finite values, stored
    and bought quantities positive) returns its order, accumulates the
    quantity, keeps the realized PnL, and sets the average price to the
    quantity-weighted blend (q0 * average + q * fill) / (q0 + q) for the
    fill price p * (1 + slippage). *)
Theorem market_buy_blends_average :
  forall (exch : Order -> result pyfloat) (s : Store) (sym : string)
         (q p sl q0 a : Q) (rp : pyfloat) (sp tp : option pyfloat) (now : Z),
    slippage (handler s) = Fin sl ->
    positions (handler s) !! sym
    = Some {| p_quantity := Fin q0; average_price := Fin a;
              realized_pnl := rp |} ->
    (0 < q0)%Q -> (0 < q)%Q ->
    let out :=
      create_order false exch sym MARKET BUY (Fin q) (Some (Fin p)) sp tp
        now s in
    let fp := (p * (1 + sl))%Q in
    exists avg,
      out.2 = Ok (length (objects s))
      /\ positions (handler out.1) !! sym
         = Some {| p_quantity := Fin (q0 + q); average_price := Fin avg;
                   realized_pnl := rp |}
      /\ (avg == (q0 * a + q * fp) / (q0 + q))%Q.
Proof.
  intros exch s sym q p sl q0 a rp sp tp now Hsl Hpos Hq0 Hq out fp.
  subst out. rewrite create_market_simulated. cbv zeta. rewrite Hpos.
  change (default no_position (Some ?x)) with x.
  unfold updated_position, slippage_factor. rewrite Hsl.
  rewrite bool_decide_eq_true_2 by reflexivity.
  cbn [side fill Order_init p_quantity average_price realized_pnl quantity
       filled_quantity filled_price fadd fmul of_int].
  change (inject_Z 1) with 1%Q.
  assert (Hpos' : (Fin (q0 + q) >? Fin 0)%fl = true).
  { unfold fgt, flt. apply Qlt_bool_iff. lra. }
  rewrite Hpos'.
  assert (Hnz : (Fin (q0 + q) =? Fin 0)%fl = false).
  { apply Qeq_bool_false_iff. lra. }
  rewrite Hnz.
  unfold quotient. rewrite fdiv_Fin by lra.
  set (avg := ((q0 * a + q * (p * (1 + sl * 1))) / (q0 + q))%Q).
  exists avg.
  assert (Havg : (avg == (q0 * a + q * fp) / (q0 + q))%Q).
  { subst avg fp. field. lra. }
  split; [reflexivity|]. split; [|exact Havg].
  cbn [fst handler positions]. apply lookup_insert_eq.
Qed.

Lemma market_buy_blends_average_witness :
  let s :=
    {| objects := [];
       handler :=
         {| commission := Fin 0.001; slippage := Fin 0;
            positions :=
              <["BTC" := {| p_quantity := Fin 10; average_price := Fin 100;
                            realized_pnl := Fin 0 |}]> ∅;
            orders := []; trades := [] |} |} in
  exists avg,
    positions
      (handler
         (create_order false (fun _ => Raise ExchangeError) "BTC" MARKET BUY
            (Fin 30) (Some (Fin 120)) None None 2 s).1) !! "BTC"
    = Some {| p_quantity := Fin (10 + 30); average_price := Fin avg;
              realized_pnl := Fin 0 |}
    /\ (avg == 115)%Q.
Proof.
  intros s.
  destruct (market_buy_blends_average (fun _ => Raise ExchangeError) s
              "BTC" 30 120 0 10 100 (Fin 0) None None 2 eq_refl)
    as (avg & _ & Hp & Havg).
  - apply lookup_insert_eq.
  - reflexivity.
  - reflexivity.
  - exists avg. split; [exact Hp | rewrite Havg; reflexivity].
Defined.

(** Buying a finite non-zero quantity of a symbol without an entry and
    then selling the same quantity leaves the table of positions as it
    was: the entry made by the buy is removed by the sell.  Both orders
    are returned filled, and the ledger and the order list grow by two. *)
Theorem market_buy_sell_round_trip :
  forall (exch : Order -> result pyfloat) (s : Store) (sym : string)
         (q : Q) (p1 p2 : pyfloat) (sp1 tp1 sp2 tp2 : option pyfloat)
         (now1 now2 : Z),
    positions (handler s) !! sym = None ->
    ~ (q == 0)%Q ->
    let bought :=
      create_order false exch sym MARKET BUY (Fin q) (Some p1) sp1 tp1 now1
        s in
    let sold :=
      create_order false exch sym MARKET SELL (Fin q) (Some p2) sp2 tp2 now2
        bought.1 in
    bought.2 = Ok (length (objects s))
    /\ sold.2 = Ok (S (length (objects s)))
    /\ positions (handler sold.1) = positions (handler s)
    /\ orders (handler sold.1)
       = orders (handler s) ++ [length (objects s); S (length (objects s))]
    /\ length (trades (handler sold.1))
       = S (S (length (trades (handler s)))).
Proof.
  intros exch s sym q p1 p2 sp1 tp1 sp2 tp2 now1 now2 Hfree Hq bought sold.
  subst sold bought.
  rewrite (create_market_simulated exch sym BUY (Fin q) p1 sp1 tp1 now1 s).
  cbv zeta. rewrite Hfree.
  change (default no_position None) with no_position.
  assert (Hq1 : (p_quantity
                   (updated_position
                      (fill (Order_init sym MARKET BUY (Fin q) (Some p1) sp1
                               tp1 now1)
                         (p1 * slippage_factor s
                                 (Order_init sym MARKET BUY (Fin q) (Some p1)
                                    sp1 tp1 now1))%fl)
                      no_position) =? Fin 0)%fl = false).
  { unfold updated_position. cbn. apply Qeq_bool_false_iff.
    intros E. apply Hq. rewrite <- E. ring. }
  rewrite Hq1. cbn [fst snd].
  set (pos1 := updated_position _ no_position).
  set (s1 := {| objects := _ |}).
  rewrite (create_market_simulated exch sym SELL (Fin q) p2 sp2 tp2 now2 s1).
  cbv zeta.
  change (positions (handler s1)) with (<[sym := pos1]> (positions (handler s))).
  rewrite lookup_insert_eq.
  change (default no_position (Some pos1)) with pos1.
  assert (Hq2 : (p_quantity
                   (updated_position
                      (fill (Order_init sym MARKET SELL (Fin q) (Some p2) sp2
                               tp2 now2)
                         (p2 * slippage_factor s1
                                 (Order_init sym MARKET SELL (Fin q) (Some p2)
                                    sp2 tp2 now2))%fl)
                      pos1) =? Fin 0)%fl = true).
  { unfold updated_position. subst pos1. unfold updated_position. cbn.
    apply Qeq_bool_iff. ring. }
  rewrite Hq2. subst s1.
  cbn [fst snd handler positions orders trades objects].
  split; [reflexivity|]. split.
  - rewrite length_app. simpl. f_equal. lia.
  - split; [rewrite delete_insert_eq; apply delete_id; exact Hfree|].
    split.
    + rewrite length_app, <- app_assoc. simpl.
      replace (length (objects s) + 1)%nat with (S (length (objects s)))
        by lia.
      reflexivity.
    + rewrite !length_app. simpl. lia.
Qed.

Lemma market_buy_sell_round_trip_witness :
  let exch := fun _ : Order => Raise ExchangeError in
  let bought :=
    create_order false exch "BTC" MARKET BUY (Fin 3) (Some (Fin 100)) None
      None 1 (new (Fin 0.001) (Fin 0.001)) in
  let sold :=
    create_order false exch "BTC" MARKET SELL (Fin 3) (Some (Fin 90)) None
      None 2 bought.1 in
  sold.2 = Ok 1%nat /\ positions (handler sold.1) = ∅.
Proof.
  intros exch bought sold.
  destruct (market_buy_sell_round_trip exch (new (Fin 0.001) (Fin 0.001))
              "BTC" 3 (Fin 100) (Fin 90) None None None None 1 2)
    as (_ & Hs & Hp & _).
  - apply lookup_empty.
  - intros E. vm_compute in E. discriminate E.
  - split; [exact Hs | exact Hp].
Defined.

(** *** A raise of [create_order] leaves the handler untouched *)

Lemma create_order_unfold (live : bool) (exch : Order -> result pyfloat)
    sym ty sd q p sp tp now (s : Store) :
  create_order live exch sym ty sd q p sp tp now s =
  let r := length (objects s) in
  let s0 := set_objects
              (objects s ++ [Order_init sym ty sd q p sp tp now]) s in
  match (if live then _execute_live_order exch r
         else _execute_simulated_order r) s0 with
  | (s1, Ok _) => (set_orders (orders (handler s1) ++ [r]) s1, Ok r)
  | (s1, Raise e) => (s1, Raise e)
  end.
Proof.
  unfold create_order, mbind, M_bind, alloc, modify, mret, M_ret. simpl.
  destruct live;
    [destruct (_execute_live_order _ _ _) as [s1 [[]|e]]
    |destruct (_execute_simulated_order _ _) as [s1 [[]|e]]];
    reflexivity.
Qed.

Lemma bookkeeping_raise (r : ref) (s : Store) (o : Order) (e : exn) :
  objects s !! r = Some o ->
  ((_update_positions r ;; _record_trade r) s).2 = Raise e ->
  (_update_positions r ;; _record_trade r) s = (s, Raise KeyError)
  /\ e = KeyError.
Proof.
  intros Ho. unfold mbind, M_bind.
  destruct (decide (status o = filled)) as [Hs|Hs].
  - rewrite (update_positions_filled r s o Ho Hs). cbv zeta.
    destruct (_ =? Fin 0)%fl.
    + destruct (_ !! symbol o).
      * rewrite (record_trade_filled r (set_positions _ s) o Ho Hs).
        discriminate.
      * intros [= <-]. split; reflexivity.
    + rewrite (record_trade_filled r (set_positions _ s) o Ho Hs).
      discriminate.
  - rewrite (update_positions_not_filled r s o Ho Hs). cbv beta iota.
    rewrite (record_trade_not_filled r s o Ho Hs). discriminate.
Qed.

Lemma execute_simulated_shape (r : ref) (s : Store) (o : Order) :
  objects s !! r = Some o ->
  _execute_simulated_order r s = (s, Raise TypeError)
  \/ exists o',
       _execute_simulated_order r s
       = (_update_positions r ;; _record_trade r)
           (set_objects (<[r := o']> (objects s)) s).
Proof.
  intros Ho.
  assert (Hid : set_objects (<[r := o]> (objects s)) s = s).
  { destruct s as [os h]. unfold set_objects. cbn [objects handler] in *.
    f_equal. apply list_insert_id, Ho. }
  unfold _execute_simulated_order. munfold. unfold modify. rewrite Ho.
  destruct (order_type o);
    try (right; exists o; rewrite Hid; reflexivity).
  - destruct (price o) as [p|]; cbn [num]; [|left; reflexivity].
    right. eexists. reflexivity.
  - destruct (price o) as [p|]; cbn [num]; [|left; reflexivity].
    destruct (stop_price o) as [sp|]; cbn [num]; [|left; reflexivity].
    right. destruct (match side o with BUY => _ | SELL => _ end);
      eexists; reflexivity.
Qed.

(** When [create_order] raises, in either mode, the handler is exactly as
    before the call: no position, no trade and no entry of the order list
    has changed.  In simulated mode the exception is the [TypeError] of a
    missing price or the [KeyError] of the position update. *)
Theorem create_order_raise_is_atomic :
  forall (live : bool) (exch : Order -> result pyfloat) (sym : string)
         (ty : OrderType) (sd : OrderSide) (q : pyfloat)
         (p sp tp : option pyfloat) (now : Z) (s : Store) (e : exn),
    (create_order live exch sym ty sd q p sp tp now s).2 = Raise e ->
    handler (create_order live exch sym ty sd q p sp tp now s).1 = handler s
    /\ (live = false -> e = TypeError \/ e = KeyError).
Proof.
  intros live exch sym ty sd q p sp tp now s e.
  rewrite create_order_unfold. cbv zeta.
  set (o0 := Order_init sym ty sd q p sp tp now).
  set (r := length (objects s)).
  set (s0 := set_objects (objects s ++ [o0]) s).
  assert (Ho : @lookup ref Order (list Order) _ r (objects s0) = Some o0)
    by apply lookup_fresh.
  destruct live.
  - unfold _execute_live_order, on_exception. munfold. unfold modify.
    rewrite Ho.
    destruct (exch o0) as [rp|e0].
    + match goal with
      | |- context [_update_positions r ?x] => set (s1 := x)
      end.
      assert (Ho1 : @lookup ref Order (list Order) _ r (objects s1)
                    = Some (fill o0 rp)).
      { apply list_lookup_insert_eq. eapply lookup_lt_Some, Ho. }
      pose proof (bookkeeping_raise r s1 (fill o0 rp)) as Hb.
      unfold mbind, M_bind in Hb.
      destruct (_update_positions r s1) as [s2 [[]|e2]] eqn:E2.
      * destruct (_record_trade r s2) as [s3 [[]|e3]] eqn:E3;
          cbv beta iota; cbn [fst snd].
        -- discriminate.
        -- intros [= <-].
           destruct (Hb e3 Ho1 eq_refl) as [Heq _].
           injection Heq as Hs3 _. rewrite Hs3, Ho1.
           split; [reflexivity | discriminate].
      * cbv beta iota; cbn [fst snd]. intros [= <-].
        destruct (Hb e2 Ho1 eq_refl) as [Heq _].
        injection Heq as Hs2 _. rewrite Hs2, Ho1.
        split; [reflexivity | discriminate].
    + cbv beta iota; cbn [fst snd]. intros _. split; [|discriminate].
      rewrite Ho. reflexivity.
  - destruct (execute_simulated_shape r s0 o0 Ho) as [E|[o' E]];
      rewrite E.
    + cbn [fst snd]. intros [= <-]. split; [reflexivity|].
      intros _. left. reflexivity.
    + match goal with
      | |- context [(_update_positions r ;; _record_trade r) ?x] =>
          set (s1 := x)
      end.
      assert (Ho1 : @lookup ref Order (list Order) _ r (objects s1)
                    = Some o').
      { apply list_lookup_insert_eq. eapply lookup_lt_Some, Ho. }
      pose proof (bookkeeping_raise r s1 o') as Hb.
      destruct ((_update_positions r ;; _record_trade r) s1)
        as [s2 [[]|e2]] eqn:E2; cbv beta iota; cbn [fst snd].
      * discriminate.
      * intros [= <-].
        destruct (Hb e2 Ho1 eq_refl) as [Heq ->].
        injection Heq as Hs2. rewrite Hs2.
        split; [reflexivity|]. intros _. right. reflexivity.
Qed.

Lemma create_order_raise_witness :
  let s := new (Fin 0.001) (Fin 0.001) in
  let out :=
    create_order false (fun _ => Raise ExchangeError) "BTC" MARKET BUY (Fin 0)
      (Some (Fin 100)) None None 1 s in
  out.2 = Raise KeyError /\ handler out.1 = handler s.
Proof.
  intros s out.
  assert (H : out.2 = Raise KeyError) by (vm_compute; reflexivity).
  split; [exact H|].
  apply (create_order_raise_is_atomic false (fun _ => Raise ExchangeError)
           "BTC" MARKET BUY (Fin 0) (Some (Fin 100)) None None 1 s KeyError H).
Defined.

(** *** Properties kept by every public call *)

Section CallKeeps.

Variable live : bool.
Variable exch : Order -> result pyfloat.
Variable P : Store -> Prop.

Hypothesis P_new_object :
  forall s o, P s -> P (set_objects (objects s ++ [o]) s).
Hypothesis P_assign :
  forall s (r : ref) o, P s -> P (set_objects (<[r := o]> (objects s)) s).
Hypothesis P_positions : forall s ps, P s -> P (set_positions ps s).
Hypothesis P_new_order :
  forall s (r : ref), P s -> P (set_orders (orders (handler s) ++ [r]) s).
Hypothesis P_new_trade :
  forall s o,
    P s ->
    P (set_trades
         (trades (handler s) ++ [trade_of o (commission (handler s))]) s).

Lemma keeps_assign_gen (r : ref) (o : Order) : keeps P (assign r o).
Proof. apply keeps_modify. intros s. apply P_assign. Qed.

Lemma keeps_record_trade_gen (r : ref) : keeps P (_record_trade r).
Proof.
  intros s H. destruct (objects s !! r) as [o|] eqn:Ho.
  - destruct (decide (status o = filled)) as [Hs|Hs].
    + rewrite (record_trade_filled r s o Ho Hs). apply P_new_trade, H.
    + rewrite (record_trade_not_filled r s o Ho Hs). exact H.
  - unfold _record_trade. munfold. rewrite Ho. exact H.
Qed.

Lemma keeps_execute_simulated_gen (r : ref) :
  keeps P (_execute_simulated_order r).
Proof.
  unfold _execute_simulated_order.
  apply keeps_bind; [apply keeps_deref|]. intros o.
  apply keeps_bind; [apply keeps_gets|]. intros sl.
  apply keeps_bind.
  - destruct (order_type o); try apply keeps_ret.
    + apply keeps_bind; [apply keeps_lift|]. intros p.
      apply keeps_assign_gen.
    + apply keeps_bind; [apply keeps_lift|]. intros p.
      apply keeps_bind; [apply keeps_lift|]. intros sp.
      destruct (match side o with BUY => _ | SELL => _ end);
        apply keeps_assign_gen.
  - intros _.
    apply keeps_bind; [apply keeps_update_positions_frame, P_positions|].
    intros _. apply keeps_record_trade_gen.
Qed.

Lemma keeps_execute_live_gen (r : ref) :
  keeps P (_execute_live_order exch r).
Proof.
  unfold _execute_live_order.
  apply keeps_on_exception.
  - apply keeps_bind; [apply keeps_deref|]. intros o.
    apply keeps_bind; [apply keeps_lift|]. intros p.
    apply keeps_bind; [apply keeps_assign_gen|]. intros _.
    apply keeps_bind; [apply keeps_update_positions_frame, P_positions|].
    intros _. apply keeps_record_trade_gen.
  - intros s H. destruct (objects s !! r); [apply P_assign, H | exact H].
Qed.

Lemma keeps_create_order_gen sym ty sd q p sp tp now :
  keeps P (create_order live exch sym ty sd q p sp tp now).
Proof.
  unfold create_order.
  apply keeps_bind; [intros s H; apply P_new_object, H|]. intros r.
  apply keeps_bind.
  - destruct live;
      [apply keeps_execute_live_gen | apply keeps_execute_simulated_gen].
  - intros _. apply keeps_bind; [|intros _; apply keeps_ret].
    apply keeps_modify. intros s. apply P_new_order.
Qed.

Lemma keeps_cancel_order_gen (r : ref) : keeps P (cancel_order live r).
Proof.
  unfold cancel_order.
  apply keeps_bind; [apply keeps_deref|]. intros o.
  destruct (negb _); [apply keeps_ret|].
  destruct live; [apply keeps_ret|].
  apply keeps_bind; [apply keeps_assign_gen|]. intros _. apply keeps_ret.
Qed.

Lemma call_keeps (c : Call) (s : Store) : P s -> P (call live exch c s).
Proof.
  destruct c; simpl.
  - apply keeps_create_order_gen.
  - apply keeps_cancel_order_gen.
  - tauto.
  - tauto.
  - tauto.
  - tauto.
Qed.

Lemma run_keeps (cs : list Call) (s : Store) :
  P s -> P (run live exch cs s).
Proof.
  unfold run. revert s.
  induction cs as [|c cs IH]; intros s H; simpl; [exact H|].
  apply IH, call_keeps, H.
Qed.

End CallKeeps.

(** Whatever calls are made on a new handler, in either mode, every entry
    of the ledger carries the commission
    filled quantity * fill price * commission rate, for the rate the
    handler was created with. *)
Theorem ledger_commission_invariant :
  forall (live : bool) (exch : Order -> result pyfloat)
         (c sl : pyfloat) (cs : list Call),
    let s := run live exch cs (new c sl) in
    commission (handler s) = c
    /\ Forall (fun t => t_commission t = (t_quantity t * t_price t * c)%fl)
         (trades (handler s)).
Proof.
  intros live exch c sl cs.
  apply (run_keeps live exch (ledger_charges c)).
  - intros s o H. exact H.
  - intros s r o H. exact H.
  - intros s ps H. exact H.
  - intros s r H. exact H.
  - intros s o [Hc Hf]. split; [exact Hc|].
    cbn [set_trades handler trades].
    apply Forall_app. split; [exact Hf|].
    constructor; [|constructor]. rewrite Hc. reflexivity.
  - split; [reflexivity | constructor].
Qed.

(** The ledger and the order list are append-only and the rates are
    fixed: after any sequence of calls on any store, in either mode, the
    earlier ledger and the earlier order list are prefixes of the later
    ones, no object has disappeared, and commission and slippage are as
    before. *)
Theorem ledger_and_orders_append_only :
  forall (live : bool) (exch : Order -> result pyfloat) (cs : list Call)
         (s : Store),
    let s' := run live exch cs s in
    commission (handler s') = commission (handler s)
    /\ slippage (handler s') = slippage (handler s)
    /\ trades (handler s) `prefix_of` trades (handler s')
    /\ orders (handler s) `prefix_of` orders (handler s')
    /\ (length (objects s) <= length (objects s'))%nat.
Proof.
  intros live exch cs s.
  apply (run_keeps live exch (extends s)); unfold extends.
  - intros s1 o (Hc & Hs & Ht & Ho & Hl).
    cbn [set_objects handler objects]. rewrite length_app. simpl.
    repeat split; try assumption. lia.
  - intros s1 r o (Hc & Hs & Ht & Ho & Hl).
    cbn [set_objects handler objects]. rewrite length_insert.
    repeat split; assumption.
  - intros s1 ps H. exact H.
  - intros s1 r (Hc & Hs & Ht & Ho & Hl).
    cbn [set_orders handler objects orders trades commission slippage].
    repeat split; try assumption. apply prefix_app_r, Ho.
  - intros s1 o (Hc & Hs & Ht & Ho & Hl).
    cbn [set_trades handler objects orders trades commission slippage].
    repeat split; try assumption. apply prefix_app_r, Ht.
  - repeat split; reflexivity.
Qed.

(** *** Statuses of existing orders *)

Lemma cancel_order_eq (live : bool) (r : ref) (s : Store) :
  cancel_order live r s
  = match objects s !! r with
    | Some o =>
        if bool_decide (status o = pending)
        then if live then (s, Ok false)
             else (set_objects
                     (<[r := with_status o cancelled]> (objects s)) s,
                   Ok true)
        else (s, Ok false)
    | None => (s, Raise AttributeError)
    end.
Proof.
  unfold cancel_order. munfold. unfold modify.
  destruct (objects s !! r) as [o|]; [|reflexivity].
  destruct (bool_decide (status o = pending)); [|reflexivity].
  destruct live; reflexivity.
Qed.

(** [create_order] touches no object but the one it creates. *)
Lemma create_order_objects (live : bool) (exch : Order -> result pyfloat)
    sym ty sd q p sp tp now (s : Store) :
  exists o,
    objects (create_order live exch sym ty sd q p sp tp now s).1
    = objects s ++ [o].
Proof.
  rewrite create_order_unfold. cbv zeta.
  set (r := length (objects s)).
  set (P := fun s' : Store => exists o, objects s' = objects s ++ [o]).
  assert (Hassign : forall s' o, P s' ->
                      P (set_objects (<[r := o]> (objects s')) s')).
  { intros s' o [o1 E]. exists o. cbn [set_objects objects].
    rewrite E. apply insert_fresh. }
  assert (Htail : keeps P (_update_positions r ;; _record_trade r)).
  { apply keeps_bind.
    - apply keeps_update_positions_frame. intros s' ps H. exact H.
    - intros _. apply keeps_record_trade_frame. intros s' ts H. exact H. }
  assert (Hexec : keeps P (if live then _execute_live_order exch r
                           else _execute_simulated_order r)).
  { destruct live.
    - unfold _execute_live_order. apply keeps_on_exception.
      + apply keeps_bind; [apply keeps_deref|]. intros o.
        apply keeps_bind; [apply keeps_lift|]. intros rp.
        apply keeps_bind; [|intros _; exact Htail].
        apply keeps_modify. intros s'. apply Hassign.
      + intros s' H.
        match goal with
        | |- context [match ?x with Some _ => _ | None => _ end] =>
            destruct x
        end; [apply Hassign, H | exact H].
    - unfold _execute_simulated_order.
      apply keeps_bind; [apply keeps_deref|]. intros o.
      apply keeps_bind; [apply keeps_gets|]. intros sl.
      apply keeps_bind; [|intros _; exact Htail].
      destruct (order_type o); try apply keeps_ret.
      + apply keeps_bind; [apply keeps_lift|]. intros p0.
        apply keeps_modify. intros s'. apply Hassign.
      + apply keeps_bind; [apply keeps_lift|]. intros p0.
        apply keeps_bind; [apply keeps_lift|]. intros sp0.
        destruct (match side o with BUY => _ | SELL => _ end);
          apply keeps_modify; intros s'; apply Hassign. }
  set (s0 := set_objects (objects s ++ _) s).
  assert (H0 : P s0) by (eexists; reflexivity).
  specialize (Hexec s0 H0).
  destruct live;
    [destruct (_execute_live_order exch r s0) as [s1 [[]|e]]
    |destruct (_execute_simulated_order r s0) as [s1 [[]|e]]];
    exact Hexec.
Qed.

(** An existing order is changed by no call except a successful
    [cancel_order] on it, which takes it from pending to cancelled: after
    any call, in either mode, an order object is as it was, or it was
    pending and is now the same order with status cancelled. *)
Theorem existing_order_status_transitions :
  forall (live : bool) (exch : Order -> result pyfloat) (c : Call)
         (s : Store) (r : ref) (o : Order),
    objects s !! r = Some o ->
    exists o',
      objects (call live exch c s) !! r = Some o'
      /\ (o' = o \/ (status o = pending /\ o' = with_status o cancelled)).
Proof.
  intros live exch c s r o Ho.
  destruct c; cbn [call];
    try (exists o; split; [exact Ho | left; reflexivity]).
  - destruct (create_order_objects live exch symbol0 order_type0 side0
                quantity0 price0 stop_price0 trailing_percent0 now s)
      as [o1 E].
    rewrite E. exists o. split; [|left; reflexivity].
    apply lookup_app_l_Some, Ho.
  - rewrite cancel_order_eq.
    destruct (objects s !! r0) as [o0|] eqn:Ho0;
      [|exists o; split; [exact Ho | left; reflexivity]].
    destruct (bool_decide (status o0 = pending)) eqn:Hp;
      [|exists o; split; [exact Ho | left; reflexivity]].
    destruct live; [exists o; split; [exact Ho | left; reflexivity]|].
    cbn [fst set_objects objects].
    destruct (decide (r0 = r)) as [->|Hne].
    + assert (o0 = o) as -> by congruence.
      exists (with_status o cancelled). split.
      * apply list_lookup_insert_eq. eapply lookup_lt_Some, Ho.
      * right. split; [|reflexivity].
        apply bool_decide_eq_true_1 in Hp. exact Hp.
    + exists o. split; [|left; reflexivity].
      rewrite list_lookup_insert_ne by exact Hne. exact Ho.
Qed.

Lemma existing_order_status_witness :
  let exch := fun _ : Order => Raise ExchangeError in
  let s :=
    (create_order false exch "BTC" LIMIT BUY (Fin 1) (Some (Fin 90))
       (Some (Fin 100)) None 1 (new (Fin 0.001) (Fin 0.001))).1 in
  exists o o',
    objects s !! 0%nat = Some o
    /\ objects (call false exch (CancelOrder 0%nat) s) !! 0%nat = Some o'
    /\ (o' = o \/ (status o = pending /\ o' = with_status o cancelled)).
Proof.
  intros exch s.
  assert (H : exists o, objects s !! 0%nat = Some o)
    by (eexists; vm_compute; reflexivity).
  destruct H as [o Ho].
  destruct (existing_order_status_transitions false exch (CancelOrder 0%nat)
              s 0%nat o Ho) as (o' & Ho' & Hcase).
  exists o, o'. split; [exact Ho | split; [exact Ho' | exact Hcase]].
Defined.

(** Filled, cancelled and failed are final: an order that is not pending
    is the same object after any sequence of calls. *)
Theorem terminal_status_is_final :
  forall (live : bool) (exch : Order -> result pyfloat) (cs : list Call)
         (s : Store) (r : ref) (o : Order),
    objects s !! r = Some o ->
    status o <> pending ->
    objects (run live exch cs s) !! r = Some o.
Proof.
  intros live exch cs. unfold run.
  induction cs as [|c cs IH]; intros s r o Ho Hs; simpl; [exact Ho|].
  apply IH; [|exact Hs].
  destruct c; cbn [call]; try exact Ho.
  - destruct (create_order_objects live exch symbol0 order_type0 side0
                quantity0 price0 stop_price0 trailing_percent0 now s)
      as [o1 E].
    rewrite E. apply lookup_app_l_Some, Ho.
  - rewrite cancel_order_eq.
    destruct (objects s !! r0) as [o0|] eqn:Ho0; [|exact Ho].
    destruct (bool_decide (status o0 = pending)) eqn:Hp; [|exact Ho].
    destruct live; [exact Ho|].
    cbn [fst set_objects objects].
    destruct (decide (r0 = r)) as [->|Hne].
    + apply bool_decide_eq_true_1 in Hp. congruence.
    + rewrite list_lookup_insert_ne by exact Hne. exact Ho.
Qed.

Lemma terminal_status_witness :
  let exch := fun _ : Order => Raise ExchangeError in
  let s :=
    (create_order false exch "BTC" MARKET BUY (Fin 1) (Some (Fin 100))
       None None 1 (new (Fin 0.001) (Fin 0.001))).1 in
  exists o,
    status o = filled
    /\ objects
         (run false exch
            [CancelOrder 0%nat;
             CreateOrder "BTC" MARKET SELL (Fin 1) (Some (Fin 90)) None None 2]
            s) !! 0%nat = Some o.
Proof.
  intros exch s.
  assert (H : exists o, objects s !! 0%nat = Some o /\ status o = filled)
    by (eexists; split; [vm_compute; reflexivity | reflexivity]).
  destruct H as (o & Ho & Hs).
  exists o. split; [exact Hs|].
  apply (terminal_status_is_final false exch _ s 0%nat o Ho).
  rewrite Hs. discriminate.
Defined.

(** *** Queries *)

(** [get_open_orders] changes nothing and returns only references from
    the order list that name pending orders; with a non-empty symbol it
    returns only orders of that symbol. *)
Theorem open_orders_are_pending :
  forall (sym : option string) (s : Store) (r : ref),
    exists l,
      get_open_orders sym s = (s, Ok l)
      /\ (In r l ->
           In r (orders (handler s))
           /\ exists o,
                objects s !! r = Some o
                /\ status o = pending
                /\ (forall x, sym = Some x -> x <> "" -> symbol o = x)).
Proof.
  intros sym s r. eexists. split; [reflexivity|].
  set (is_pending := fun r0 : ref =>
         match objects s !! r0 with
         | Some o => bool_decide (status o = pending)
         | None => false
         end).
  assert (Hpend : forall r0,
            In r0 (List.filter is_pending (orders (handler s))) ->
            In r0 (orders (handler s))
            /\ exists o, objects s !! r0 = Some o /\ status o = pending).
  { intros r0 Hin. apply filter_In in Hin. destruct Hin as [Hin Hp].
    split; [exact Hin|]. subst is_pending. cbv beta in Hp.
    destruct (objects s !! r0) as [o|]; [|discriminate Hp].
    exists o. split; [reflexivity|].
    apply bool_decide_eq_true_1 in Hp. exact Hp. }
  destruct sym as [x|].
  - destruct (bool_decide (x = "")) eqn:Hx.
    + intros Hin. destruct (Hpend r Hin) as [Ho (o & Hl & Hs)].
      split; [exact Ho|]. exists o. split; [exact Hl|]. split; [exact Hs|].
      intros x' [= <-] Hne. apply bool_decide_eq_true_1 in Hx.
      contradiction.
    + intros Hin. apply filter_In in Hin. destruct Hin as [Hin Hsym].
      destruct (Hpend r Hin) as [Ho (o & Hl & Hs)].
      split; [exact Ho|]. exists o. split; [exact Hl|]. split; [exact Hs|].
      intros x' [= <-] _. rewrite Hl in Hsym.
      apply bool_decide_eq_true_1 in Hsym. exact Hsym.
  - intros Hin. destruct (Hpend r Hin) as [Ho (o & Hl & Hs)].
    split; [exact Ho|]. exists o. split; [exact Hl|]. split; [exact Hs|].
    intros x' Hx. discriminate Hx.
Qed.

Lemma open_orders_witness :
  let exch := fun _ : Order => Raise ExchangeError in
  let s1 :=
    (create_order false exch "BTC" STOP_LOSS SELL (Fin 1) None
       (Some (Fin 95)) None 1 (new (Fin 0.001) (Fin 0.001))).1 in
  let s :=
    (create_order false exch "ETH" MARKET BUY (Fin 1) (Some (Fin 10)) None
       None 2 s1).1 in
  (get_open_orders (Some "BTC") s).2 = Ok [0%nat]
  /\ exists o, objects s !! 0%nat = Some o /\ status o = pending.
Proof.
  intros exch s1 s.
  destruct (open_orders_are_pending (Some "BTC") s 0%nat) as (l & E & H).
  assert (El : l = [0%nat]).
  { assert (E' : get_open_orders (Some "BTC") s = (s, Ok [0%nat]))
      by (vm_compute; reflexivity).
    rewrite E' in E. injection E as <-. reflexivity. }
  split; [rewrite E, El; reflexivity|].
  destruct H as (_ & o & Ho & Hs & _); [rewrite El; left; reflexivity|].
  exists o. split; [exact Ho | exact Hs].
Defined.

(** An order that [cancel_order] has cancelled is no longer among the
    open orders, whatever the symbol asked for. *)
Theorem cancelled_order_is_not_open :
  forall (live : bool) (s : Store) (r : ref) (sym : option string),
    (cancel_order live r s).2 = Ok true ->
    exists l,
      get_open_orders sym (cancel_order live r s).1
      = ((cancel_order live r s).1, Ok l)
      /\ ~ In r l.
Proof.
  intros live s r sym. rewrite cancel_order_eq.
  destruct (objects s !! r) as [o|] eqn:Ho; [|discriminate].
  destruct (bool_decide (status o = pending)); [|discriminate].
  destruct live; [discriminate|]. intros _. cbn [fst].
  set (s' := set_objects _ s).
  assert (Hl : objects s' !! r = Some (with_status o cancelled)).
  { apply list_lookup_insert_eq. eapply lookup_lt_Some, Ho. }
  eexists. split; [reflexivity|].
  assert (Hnot : forall l0,
            ~ In r (List.filter
                      (fun r0 : ref =>
                         match objects s' !! r0 with
                         | Some o0 => bool_decide (status o0 = pending)
                         | None => false
                         end) l0)).
  { intros l0 Hin. apply filter_In in Hin. destruct Hin as [_ Hp].
    rewrite Hl in Hp. discriminate Hp. }
  destruct sym as [x|]; [|apply Hnot].
  destruct (bool_decide (x = "")); [apply Hnot|].
  intros Hin. apply filter_In in Hin. destruct Hin as [Hin _].
  exact (Hnot _ Hin).
Qed.

Lemma cancelled_order_witness :
  let exch := fun _ : Order => Raise ExchangeError in
  let s :=
    (create_order false exch "BTC" STOP_LOSS SELL (Fin 1) None
       (Some (Fin 95)) None 1 (new (Fin 0.001) (Fin 0.001))).1 in
  (get_open_orders None s).2 = Ok [0%nat]
  /\ exists l,
       get_open_orders (Some "BTC") (cancel_order false 0%nat s).1
       = ((cancel_order false 0%nat s).1, Ok l)
       /\ ~ In 0%nat l.
Proof.
  intros exch s. split; [vm_compute; reflexivity|].
  apply (cancelled_order_is_not_open false s 0%nat (Some "BTC")).
  vm_compute. reflexivity.
Defined.

(** [calculate_portfolio_value] skips every position without a quoted
    price: when no held symbol has a price the value is 0, and a table with
    a single, quoted position is worth 0 + quantity * price.  The store is
    not changed. *)
Theorem portfolio_value_needs_prices :
  forall (current_prices : gmap string pyfloat) (s : Store),
    (calculate_portfolio_value current_prices s).1 = s
    /\ ((forall sym pos,
           positions (handler s) !! sym = Some pos ->
           current_prices !! sym = None) ->
        (calculate_portfolio_value current_prices s).2 = Ok (Fin 0))
    /\ (forall sym pos cp,
          positions (handler s) = {[sym := pos]} ->
          current_prices !! sym = Some cp ->
          (calculate_portfolio_value current_prices s).2
          = Ok (Fin 0 + p_quantity pos * cp)%fl).
Proof.
  intros current_prices s. split; [reflexivity|]. split.
  - unfold calculate_portfolio_value, gets. cbn [snd].
    generalize (positions (handler s)). intros ps.
    apply (map_fold_weak_ind
             (fun (v : pyfloat) (m : gmap string Position) =>
                (forall sym pos, m !! sym = Some pos ->
                                 current_prices !! sym = None) ->
                Ok v = Ok (Fin 0))).
    + reflexivity.
    + intros sym pos m v Hfresh IH Hall.
      rewrite (Hall sym pos) by apply lookup_insert_eq.
      apply IH. intros sym' pos' Hl. apply (Hall sym' pos').
      rewrite lookup_insert_ne; [exact Hl|].
      intros ->. rewrite Hfresh in Hl. discriminate Hl.
  - intros sym pos cp Hps Hcp.
    unfold calculate_portfolio_value, gets. cbn [snd].
    rewrite Hps, map_fold_singleton, Hcp. reflexivity.
Qed.

Lemma portfolio_value_witness :
  let s :=
    (create_order false (fun _ => Raise ExchangeError) "BTC" MARKET BUY
       (Fin 2) (Some (Fin 100)) None None 1 (new (Fin 0.001) (Fin 0))).1 in
  (calculate_portfolio_value ∅ s).2 = Ok (Fin 0)
  /\ (calculate_portfolio_value {["BTC" := Fin 120]} s).2
     = Ok (Fin 0 + Fin (0 + 2) * Fin 120)%fl.
Proof.
  intros s.
  destruct (portfolio_value_needs_prices ∅ s) as (_ & Hnone & _).
  destruct (portfolio_value_needs_prices {["BTC" := Fin 120]} s)
    as (_ & _ & Hone).
  split.
  - apply Hnone. intros sym pos _. apply lookup_empty.
  - apply (Hone "BTC"
             {| p_quantity := Fin (0 + 2);
                average_price :=
                  Fin ((0 * 0 + 2 * (100 * (1 + 0 * 1))) / (0 + 2));
                realized_pnl := Fin 0 |}).
    + vm_compute. reflexivity.
    + apply lookup_singleton_eq.
Defined.

(** *** Live mode *)

(** In live mode an order the exchange refuses is marked failed, the
    exception is raised again, and the handler records nothing: no
    position, no trade, no entry in the order list.  The failed order is
    the new object, with the fields it was created with, status failed
    and no fill. *)
Theorem live_order_failure :
  forall (exch : Order -> result pyfloat) (sym : string) (ty : OrderType)
         (sd : OrderSide) (q : pyfloat) (p sp tp : option pyfloat)
         (now : Z) (s : Store) (e : exn),
    exch (Order_init sym ty sd q p sp tp now) = Raise e ->
    let out := create_order true exch sym ty sd q p sp tp now s in
    out.2 = Raise e
    /\ handler out.1 = handler s
    /\ objects out.1
       = objects s
         ++ [{| symbol := sym;
                order_type := ty;
                side := sd;
                quantity := q;
                price := p;
                stop_price := sp;
                trailing_percent := tp;
                status := failed;
                filled_quantity := Fin 0;
                filled_price := Fin 0;
                timestamp := now |}].
Proof.
  intros exch sym ty sd q p sp tp now s e Hex out. subst out.
  rewrite create_order_unfold. cbv zeta.
  set (o0 := Order_init sym ty sd q p sp tp now) in *.
  set (s0 := set_objects (objects s ++ [o0]) s).
  assert (Ho : @lookup ref Order (list Order) _ (length (objects s))
                 (objects s0) = Some o0) by apply lookup_fresh.
  unfold _execute_live_order, on_exception. munfold. unfold modify.
  rewrite Ho, Hex. cbv beta iota. rewrite Ho.
  change (objects s0) with (objects s ++ [o0]).
  rewrite insert_fresh. repeat split.
Qed.

Lemma live_order_failure_witness :
  let out :=
    create_order true (fun _ => Raise ExchangeError) "BTC" MARKET BUY (Fin 1)
      (Some (Fin 100)) None None 1 (new (Fin 0.001) (Fin 0.001)) in
  out.2 = Raise ExchangeError
  /\ handler out.1 = handler (new (Fin 0.001) (Fin 0.001))
  /\ exists o, objects out.1 !! 0%nat = Some o /\ status o = failed.
Proof.
  intros out.
  destruct (live_order_failure (fun _ => Raise ExchangeError) "BTC" MARKET BUY
              (Fin 1) (Some (Fin 100)) None None 1
              (new (Fin 0.001) (Fin 0.001)) ExchangeError eq_refl)
    as (Hr & Hh & Ho).
  split; [exact Hr|]. split; [exact Hh|].
  fold out in Ho. rewrite Ho. eexists. split; reflexivity.
Defined.

End EngineExtras.

(** ** The retry decorator *)

Module RetryFacts.
Import error_handling.

Section Retry.

Context {A X : Type}.
Variable max_retries : Z.
Variable delay backoff_factor : pyfloat.
Variable catches : X -> bool.
Variable func : nat -> X + A.

Abbreviation attempts := (attempts max_retries backoff_factor catches func).
Abbreviation wrapper :=
  (wrapper max_retries delay backoff_factor catches func).
Abbreviation backoff_delays := (backoff_delays backoff_factor).

(** The loop in general: never more calls than iterations left, one sleep
    less than calls at most, and the loop runs out without a [return] only
    when there was no iteration. *)
Lemma attempts_bounds (remaining : nat) :
  forall (attempt : nat) (current_delay : pyfloat),
    (Z.of_nat attempt + Z.of_nat remaining = max_retries)%Z ->
    let r := attempts remaining attempt current_delay in
    (calls r <= remaining)%nat
    /\ (length (slept r) <= remaining - 1)%nat
    /\ (length (slept r) <= calls r)%nat
    /\ (outcome r = Returned None -> remaining = 0%nat).
Proof.
  induction remaining as [|rem IH]; intros attempt cur Hn;
    cbn [error_handling.attempts].
  - cbn. repeat split; lia.
  - destruct (func attempt) as [x|a].
    + destruct (catches x).
      * destruct (Z.of_nat attempt =? max_retries - 1)%Z eqn:Hlast.
        -- cbn. repeat split; try lia. discriminate.
        -- destruct (sleep cur).
           ++ cbn. repeat split; try lia. discriminate.
           ++ apply Z.eqb_neq in Hlast.
              destruct (IH (S attempt) (cur * backoff_factor)%fl)
                as (Hc & Hs & Hsc & Hnone); [lia|].
              cbn [calls slept outcome length].
              assert (rem <> 0%nat) by lia.
              repeat split; try lia.
              intros Hout. apply Hnone in Hout. lia.
      * cbn. repeat split; try lia. discriminate.
    + cbn. repeat split; try lia. discriminate.
Qed.

(** A call of the wrapper calls the function at most [max_retries] times
    and sleeps at most [max_retries - 1] times, never after its last call;
    with [max_retries <= 0] it does not call the function at all and
    returns [None], and that is the only way it returns [None] without the
    function having returned. *)
Theorem retry_call_budget :
  (calls wrapper <= Z.to_nat max_retries)%nat
  /\ (length (slept wrapper) <= Z.to_nat max_retries - 1)%nat
  /\ (length (slept wrapper) <= calls wrapper)%nat
  /\ ((max_retries <= 0)%Z ->
      wrapper = {| calls := 0; slept := []; outcome := Returned None |})
  /\ (outcome wrapper = Returned None -> (max_retries <= 0)%Z).
Proof.
  unfold error_handling.wrapper.
  destruct (Z_le_gt_dec max_retries 0) as [Hle|Hgt].
  - replace (Z.to_nat max_retries) with 0%nat by lia.
    cbn. repeat split; try lia; reflexivity.
  - destruct (attempts_bounds (Z.to_nat max_retries) 0 delay)
      as (Hc & Hs & Hsc & Hnone); [lia|].
    repeat split; try assumption.
    + intros H. lia.
    + intros H. apply Hnone in H. lia.
Qed.

(** [time.sleep] accepts every delay from 0 to 9e9 seconds. *)
Lemma sleep_accepts (d : Q) :
  (0 <= d)%Q -> (d <= 9000000000)%Q -> sleep (Fin d) = None.
Proof.
  intros H0 H1. unfold sleep, nanoseconds.
  assert (E : Qlt_bool d 0 = false) by (apply Qlt_bool_false; exact H0).
  rewrite E.
  assert (L : (0 <= Qceiling (d * 1000000000))%Z).
  { rewrite <- (Qceiling_Z 0). apply Qceiling_resp_le.
    change (inject_Z 0) with 0%Q. lra. }
  assert (U : (Qceiling (d * 1000000000) <= 9000000000000000000)%Z).
  { rewrite <- (Qceiling_Z 9000000000000000000). apply Qceiling_resp_le.
    change (inject_Z 9000000000000000000) with 9000000000000000000%Q.
    lra. }
  set (ns := Qceiling (d * 1000000000)) in *.
  assert (E1 : (ns <? - 2 ^ 63)%Z = false) by (apply Z.ltb_ge; lia).
  assert (E2 : (2 ^ 63 - 1 <? ns)%Z = false) by (apply Z.ltb_ge; lia).
  assert (E3 : (ns <? 0)%Z = false) by (apply Z.ltb_ge; lia).
  rewrite E1, E2, E3. reflexivity.
Qed.

(** The loop stops at the first attempt that is a success, a failure that
    is not caught, or the last attempt, having slept once after each
    caught failure before it, as long as [time.sleep] accepts the
    delays. *)
Lemma attempts_stop (k : nat) :
  forall (remaining attempt : nat) (current_delay : pyfloat),
    (k < remaining)%nat ->
    (Z.of_nat attempt + Z.of_nat remaining = max_retries)%Z ->
    Forall (fun d => sleep d = None) (backoff_delays k current_delay) ->
    (forall i, (i < k)%nat ->
               exists x, func (attempt + i) = inl x /\ catches x = true) ->
    match func (attempt + k) with
    | inr _ => True
    | inl x => catches x = false \/ S k = remaining
    end ->
    attempts remaining attempt current_delay
    = {| calls := S k;
         slept := backoff_delays k current_delay;
         outcome := match func (attempt + k) with
                    | inr a => Returned (Some a)
                    | inl x => Raised x
                    end |}.
Proof.
  induction k as [|k IH]; intros remaining attempt cur Hk Hn Hs Hfail Hstop.
  - rewrite Nat.add_0_r in *.
    destruct remaining as [|rem]; [lia|].
    cbn [error_handling.attempts error_handling.backoff_delays].
    destruct (func attempt) as [x|a]; [|reflexivity].
    destruct (catches x) eqn:Hc; [|reflexivity].
    destruct Hstop as [Hstop|Hstop]; [discriminate Hstop|].
    assert (Hlast : (Z.of_nat attempt =? max_retries - 1)%Z = true)
      by (apply Z.eqb_eq; lia).
    rewrite Hlast. reflexivity.
  - destruct remaining as [|rem]; [lia|].
    cbn [error_handling.attempts error_handling.backoff_delays] in *.
    destruct (Hfail 0%nat) as (x & Hx & Hc); [lia|].
    rewrite Nat.add_0_r in Hx. rewrite Hx, Hc.
    assert (Hlast : (Z.of_nat attempt =? max_retries - 1)%Z = false)
      by (apply Z.eqb_neq; lia).
    inversion Hs as [|? ? Hs0 Hs']; subst.
    rewrite Hlast, Hs0.
    replace (attempt + S k)%nat with (S attempt + k)%nat in * by lia.
    rewrite (IH rem (S attempt) (cur * backoff_factor)%fl).
    + reflexivity.
    + lia.
    + lia.
    + exact Hs'.
    + intros i Hi. destruct (Hfail (S i)) as (y & Hy & Hcy); [lia|].
      exists y. split; [|exact Hcy].
      replace (S attempt + i)%nat with (attempt + S i)%nat by lia. exact Hy.
    + destruct (func (S attempt + k)); [|exact I].
      destruct Hstop as [Hstop|Hstop]; [left; exact Hstop | right; lia].
Qed.



Lemma attempts_sleep_error (k : nat) :
  forall (remaining attempt : nat) (current_delay d : pyfloat)
         (e : sleep_error),
    (S k < remaining)%nat ->
    (Z.of_nat attempt + Z.of_nat remaining = max_retries)%Z ->
    Forall (fun d => sleep d = None) (backoff_delays k current_delay) ->
    backoff_delays (S k) current_delay !! k = Some d ->
    sleep d = Some e ->
    (forall i, (i <= k)%nat ->
               exists x, func (attempt + i) = inl x /\ catches x = true) ->
    attempts remaining attempt current_delay
    = {| calls := S k;
         slept := backoff_delays k current_delay;
         outcome := SleepRaised e |}.
Proof.
  induction k as [|k IH];
    intros remaining attempt cur d e Hk Hn Hs Hd He Hfail;
    (destruct remaining as [|rem]; [lia|]);
    destruct (Hfail 0%nat) as (x & Hx & Hc); try lia;
    rewrite Nat.add_0_r in Hx;
    assert (Hl : (Z.of_nat attempt =? max_retries - 1)%Z = false)
      by (apply Z.eqb_neq; lia).
  - cbn [error_handling.attempts error_handling.backoff_delays] in *.
    injection Hd as ->. rewrite Hx, Hc, Hl, He. reflexivity.
  - cbn [error_handling.attempts] in *.
    change (backoff_delays (S k) cur)
      with (cur :: backoff_delays k (cur * backoff_factor)%fl) in *.
    change (backoff_delays (S (S k)) cur)
      with (cur :: backoff_delays (S k) (cur * backoff_factor)%fl) in Hd.
    inversion Hs as [|? ? Hs0 Hs']; subst.
    rewrite Hx, Hc, Hl, Hs0.
    rewrite (IH rem (S attempt) (cur * backoff_factor)%fl d e).
    + reflexivity.
    + lia.
    + lia.
    + exact Hs'.
    + exact Hd.
    + exact He.
    + intros i Hi. destruct (Hfail (S i)) as (y & Hy & Hcy); [lia|].
      exists y. split; [|exact Hcy].
      replace (S attempt + i)%nat with (attempt + S i)%nat by lia. exact Hy.
Qed.


End Retry.

Lemma retry_call_budget_witness :
  @error_handling.wrapper nat exn 0 (Fin 1) (Fin 2) (fun _ => true)
    (fun _ => inr 7%nat)
  = {| calls := 0; slept := []; outcome := Returned None |}.
Proof.
  destruct (@retry_call_budget nat exn 0 (Fin 1) (Fin 2) (fun _ => true)
              (fun _ => inr 7%nat)) as (_ & _ & _ & H & _).
  apply H. lia.
Defined.




End RetryFacts.

(** ** The configuration tree *)

Module ConfigFacts.
Import config.

Lemma dict_get_set_eq (k : string) (v : value) (d : list (string * value)) :
  dict_get k (dict_set k v d) = v.
Proof.
  induction d as [|[k' v'] d IH]; cbn [dict_set dict_get].
  - rewrite String.eqb_refl. reflexivity.
  - destruct (String.eqb k k') eqn:E; cbn [dict_get]; rewrite E;
      [reflexivity | exact IH].
Qed.

Lemma dict_get_set_ne (k k' : string) (v : value)
    (d : list (string * value)) :
  k' <> k -> dict_get k' (dict_set k v d) = dict_get k' d.
Proof.
  intros Hne. induction d as [|[k0 v0] d IH]; cbn [dict_set dict_get].
  - apply String.eqb_neq in Hne. rewrite Hne. reflexivity.
  - destruct (String.eqb k k0) eqn:E; cbn [dict_get].
    + apply String.eqb_eq in E. subst k0.
      apply String.eqb_neq in Hne. rewrite Hne. reflexivity.
    + destruct (String.eqb k' k0); [reflexivity | exact IH].
Qed.

Lemma dict_has_set_eq (k : string) (v : value) (d : list (string * value)) :
  dict_has k (dict_set k v d) = true.
Proof.
  induction d as [|[k' v'] d IH]; cbn [dict_set dict_has].
  - rewrite String.eqb_refl. reflexivity.
  - destruct (String.eqb k k') eqn:E; cbn [dict_has]; rewrite E;
      [reflexivity | exact IH].
Qed.

Lemma dict_set_idem (k : string) (v : value) (d : list (string * value)) :
  dict_set k v (dict_set k v d) = dict_set k v d.
Proof.
  induction d as [|[k' v'] d IH]; cbn [dict_set].
  - rewrite String.eqb_refl. reflexivity.
  - destruct (String.eqb k k') eqn:E; cbn [dict_set]; rewrite E;
      [reflexivity | rewrite IH; reflexivity].
Qed.

Lemma split_dot_nonempty (key : string) : split_dot key <> [].
Proof.
  destruct key as [|c rest]; cbn [split_dot]; [discriminate|].
  destruct (Ascii.eqb c "."); [discriminate|].
  destruct (split_dot rest); discriminate.
Qed.

Lemma assign_path_cons (k k2 : string) (keys : list string)
    (v config : value) :
  assign_path (k :: k2 :: keys) v config
  = match config with
    | VDict d =>
        child' ← assign_path (k2 :: keys) v
                   (if dict_has k d then dict_get k d else VDict []);
        Ok (VDict (dict_set k child' d))
    | _ => Raise AttributeError
    end.
Proof. reflexivity. Qed.

(** One step of a successful [assign_path] below the first key. *)
Lemma assign_path_step (k k2 : string) (keys : list string)
    (v config config' : value) :
  assign_path (k :: k2 :: keys) v config = Ok config' ->
  exists d child',
    config = VDict d
    /\ assign_path (k2 :: keys) v
         (if dict_has k d then dict_get k d else VDict []) = Ok child'
    /\ config' = VDict (dict_set k child' d).
Proof.
  rewrite assign_path_cons. intros H.
  destruct config; try discriminate H.
  unfold mbind, result_bind in H.
  destruct (assign_path (k2 :: keys) v _) as [child'|e] eqn:E;
    [|discriminate H].
  injection H as <-. eexists _, _. repeat split. exact E.
Qed.

Lemma walk_assign_path (keys : list string) :
  forall (v config config' default : value),
    assign_path keys v config = Ok config' ->
    walk keys config' default = if is_none v then default else v.
Proof.
  induction keys as [|k keys IH]; intros v config config' default H.
  - discriminate H.
  - destruct keys as [|k2 keys].
    + cbn [assign_path] in H.
      destruct config; try discriminate H. injection H as <-.
      cbn [walk]. rewrite dict_get_set_eq. reflexivity.
    + destruct (assign_path_step _ _ _ _ _ _ H)
        as (d & child' & -> & Hchild & ->).
      change (walk (k :: k2 :: keys) (VDict (dict_set k child' d)) default)
        with (walk (k2 :: keys) (dict_get k (dict_set k child' d)) default).
      rewrite dict_get_set_eq.
      apply (IH v _ child' default Hchild).
Qed.

(** After [set(key, value)] has succeeded, [get(key, default)] on the new
    configuration returns the value, for dotted keys of any depth; only a
    stored [None] reads back as the default. *)
Theorem config_get_after_set :
  forall (cfg cfg' : value) (key : string) (v default : value),
    set cfg key v = Ok cfg' ->
    get cfg' key default = if is_none v then default else v.
Proof.
  intros cfg cfg' key v default H. unfold get, set in *.
  apply (walk_assign_path _ v cfg cfg' default H).
Qed.

Lemma config_get_after_set_witness :
  exists cfg',
    set default_config "trading.mode" (VStr "live") = Ok cfg'
    /\ get cfg' "trading.mode" VNone = VStr "live".
Proof.
  eexists. split; [vm_compute; reflexivity|].
  apply (config_get_after_set default_config _ "trading.mode" (VStr "live")
           VNone).
  vm_compute. reflexivity.
Defined.

Lemma assign_path_shape (keys : list string) (v config config' : value) :
  assign_path keys v config = Ok config' ->
  exists k rest d x,
    keys = k :: rest /\ config = VDict d
    /\ config' = VDict (dict_set k x d).
Proof.
  destruct keys as [|k [|k2 keys]]; intros H.
  - discriminate H.
  - cbn [assign_path] in H.
    destruct config; try discriminate H. injection H as <-.
    eexists _, _, _, _. repeat split.
  - destruct (assign_path_step _ _ _ _ _ _ H) as (d & child' & -> & _ & ->).
    eexists _, _, _, _. repeat split.
Qed.

(** A successful [set] changes what [get] returns only below its first
    component: every key whose first component is another one reads as
    before. *)
Theorem config_set_frame :
  forall (cfg cfg' : value) (key key' : string) (v default : value),
    set cfg key v = Ok cfg' ->
    hd EmptyString (split_dot key') <> hd EmptyString (split_dot key) ->
    get cfg' key' default = get cfg key' default.
Proof.
  intros cfg cfg' key key' v default H Hne. unfold get, set in *.
  destruct (assign_path_shape _ _ _ _ H) as (k & rest & d & x & Hk & -> & ->).
  rewrite Hk in Hne. cbn [hd] in Hne.
  destruct (split_dot key') as [|k' rest'] eqn:Hs;
    [exfalso; exact (split_dot_nonempty key' Hs)|].
  cbn [hd] in Hne. cbn [walk].
  rewrite dict_get_set_ne by exact Hne. reflexivity.
Qed.

Lemma config_set_frame_witness :
  exists cfg',
    set default_config "backtesting.commission" (VFloat (Fin 0.002))
    = Ok cfg'
    /\ get cfg' "risk_management.stop_loss" VNone = VFloat (Fin 0.02).
Proof.
  eexists. split; [vm_compute; reflexivity|].
  rewrite (config_set_frame default_config _ "backtesting.commission"
             "risk_management.stop_loss" (VFloat (Fin 0.002)) VNone).
  - reflexivity.
  - vm_compute. reflexivity.
  - vm_compute. discriminate.
Defined.

Lemma assign_path_idem (keys : list string) :
  forall (v config config' : value),
    assign_path keys v config = Ok config' ->
    assign_path keys v config' = Ok config'.
Proof.
  induction keys as [|k keys IH]; intros v config config' H.
  - discriminate H.
  - destruct keys as [|k2 keys].
    + cbn [assign_path] in *.
      destruct config; try discriminate H. injection H as <-.
      rewrite dict_set_idem. reflexivity.
    + destruct (assign_path_step _ _ _ _ _ _ H)
        as (d & child' & -> & Hchild & ->).
      rewrite assign_path_cons, dict_has_set_eq, dict_get_set_eq.
      rewrite (IH v _ child' Hchild). unfold mbind, result_bind.
      rewrite dict_set_idem. reflexivity.
Qed.

(** Setting the same value twice is the same as setting it once. *)
Theorem config_set_idempotent :
  forall (cfg cfg' : value) (key : string) (v : value),
    set cfg key v = Ok cfg' -> set cfg' key v = Ok cfg'.
Proof.
  intros cfg cfg' key v H. unfold set in *.
  apply (assign_path_idem _ v cfg cfg' H).
Qed.

Lemma config_set_idempotent_witness :
  exists cfg',
    set default_config "exchange.api_key" (VStr "k") = Ok cfg'
    /\ set cfg' "exchange.api_key" (VStr "k") = Ok cfg'.
Proof.
  eexists. split; [vm_compute; reflexivity|].
  apply (config_set_idempotent default_config _ "exchange.api_key" (VStr "k")).
  vm_compute. reflexivity.
Defined.

Lemma assign_path_fresh (keys : list string) (v : value) :
  keys <> [] -> exists c, assign_path keys v (VDict []) = Ok c.
Proof.
  induction keys as [|k keys IH]; intros Hne; [contradiction|].
  destruct keys as [|k2 keys].
  - eexists. reflexivity.
  - destruct IH as [c Hc]; [discriminate|].
    rewrite assign_path_cons. cbn [dict_has].
    unfold mbind, result_bind. rewrite Hc. eexists. reflexivity.
Qed.

(** On a dictionary, [set] under a new top-level component always
    succeeds, creating the dictionaries on the way; it fails with
    [AttributeError] or [TypeError], and only when the configuration or a
    value on the path is not a dictionary. *)
Theorem config_set_outcome :
  forall (cfg : value) (key : string) (v : value),
    (forall d,
       cfg = VDict d ->
       dict_has (hd EmptyString (split_dot key)) d = false ->
       exists cfg', set cfg key v = Ok cfg')
    /\ (forall e,
          set cfg key v = Raise e -> e = AttributeError \/ e = TypeError).
Proof.
  intros cfg key v. unfold set. split.
  - intros d -> Hfresh.
    pose proof (split_dot_nonempty key) as Hne.
    destruct (split_dot key) as [|k [|k2 keys]]; [contradiction| |].
    + eexists. reflexivity.
    + cbn [hd] in Hfresh. rewrite assign_path_cons, Hfresh.
      destruct (assign_path_fresh (k2 :: keys) v) as [c Hc]; [discriminate|].
      unfold mbind, result_bind. rewrite Hc. eexists. reflexivity.
  - generalize (split_dot key). intros keys. revert cfg.
    induction keys as [|k keys IH]; intros cfg e H.
    + injection H as <-. right. reflexivity.
    + destruct keys as [|k2 keys].
      * cbn [assign_path] in H.
        destruct cfg; try (injection H as <-; right; reflexivity).
        discriminate H.
      * rewrite assign_path_cons in H.
        destruct cfg; try (injection H as <-; left; reflexivity).
        unfold mbind, result_bind in H.
        destruct (assign_path (k2 :: keys) v _) as [c|e'] eqn:E;
          [discriminate H|].
        injection H as <-. apply (IH _ e' E).
Qed.

Lemma config_set_outcome_witness :
  (exists cfg', set default_config "trading.mode" (VStr "live") = Ok cfg')
  /\ set default_config "data.cache_dir.depth" (VInt 1) = Raise TypeError.
Proof.
  destruct (config_set_outcome default_config "trading.mode" (VStr "live"))
    as [Hok _].
  split.
  - apply (Hok _ eq_refl). vm_compute. reflexivity.
  - vm_compute. reflexivity.
Defined.

(** [get] falls back on the default whenever the first component of the
    key is missing from the configuration, and whenever the configuration
    is no dictionary at all. *)
Theorem config_get_missing :
  forall (cfg : value) (key : string) (default : value),
    match cfg with
    | VDict d => dict_has (hd EmptyString (split_dot key)) d = false
    | _ => True
    end ->
    get cfg key default = default.
Proof.
  intros cfg key default H. unfold get.
  pose proof (split_dot_nonempty key) as Hne.
  destruct (split_dot key) as [|k keys]; [contradiction|].
  cbn [walk hd] in *.
  destruct cfg; try reflexivity.
  assert (Hget : dict_get k d = VNone).
  { induction d as [|[k' v'] d IH]; [reflexivity|].
    cbn [dict_has dict_get] in *.
    destruct (String.eqb k k'); [discriminate H|]. apply IH, H. }
  rewrite Hget. destruct keys; reflexivity.
Qed.

Lemma config_get_missing_witness :
  get default_config "trading.mode" VNone = VNone.
Proof.
  apply (config_get_missing default_config "trading.mode" VNone).
  vm_compute. reflexivity.
Defined.

End ConfigFacts.

(** ** Strategies *)

Section StrategyExtras.

Lemma crossover_flat (data : list strategy.Row) :
  Forall (fun row =>
            strategy.SMA_20 row = NaN \/ strategy.SMA_50 row = NaN
            \/ strategy.SMA_20 row = strategy.SMA_50 row) data ->
  Forall (fun s => s = 0%Z) (strategy.generate_signals data).
Proof.
  unfold strategy.generate_signals. cbv zeta.
  induction 1 as [|row data Hrow _ IH]; cbn [map zip_with]; constructor.
  - assert (Hgt : (strategy.SMA_20 row >? strategy.SMA_50 row)%fl = false
                  /\ (strategy.SMA_20 row <? strategy.SMA_50 row)%fl = false).
    { unfold fgt.
      destruct Hrow as [E|[E|E]]; rewrite E.
      - split; destruct (strategy.SMA_50 row); reflexivity.
      - split; destruct (strategy.SMA_20 row); reflexivity.
      - assert (Hirr : forall x, flt x x = false).
        { intros [q| | |]; try reflexivity.
          unfold flt, Qlt_bool. rewrite (proj2 (Qle_bool_iff q q));
            [reflexivity | apply Qle_refl]. }
        split; apply Hirr. }
    destruct Hgt as [-> ->]. reflexivity.
  - exact IH.
Qed.

Lemma loop_without_signals (risk : risk_manager.RiskManager)
    (symbol : string) (bars : list backtester.Bar) :
  Forall (fun s => s = 0%Z) (map backtester.signal bars) ->
  forall st,
    backtester.position st = 0%Z ->
    backtester.loop risk symbol st bars = Ok st.
Proof.
  induction bars as [|bar bars IH]; intros Hz st Hflat; [reflexivity|].
  cbn [map] in Hz. inversion Hz as [|? ? Hbar Hrest]; subst.
  cbn [backtester.loop]. unfold backtester.step.
  rewrite Hflat, Hbar. cbn [Z.eqb andb negb].
  unfold mbind, result_bind. apply IH; assumption.
Qed.

(** The moving-average strategy gives no signal on a row where an average
    is missing ([nan], as on the first 49 rows) or where the two averages
    are equal; a backtest over rows that are all of this kind makes no
    trade and ends with the initial capital, and it raises
    [ZeroDivisionError] when that capital is zero. *)
Theorem crossover_without_crossing_never_trades :
  forall (initial_capital commission : pyfloat) (symbol : string)
         (risk : risk_manager.RiskManager) (data : list strategy.Row)
         (bars : list backtester.Bar),
    map backtester.signal bars = strategy.generate_signals data ->
    Forall (fun row =>
              strategy.SMA_20 row = NaN \/ strategy.SMA_50 row = NaN
              \/ strategy.SMA_20 row = strategy.SMA_50 row) data ->
    let out :=
      backtester.run (backtester.new initial_capital commission) symbol risk
        bars in
    if is_zero initial_capital then out = Raise ZeroDivisionError
    else exists report,
           out = Ok report
           /\ backtester.trade_history report = []
           /\ backtester.total_trades report = 0%nat
           /\ backtester.profitable_trades report = 0%nat
           /\ backtester.final_portfolio_value report = initial_capital
           /\ backtester.win_rate report = Fin 0
           /\ backtester.total_pnl report = Fin 0.
Proof.
  intros ic c symbol risk data bars Hsig Hdata out. subst out.
  pose proof (crossover_flat data Hdata) as Hflat. rewrite <- Hsig in Hflat.
  unfold backtester.run.
  rewrite (loop_without_signals risk symbol bars Hflat) by reflexivity.
  unfold mbind, result_bind, fdiv.
  cbn [backtester.portfolio_value backtester.initial_capital backtester.new
       backtester.exec backtester.executor].
  destruct (is_zero ic); [reflexivity|].
  eexists. split; [reflexivity|]. repeat split.
Qed.

Lemma crossover_without_crossing_witness :
  exists report,
    backtester.run (backtester.new (Fin 100000) (Fin 0.001)) "SPY"
      risk_manager.default
      [{| backtester.timestamp := 1; backtester.signal := 0;
          backtester.close := Fin 100; backtester.volatility := NaN |};
       {| backtester.timestamp := 2; backtester.signal := 0;
          backtester.close := Fin 101; backtester.volatility := NaN |}]
    = Ok report
    /\ backtester.total_trades report = 0%nat
    /\ backtester.final_portfolio_value report = Fin 100000.
Proof.
  destruct (crossover_without_crossing_never_trades (Fin 100000) (Fin 0.001)
              "SPY" risk_manager.default
              [{| strategy.SMA_20 := NaN; strategy.SMA_50 := NaN |};
               {| strategy.SMA_20 := Fin 100.5; strategy.SMA_50 := NaN |}]
              [{| backtester.timestamp := 1; backtester.signal := 0;
                  backtester.close := Fin 100; backtester.volatility := NaN |};
               {| backtester.timestamp := 2; backtester.signal := 0;
                  backtester.close := Fin 101;
                  backtester.volatility := NaN |}])
    as (report & E & _ & Hn & _ & Hv & _).
  - reflexivity.
  - constructor; [left; reflexivity|].
    constructor; [right; left; reflexivity|]. constructor.
  - exists report. split; [exact E | split; [exact Hn | exact Hv]].
Defined.

(** A vote of [-1], [0] or [1]. *)
Lemma ensemble_row_two (a b : Z) :
  (a = -1 \/ a = 0 \/ a = 1)%Z -> (b = -1 \/ b = 0 \/ b = 1)%Z ->
  advanced_strategy.normalize
    (Fin 0 + of_int a * Fin (1 # 2) + of_int b * Fin (1 # 2))%fl
  = if (a =? b)%Z then a else 0%Z.
Proof.
  intros [-> | [-> | ->]] [-> | [-> | ->]]; vm_compute; reflexivity.
Qed.

Lemma ensemble_row_one (a : Z) :
  (a = -1 \/ a = 0 \/ a = 1)%Z ->
  advanced_strategy.normalize (Fin 0 + of_int a * Fin 1)%fl = a.
Proof.
  intros [-> | [-> | ->]]; vm_compute; reflexivity.
Qed.

(** With the default weights an ensemble of one strategy returns that
    strategy's signals, and an ensemble of two strategies is a unanimous
    vote: a row gets the signal both strategies give it, and 0 when they
    differ or when either gives none. *)
Theorem ensemble_default_weights_vote :
  forall (s1 s2 : list Z),
    Forall (fun a => a = -1 \/ a = 0 \/ a = 1)%Z s1 ->
    Forall (fun b => b = -1 \/ b = 0 \/ b = 1)%Z s2 ->
    length s2 = length s1 ->
    (exists ws,
       advanced_strategy.EnsembleStrategy_weights 1 None = Ok ws
       /\ advanced_strategy.generate_signals ws [s1] (length s1) = s1)
    /\ (exists ws,
          advanced_strategy.EnsembleStrategy_weights 2 None = Ok ws
          /\ advanced_strategy.generate_signals ws [s1; s2] (length s1)
             = zip_with (fun a b => if (a =? b)%Z then a else 0%Z) s1 s2).
Proof.
  intros s1 s2 H1 H2 Hlen. split.
  - exists [Fin 1]. split; [reflexivity|].
    unfold advanced_strategy.generate_signals.
    cbn [zip zip_with fold_left fst snd]. clear H2 Hlen s2.
    induction H1 as [|a s1 Ha _ IH]; [reflexivity|].
    cbn [length replicate map zip_with]. f_equal; [|exact IH].
    apply ensemble_row_one, Ha.
  - exists [Fin (1 # 2); Fin (1 # 2)]. split; [reflexivity|].
    unfold advanced_strategy.generate_signals.
    cbn [zip zip_with fold_left fst snd].
    revert s2 H2 Hlen.
    induction H1 as [|a s1 Ha _ IH]; intros s2 H2 Hlen.
    + destruct s2; [reflexivity | discriminate Hlen].
    + destruct H2 as [|b s2 Hb H2]; [discriminate Hlen|].
      cbn [length replicate map zip_with]. f_equal.
      * apply ensemble_row_two; assumption.
      * apply IH; [exact H2|]. cbn [length] in Hlen. lia.
Qed.

Lemma ensemble_default_weights_witness :
  exists ws,
    advanced_strategy.EnsembleStrategy_weights 2 None = Ok ws
    /\ advanced_strategy.generate_signals ws
         [[1; 1; 0; -1]%Z; [1; -1; 1; -1]%Z] 4
       = [1; 0; 0; -1]%Z.
Proof.
  destruct (ensemble_default_weights_vote [1; 1; 0; -1]%Z [1; -1; 1; -1]%Z)
    as [_ (ws & Hw & Hs)].
  - repeat (constructor; [lia|]). constructor.
  - repeat (constructor; [lia|]). constructor.
  - reflexivity.
  - exists ws. split; [exact Hw | exact Hs].
Defined.

End StrategyExtras.
